(** * BabyAGI PWA: the agent store and the scheduler hook

    A shallow embedding of [lib/types/index.ts], of the zustand store
    [agentStore] and of the two variants of the [useAgent] hook found in the
    repository, followed by the properties of the scheduling loop.

    Conventions.
    - JavaScript numbers that only ever hold integers here (iteration
      counters, clock readings, priorities, array lengths) are [Z];
      [Settings.temperature] is a rational.
    - Strings are byte strings; template literals are concatenations.
    - [Date.now()] and [Math.random()] are read from two oracles indexed by
      the number of readings made so far, so that any sequence of readings
      can be supplied.
    - An [async] function is cut at its single [await]: the part before it
      returns the suspended continuation, the part after it is a function of
      the value the promise settles with and of the store as it is then.
      What [services/apiService] computes is not embedded: the value an
      executor call settles with is an input.
    - The object returned by [getState()], or closed over by a callback, is
      a value: it keeps the fields it had when it was read, while the
      store's actions act on the current state. *)

From Stdlib Require Import List String Ascii ZArith QArith Bool Arith Lia DecimalString.
Import ListNotations.
Local Open Scope string_scope.
Local Open Scope Z_scope.

(** ** lib/types/index.ts *)

Inductive TaskStatus := pending | running | completed | failed.

Module LogType.
Inductive t := info | success | warning | error | task | result | thinking | milestone.
End LogType.

Inductive AgentMode := simulated | ai.
Inductive Theme := light | dark.
Inductive Provider := openrouter | openai | anthropic.

Record Task := mkTask {
  id : string;
  description : string;
  status : TaskStatus;
  priority : Z;
  createdAt : Z;
  completedAt : option Z;
  result : option string;
  dependencies : option (list string)
}.

Module Log.
Record Entry := mk {
  id : string;
  timestamp : Z;
  type : LogType.t;
  message : string;
  icon : string;
  metadata : option (list (string * string))
}.

(** [Omit<LogEntry, 'id' | 'timestamp'>], the argument of the store's [addLog]. *)
Record Draft := mkDraft {
  d_type : LogType.t;
  d_message : string;
  d_icon : string;
  d_metadata : option (list (string * string))
}.

(** The object literal [{ type, message, icon }] the hooks pass. *)
Definition draft (ty : LogType.t) (msg ico : string) : Draft :=
  mkDraft ty msg ico None.
End Log.

Module Settings.
Record t := mk {
  apiKey : string;
  provider : Provider;
  model : string;
  temperature : Q;
  iterationDelay : Z;
  maxTokens : Z;
  enableSounds : bool;
  autoScroll : bool;
  maxIterations : Z
}.
End Settings.

Record AgentState := mkAgentState {
  objective : string;
  tasks : list Task;
  executionLog : list Log.Entry;
  isRunning : bool;
  isPaused : bool;
  currentIteration : Z;
  maxIterations : Z;
  mode : AgentMode;
  settings : Settings.t;
  theme : Theme;
  sidebarCollapsed : bool;
  selectedTask : option string;
  sessionId : string
}.

(** [Partial<Task>]: every field may be absent. *)
Record TaskUpdates := mkUpdates {
  upd_id : option string;
  upd_description : option string;
  upd_status : option TaskStatus;
  upd_priority : option Z;
  upd_createdAt : option Z;
  upd_completedAt : option Z;
  upd_result : option string;
  upd_dependencies : option (list string)
}.

Definition noUpdates : TaskUpdates :=
  mkUpdates None None None None None None None None.

Definition orElse {A} (o : option A) (a : A) : A :=
  match o with Some v => v | None => a end.

Definition orKeep {A} (o old : option A) : option A :=
  match o with Some v => Some v | None => old end.

(** The object spread [{ ...task, ...updates }]. *)
Definition spread (t : Task) (u : TaskUpdates) : Task :=
  {| id := orElse (upd_id u) (id t);
     description := orElse (upd_description u) (description t);
     status := orElse (upd_status u) (status t);
     priority := orElse (upd_priority u) (priority t);
     createdAt := orElse (upd_createdAt u) (createdAt t);
     completedAt := orKeep (upd_completedAt u) (completedAt t);
     result := orKeep (upd_result u) (result t);
     dependencies := orKeep (upd_dependencies u) (dependencies t) |}.

Definition status_eqb (a b : TaskStatus) : bool :=
  match a, b with
  | pending, pending | running, running
  | completed, completed | failed, failed => true
  | _, _ => false
  end.

Definition mode_eqb (a b : AgentMode) : bool :=
  match a, b with
  | simulated, simulated | ai, ai => true
  | _, _ => false
  end.

Definition logtype_eqb (a b : LogType.t) : bool :=
  match a, b with
  | LogType.info, LogType.info | LogType.success, LogType.success
  | LogType.warning, LogType.warning | LogType.error, LogType.error
  | LogType.task, LogType.task | LogType.result, LogType.result
  | LogType.thinking, LogType.thinking
  | LogType.milestone, LogType.milestone => true
  | _, _ => false
  end.

(** Decimal rendering of an integer, as in a template literal or [toString()]. *)
Definition toString (n : Z) : string := NilZero.string_of_int (Z.to_int n).

(** A non-empty string is truthy. *)
Definition truthy (s : string) : bool := negb (s =? "")%string.

(** ** The store and the environment it reads *)

(** The session state together with the number of oracle readings made. *)
Record World := mkWorld {
  store : AgentState;
  reads : nat
}.

(** Field assignments, the object merges performed by zustand's [set]. *)
Definition set_objective (v : string) (s : AgentState) : AgentState :=
  mkAgentState v (tasks s) (executionLog s) (isRunning s) (isPaused s)
    (currentIteration s) (maxIterations s) (mode s) (settings s) (theme s)
    (sidebarCollapsed s) (selectedTask s) (sessionId s).

Definition set_tasks (v : list Task) (s : AgentState) : AgentState :=
  mkAgentState (objective s) v (executionLog s) (isRunning s) (isPaused s)
    (currentIteration s) (maxIterations s) (mode s) (settings s) (theme s)
    (sidebarCollapsed s) (selectedTask s) (sessionId s).

Definition set_executionLog (v : list Log.Entry) (s : AgentState) : AgentState :=
  mkAgentState (objective s) (tasks s) v (isRunning s) (isPaused s)
    (currentIteration s) (maxIterations s) (mode s) (settings s) (theme s)
    (sidebarCollapsed s) (selectedTask s) (sessionId s).

Definition set_isRunning (v : bool) (s : AgentState) : AgentState :=
  mkAgentState (objective s) (tasks s) (executionLog s) v (isPaused s)
    (currentIteration s) (maxIterations s) (mode s) (settings s) (theme s)
    (sidebarCollapsed s) (selectedTask s) (sessionId s).

Definition set_isPaused (v : bool) (s : AgentState) : AgentState :=
  mkAgentState (objective s) (tasks s) (executionLog s) (isRunning s) v
    (currentIteration s) (maxIterations s) (mode s) (settings s) (theme s)
    (sidebarCollapsed s) (selectedTask s) (sessionId s).

Definition set_currentIteration (v : Z) (s : AgentState) : AgentState :=
  mkAgentState (objective s) (tasks s) (executionLog s) (isRunning s) (isPaused s)
    v (maxIterations s) (mode s) (settings s) (theme s)
    (sidebarCollapsed s) (selectedTask s) (sessionId s).

Definition set_mode (v : AgentMode) (s : AgentState) : AgentState :=
  mkAgentState (objective s) (tasks s) (executionLog s) (isRunning s) (isPaused s)
    (currentIteration s) (maxIterations s) v (settings s) (theme s)
    (sidebarCollapsed s) (selectedTask s) (sessionId s).

Definition set_settings (v : Settings.t) (s : AgentState) : AgentState :=
  mkAgentState (objective s) (tasks s) (executionLog s) (isRunning s) (isPaused s)
    (currentIteration s) (maxIterations s) (mode s) v (theme s)
    (sidebarCollapsed s) (selectedTask s) (sessionId s).

Definition set_theme (v : Theme) (s : AgentState) : AgentState :=
  mkAgentState (objective s) (tasks s) (executionLog s) (isRunning s) (isPaused s)
    (currentIteration s) (maxIterations s) (mode s) (settings s) v
    (sidebarCollapsed s) (selectedTask s) (sessionId s).

Definition set_sidebarCollapsed (v : bool) (s : AgentState) : AgentState :=
  mkAgentState (objective s) (tasks s) (executionLog s) (isRunning s) (isPaused s)
    (currentIteration s) (maxIterations s) (mode s) (settings s) (theme s)
    v (selectedTask s) (sessionId s).

Definition set_selectedTask (v : option string) (s : AgentState) : AgentState :=
  mkAgentState (objective s) (tasks s) (executionLog s) (isRunning s) (isPaused s)
    (currentIteration s) (maxIterations s) (mode s) (settings s) (theme s)
    (sidebarCollapsed s) v (sessionId s).

Definition set_sessionId (v : string) (s : AgentState) : AgentState :=
  mkAgentState (objective s) (tasks s) (executionLog s) (isRunning s) (isPaused s)
    (currentIteration s) (maxIterations s) (mode s) (settings s) (theme s)
    (sidebarCollapsed s) (selectedTask s) v.

(** [set(f)] on the store, leaving the oracle position alone. *)
Definition set (f : AgentState -> AgentState) (w : World) : World :=
  mkWorld (f (store w)) (reads w).

Definition defaultSettings : Settings.t :=
  {| Settings.apiKey := "";
     Settings.provider := openrouter;
     Settings.model := "meta-llama/llama-3.1-8b-instruct:free";
     Settings.temperature := (7 # 10)%Q;
     Settings.iterationDelay := 1000;
     Settings.maxTokens := 1000;
     Settings.enableSounds := false;
     Settings.autoScroll := true;
     Settings.maxIterations := 20 |}.

(** What the embedded files call but do not define: the clock, the random
    source, and the functions of [services/taskGenerator]. [dateNow n] is the
    [n]-th reading of [Date.now()], [mathRandom n] the rendering of the
    [n]-th reading of [Math.random()]. *)
Record Env := mkEnv {
  dateNow : nat -> Z;
  mathRandom : nat -> string;
  generateInitialTasks : string -> list Task;
  generateFollowUpTasks : Task -> string -> string -> list Task;
  prioritizeTasks : list Task -> list Task
}.

(** ** lib/stores/agentStore.ts *)

Module AgentStore.
Section Actions.

Variable E : Env.

(** The state the store is created with. The [persist] middleware, which
    may then restore a saved [settings] and [theme], is outside this
    embedding. *)
Definition initial : World :=
  {| store :=
       {| objective := "";
          tasks := [];
          executionLog := [];
          isRunning := false;
          isPaused := false;
          currentIteration := 0;
          maxIterations := 20;
          mode := simulated;
          settings := defaultSettings;
          theme := dark;
          sidebarCollapsed := false;
          selectedTask := None;
          sessionId := toString (dateNow E 0) |};
     reads := 1 |}.

Definition setObjective (o : string) : World -> World :=
  set (set_objective o).

Definition startAgent : World -> World :=
  set (fun s => set_isPaused false (set_isRunning true s)).

Definition pauseAgent : World -> World :=
  set (set_isPaused true).

Definition resetAgent (w : World) : World :=
  let s := store w in
  {| store :=
       {| objective := "";
          tasks := [];
          executionLog := [];
          isRunning := false;
          isPaused := false;
          currentIteration := 0;
          maxIterations := maxIterations s;
          mode := mode s;
          settings := settings s;
          theme := theme s;
          sidebarCollapsed := sidebarCollapsed s;
          selectedTask := None;
          sessionId := toString (dateNow E (reads w)) |};
     reads := S (reads w) |}.

Definition addTask (t : Task) : World -> World :=
  set (fun s => set_tasks (tasks s ++ [t]) s).

Definition updateTask (taskId : string) (updates : TaskUpdates) : World -> World :=
  set (fun s =>
    set_tasks
      (map (fun t => if (id t =? taskId)%string then spread t updates else t)
           (tasks s)) s).

(** The [map] of [completeTask]: [Date.now()] is read once for every task
    whose id matches. *)
Fixpoint completeAll (taskId res : string) (ts : list Task) (n : nat)
  : list Task * nat :=
  match ts with
  | [] => ([], n)
  | t :: rest =>
      if (id t =? taskId)%string then
        let t' :=
          {| id := id t; description := description t;
             status := completed; priority := priority t;
             createdAt := createdAt t;
             completedAt := Some (dateNow E n);
             result := Some res;
             dependencies := dependencies t |} in
        let (rest', n') := completeAll taskId res rest (S n) in
        (t' :: rest', n')
      else
        let (rest', n') := completeAll taskId res rest n in
        (t :: rest', n')
  end.

Definition completeTask (taskId res : string) (w : World) : World :=
  let (ts, n) := completeAll taskId res (tasks (store w)) (reads w) in
  mkWorld (set_tasks ts (store w)) n.

Definition addLog (entry : Log.Draft) (w : World) : World :=
  let n := reads w in
  let e :=
    {| Log.id := "log-" ++ toString (dateNow E n) ++ "-" ++ mathRandom E (S n);
       Log.timestamp := dateNow E (S (S n));
       Log.type := Log.d_type entry;
       Log.message := Log.d_message entry;
       Log.icon := Log.d_icon entry;
       Log.metadata := Log.d_metadata entry |} in
  mkWorld (set_executionLog (executionLog (store w) ++ [e]) (store w))
          (S (S (S n))).

(** [Partial<Settings>] and the spread [{ ...state.settings, ...settings }]. *)
Record SettingsUpdates := mkSettingsUpdates {
  upd_apiKey : option string;
  upd_provider : option Provider;
  upd_model : option string;
  upd_temperature : option Q;
  upd_iterationDelay : option Z;
  upd_maxTokens : option Z;
  upd_enableSounds : option bool;
  upd_autoScroll : option bool;
  upd_maxIterations : option Z
}.

Definition updateSettings (u : SettingsUpdates) : World -> World :=
  set (fun s =>
    let c := settings s in
    set_settings
      {| Settings.apiKey := orElse (upd_apiKey u) (Settings.apiKey c);
         Settings.provider := orElse (upd_provider u) (Settings.provider c);
         Settings.model := orElse (upd_model u) (Settings.model c);
         Settings.temperature := orElse (upd_temperature u) (Settings.temperature c);
         Settings.iterationDelay := orElse (upd_iterationDelay u) (Settings.iterationDelay c);
         Settings.maxTokens := orElse (upd_maxTokens u) (Settings.maxTokens c);
         Settings.enableSounds := orElse (upd_enableSounds u) (Settings.enableSounds c);
         Settings.autoScroll := orElse (upd_autoScroll u) (Settings.autoScroll c);
         Settings.maxIterations := orElse (upd_maxIterations u) (Settings.maxIterations c) |}
      s).

Definition toggleTheme : World -> World :=
  set (fun s => set_theme (match theme s with dark => light | light => dark end) s).

Definition toggleSidebar : World -> World :=
  set (fun s => set_sidebarCollapsed (negb (sidebarCollapsed s)) s).

Definition setSelectedTask (taskId : option string) : World -> World :=
  set (set_selectedTask taskId).

Definition incrementIteration : World -> World :=
  set (fun s => set_currentIteration (currentIteration s + 1) s).

Definition setMode (m : AgentMode) : World -> World :=
  set (set_mode m).

End Actions.
End AgentStore.

(** ** What an awaited executor call settles with *)

(** The value a [catch] clause receives: an [Error] object with its message,
    or anything else. *)
Inductive Thrown := ErrorObject (msg : string) | OtherValue.

Inductive Settled (A : Type) :=
| Fulfilled (a : A)
| Rejected (e : Thrown).
Arguments Fulfilled {A} a.
Arguments Rejected {A} e.

(** The object [executeTaskWithAI] resolves to in the first hook; its
    [error] field may be absent. *)
Record AiResponse := mkAiResponse {
  content : string;
  error : option string
}.

Inductive Reply :=
| AiReply (r : Settled AiResponse)
| SimReply (r : Settled string).

(** [error instanceof Error ? error.message : 'Unknown error'] *)
Definition errorText (e : Thrown) : string :=
  match e with
  | ErrorObject msg => msg
  | OtherValue => "Unknown error"
  end.

Definition statusIs (st : TaskStatus) (t : Task) : bool :=
  status_eqb (status t) st.

(** ** lib/hooks/useAgent.ts, the hook that reads the store with [getState] *)

Module UseAgent.
Section Hook.

Variable E : Env.

Definition hasPendingDependencies (t : Task) (allTasks : list Task) : bool :=
  match dependencies t with
  | None => false
  | Some deps =>
      if (List.length deps =? 0)%nat then false
      else
        existsb (fun depId =>
          match find (fun t' => (id t' =? depId)%string) allTasks with
          | Some depTask => negb (status_eqb (status depTask) completed)
          | None => false
          end) deps
  end.

(** The test of the [find] that picks the next task. *)
Definition eligible (allTasks : list Task) (t : Task) : bool :=
  statusIs pending t && negb (hasPendingDependencies t allTasks).

(** [Math.floor((completedCount / totalCount) * 100)]. For the counts a task
    list can have, the double-precision value lies in 25, 50, 75 exactly
    when the integer quotient does; with [totalCount] zero the source has
    [NaN] or [Infinity], which is in no list of thresholds, as is the [0]
    returned here. *)
Definition progressOf (completedCount totalCount : nat) : Z :=
  (Z.of_nat completedCount * 100) / Z.of_nat totalCount.

(** What is kept across the [await]: the [state] read at the start of the
    iteration, the chosen task, and which executor was called. *)
Record Suspended := mkSuspended {
  snapshot : AgentState;
  nextTask : Task;
  viaAI : bool
}.

(** How the part of [executeAgentIteration] before the [await] ends: one of
    its five [return]s, or the [await] with a task started. *)
Inductive Tick :=
| NotRunning (w : World)
| BudgetReached (w : World)
| Seeded (w : World)
| Completed (w : World)
| NothingToRun (w : World)
| Awaiting (w : World) (k : Suspended).

Definition worldOf (t : Tick) : World :=
  match t with
  | NotRunning w | BudgetReached w | Seeded w | Completed w
  | NothingToRun w | Awaiting w _ => w
  end.

Definition iterationStart (w : World) : Tick :=
  let state := store w in
  if negb (isRunning state) || isPaused state then NotRunning w
  else if currentIteration state >=? maxIterations state then
    let w1 := AgentStore.addLog E
      (Log.draft LogType.milestone
         ("🎯 Reached maximum iterations (" ++ toString (maxIterations state)
            ++ "). Agent stopped.")
         "🎯") w in
    BudgetReached (AgentStore.pauseAgent w1)
  else if (List.length (tasks state) =? 0)%nat && truthy (objective state) then
    let initialTasks := generateInitialTasks E (objective state) in
    let w1 := fold_left (fun acc t => AgentStore.addTask t acc) initialTasks w in
    Seeded (AgentStore.addLog E
      (Log.draft LogType.info
         ("📝 Generated " ++ toString (Z.of_nat (List.length initialTasks))
            ++ " initial tasks")
         "📝") w1)
  else
    let sortedTasks := prioritizeTasks E (tasks state) in
    match find (eligible (tasks state)) sortedTasks with
    | None =>
        let completedTasks := filter (statusIs completed) (tasks state) in
        let allCompleted :=
          forallb (fun t => statusIs completed t || statusIs failed t)
                  (tasks state) in
        if allCompleted && (0 <? List.length completedTasks)%nat then
          let w1 := AgentStore.addLog E
            (Log.draft LogType.milestone
               "✅ All tasks completed! Objective achieved." "✅") w in
          Completed (AgentStore.pauseAgent w1)
        else NothingToRun w
    | Some next =>
        let w1 := AgentStore.incrementIteration w in
        let w2 := AgentStore.updateTask (id next)
          (mkUpdates None None (Some running) None None None None None) w1 in
        let w3 := AgentStore.addLog E
          (Log.draft LogType.task ("▶️ Starting: " ++ description next) "▶️")
          w2 in
        if mode_eqb (mode state) ai && truthy (Settings.apiKey (settings state))
        then
          Awaiting
            (AgentStore.addLog E
               (Log.draft LogType.thinking "💭 AI is thinking..." "💭") w3)
            (mkSuspended state next true)
        else
          Awaiting
            (AgentStore.addLog E
               (Log.draft LogType.info "🔍 Processing task..." "🔍") w3)
            (mkSuspended state next false)
    end.

(** The statements of the [try] block between the [await] and
    [completeTask]: a response with a truthy [error] is thrown. *)
Definition awaited (r : Reply) : Settled string :=
  match r with
  | AiReply (Fulfilled resp) =>
      match error resp with
      | Some e => if truthy e then Rejected (ErrorObject e)
                  else Fulfilled (content resp)
      | None => Fulfilled (content resp)
      end
  | AiReply (Rejected e) => Rejected e
  | SimReply r' => r'
  end.

Definition milestoneDraft (progress : Z) : Log.Draft :=
  Log.draft LogType.milestone
    ("🎯 Milestone: " ++ toString progress ++ "% complete!") "🎯".

(** The rest of [executeAgentIteration], run on the store as it is when the
    promise settles. [state] is still the object read at the start. *)
Definition iterationEnd (k : Suspended) (r : Settled string) (w : World) : World :=
  let state := snapshot k in
  let next := nextTask k in
  match r with
  | Fulfilled res =>
      let w1 := AgentStore.completeTask E (id next) res w in
      let w2 := AgentStore.addLog E
        (Log.draft LogType.success ("✅ Completed: " ++ description next) "✅")
        w1 in
      let w3 := AgentStore.addLog E
        (Log.draft LogType.result ("📊 Result: " ++ res) "📊") w2 in
      let followUpTasks := generateFollowUpTasks E next res (objective state) in
      let w4 :=
        if (0 <? List.length followUpTasks)%nat then
          AgentStore.addLog E
            (Log.draft LogType.info
               ("📝 Generated " ++ toString (Z.of_nat (List.length followUpTasks))
                  ++ " follow-up task(s)")
               "📝")
            (fold_left (fun acc t => AgentStore.addTask t acc) followUpTasks w3)
        else w3 in
      let completedCount := List.length (filter (statusIs completed) (tasks state)) in
      let totalCount := List.length (tasks state) in
      let progress := progressOf completedCount totalCount in
      if existsb (Z.eqb progress) [25; 50; 75] then
        AgentStore.addLog E (milestoneDraft progress) w4
      else w4
  | Rejected e =>
      let w1 := AgentStore.updateTask (id next)
        (mkUpdates None None (Some failed) None None None None None) w in
      AgentStore.addLog E
        (Log.draft LogType.error ("❌ Failed: " ++ errorText e) "❌") w1
  end.

(** The hook instance: the store, whether [agentLoopRef.current] holds an
    interval, and the iterations suspended at their [await]. *)
Record Hook := mkHook {
  world : World;
  agentLoopRef : bool;
  awaiting : list Suspended
}.

Definition stopAgentLoop (h : Hook) : Hook :=
  if agentLoopRef h then mkHook (world h) false (awaiting h) else h.

(** [executeAgentIteration] up to its return or its [await]. *)
Definition executeAgentIteration (h : Hook) : Hook :=
  match iterationStart (world h) with
  | NotRunning w => stopAgentLoop (mkHook w (agentLoopRef h) (awaiting h))
  | BudgetReached w => stopAgentLoop (mkHook w (agentLoopRef h) (awaiting h))
  | Seeded w => mkHook w (agentLoopRef h) (awaiting h)
  | Completed w => stopAgentLoop (mkHook w (agentLoopRef h) (awaiting h))
  | NothingToRun w => mkHook w (agentLoopRef h) (awaiting h)
  | Awaiting w k => mkHook w (agentLoopRef h) (awaiting h ++ [k])
  end.

Definition startAgentLoop (h : Hook) : Hook :=
  if agentLoopRef h then h
  else executeAgentIteration (mkHook (world h) true (awaiting h)).

(** The effect on [[store.isRunning, store.isPaused]]: when either changed,
    the previous cleanup runs and the loop is started or stopped. It is run
    after the operator's commands; after an iteration it would change
    nothing, since an iteration changes these flags only by pausing and then
    clears the interval itself. *)
Definition useEffect (before : AgentState) (h : Hook) : Hook :=
  let now := store (world h) in
  if Bool.eqb (isRunning before) (isRunning now)
     && Bool.eqb (isPaused before) (isPaused now)
  then h
  else
    let h' := stopAgentLoop h in
    if isRunning now && negb (isPaused now) then startAgentLoop h'
    else stopAgentLoop h'.

Fixpoint removeAt {A} (n : nat) (l : list A) : list A :=
  match n, l with
  | _, [] => []
  | O, _ :: rest => rest
  | S m, x :: rest => x :: removeAt m rest
  end.

Definition replyMatches (k : Suspended) (r : Reply) : bool :=
  match r with
  | AiReply _ => viaAI k
  | SimReply _ => negb (viaAI k)
  end.

(** What can happen to a mounted hook: the interval fires, the [n]-th
    pending executor call settles, or the operator pauses, resets or edits
    the objective. A cleared interval does not fire. *)
Inductive Event :=
| TimerFires
| Settles (n : nat) (r : Reply)
| PauseAgent
| ResetAgent
| SetObjective (text : string).

Definition step (h : Hook) (ev : Event) : Hook :=
  match ev with
  | TimerFires =>
      if agentLoopRef h then executeAgentIteration h else h
  | Settles n r =>
      match nth_error (awaiting h) n with
      | Some k =>
          if replyMatches k r then
            mkHook (iterationEnd k (awaited r) (world h)) (agentLoopRef h)
                   (removeAt n (awaiting h))
          else h
      | None => h
      end
  | PauseAgent =>
      useEffect (store (world h))
        (mkHook (AgentStore.pauseAgent (world h)) (agentLoopRef h) (awaiting h))
  | ResetAgent =>
      useEffect (store (world h))
        (mkHook (AgentStore.resetAgent E (world h)) (agentLoopRef h) (awaiting h))
  | SetObjective text =>
      mkHook (AgentStore.setObjective text (world h)) (agentLoopRef h)
             (awaiting h)
  end.

Definition run (h : Hook) (evs : list Event) : Hook :=
  fold_left step evs h.

(** The hook states passed through, the first one included. *)
Fixpoint trace (h : Hook) (evs : list Event) : list Hook :=
  match evs with
  | [] => [h]
  | ev :: rest => h :: trace (step h ev) rest
  end.

End Hook.
End UseAgent.

(** ** The second [useAgent], built from [useCallback] closures over [store] *)

Module UseAgentCallback.
Section Hook.

Variable E : Env.

(** Modelled from the spec: this hook calls [setIsRunning], [setIsPaused],
    [setCurrentIteration], [clearTasks], [clearLogs] and an [addLog] that
    takes a complete entry; the store that defines them is not among the
    sources. Following the spec's description of the store as a pure
    mutation surface (section 4.4) and of the log as append-only (section
    4.5), each assigns the field it names, [clearTasks] and [clearLogs]
    empty their sequence and [addLog] appends. [addTask] and [updateTask]
    are those of the store above. *)
Definition setIsRunning (b : bool) : World -> World := set (set_isRunning b).
Definition setIsPaused (b : bool) : World -> World := set (set_isPaused b).
Definition setCurrentIteration (n : Z) : World -> World :=
  set (set_currentIteration n).
Definition clearTasks : World -> World := set (set_tasks []).
Definition clearLogs : World -> World := set (set_executionLog []).
Definition addLog (e : Log.Entry) : World -> World :=
  set (fun s => set_executionLog (executionLog s ++ [e]) s).

(** The object literal the hook passes to [addLog]: [Date.now()] is read
    for the id and again for the timestamp. *)
Definition logNow (suffix : string) (ty : LogType.t) (msg ico : string)
                  (w : World) : World :=
  let n := reads w in
  addLog
    {| Log.id := "log-" ++ toString (dateNow E n) ++ suffix;
       Log.timestamp := dateNow E (S n);
       Log.type := ty;
       Log.message := msg;
       Log.icon := ico;
       Log.metadata := None |}
    (mkWorld (store w) (S (S n))).

(** [progress === p] for [progress = (completedCount / totalCount) * 100]:
    for the counts a task list can have, the double-precision product equals
    the integer [p] exactly when the ratio is [p] percent. *)
Definition progressIs (completedCount totalCount : nat) (p : Z) : bool :=
  negb (totalCount =? 0)%nat
  && (Z.of_nat completedCount * 100 =? p * Z.of_nat totalCount).

(** What is kept across the [await]: the [store] object the callback closed
    over, and the chosen task. *)
Record Suspended := mkSuspended {
  snapshot : AgentState;
  nextTask : Task
}.

Inductive Tick :=
| Stopped (w : World)
| Awaiting (w : World) (k : Suspended).

Definition worldOf (t : Tick) : World :=
  match t with Stopped w | Awaiting w _ => w end.

(** [executeAgentIteration] up to its return or its [await]. [st] is the
    [store] object the callback closed over, taken to be the store's state
    when the iteration starts; [stopAgentLoop] only clears the interval handle. *)
Definition iterationStart (w : World) : Tick :=
  let st := store w in
  let pendingTasks := filter (statusIs pending) (tasks st) in
  if (List.length pendingTasks =? 0)%nat
     || (currentIteration st >=? maxIterations st) then
    let w1 := setIsRunning false w in
    if currentIteration st >=? maxIterations st then
      Stopped (logNow "" LogType.warning
                 ("Reached maximum iterations ("
                    ++ toString (maxIterations st) ++ ")")
                 "⚠️" w1)
    else
      Stopped (logNow "" LogType.milestone
                 "🎉 All tasks completed! Objective achieved!" "🎯" w1)
  else
    match pendingTasks with
    | [] => Stopped w
    | next :: _ =>
        let w1 := AgentStore.updateTask (id next)
          (mkUpdates None None (Some running) None None None None None) w in
        let w2 := setCurrentIteration (currentIteration st + 1) w1 in
        let w3 := logNow "-start" LogType.task
                    ("Starting: " ++ description next) "▶️" w2 in
        let w4 := logNow "-processing" LogType.thinking
                    "Processing task..." "🔍" w3 in
        Awaiting w4 (mkSuspended st next)
    end.

(** The rest of [executeAgentIteration]; both executors resolve to the
    result string. *)
Definition iterationEnd (k : Suspended) (r : Settled string) (w : World) : World :=
  let st := snapshot k in
  let next := nextTask k in
  match r with
  | Fulfilled res =>
      let w1 := AgentStore.updateTask (id next)
        (mkUpdates None None (Some completed) None None
                   (Some (dateNow E (reads w))) (Some res) None)
        (mkWorld (store w) (S (reads w))) in
      let w2 := logNow "-complete" LogType.success
                  ("Completed: " ++ description next) "✅" w1 in
      let w3 := logNow "-result" LogType.result ("Result: " ++ res) "📊" w2 in
      let followUpTasks := generateFollowUpTasks E next res (objective st) in
      let w4 :=
        if (0 <? List.length followUpTasks)%nat then
          logNow "-followup" LogType.info
            ("Generated " ++ toString (Z.of_nat (List.length followUpTasks))
               ++ " follow-up task(s)")
            "📝"
            (fold_left (fun acc t => AgentStore.addTask t acc) followUpTasks w3)
        else w3 in
      let completedCount :=
        List.length (filter (statusIs completed) (tasks st)) in
      let totalCount := List.length (tasks st) in
      match find (progressIs completedCount totalCount) [25; 50; 75; 100] with
      | Some p =>
          logNow "-milestone" LogType.milestone
            ("Milestone: " ++ toString p ++ "% complete!") "🎯" w4
      | None => w4
      end
  | Rejected e =>
      let w1 := AgentStore.updateTask (id next)
        (mkUpdates None None (Some failed) None None None
                   (Some (errorText e)) None) w in
      logNow "-error" LogType.error
        ("Failed: " ++ description next ++ " - " ++ errorText e) "❌" w1
  end.

(** [pauseAgent] toggles; the message is chosen from the closed-over
    [store.isPaused], the value before the toggle. *)
Definition pauseAgent (w : World) : World :=
  let st := store w in
  logNow "" LogType.info
    (if isPaused st then "Agent resumed" else "Agent paused")
    (if isPaused st then "▶️" else "⏸️")
    (setIsPaused (negb (isPaused st)) w).

Definition resetAgent (w : World) : World :=
  let w1 := setIsRunning false w in
  let w2 := setIsPaused false w1 in
  let w3 := setCurrentIteration 0 w2 in
  let w4 := clearTasks w3 in
  let w5 := clearLogs w4 in
  logNow "" LogType.info "Agent reset" "🔄" w5.

End Hook.
End UseAgentCallback.

(** ** A task generator and sample sessions *)

(** Modelled from the spec: [prioritizeTasks] of [services/taskGenerator] is
    not among the sources; section 4.1 describes it as a stable sort by
    [priority] descending, ties broken by insertion order. *)
Fixpoint insertByPriority (t : Task) (sorted : list Task) : list Task :=
  match sorted with
  | [] => [t]
  | u :: rest =>
      if priority u >? priority t then u :: insertByPriority t rest
      else t :: sorted
  end.

Fixpoint sortByPriority (ts : list Task) : list Task :=
  match ts with
  | [] => []
  | t :: rest => insertByPriority t (sortByPriority rest)
  end.

Definition pendingTask (i d : string) (p : Z) (deps : option (list string)) : Task :=
  {| id := i; description := d; status := pending; priority := p;
     createdAt := 0; completedAt := None; result := None;
     dependencies := deps |}.

(** An environment for the examples: the clock advances by one millisecond
    at every reading, one initial task is generated and no follow-up. *)
Definition sampleEnv : Env :=
  {| dateNow := fun n => 1700000000000 + Z.of_nat n;
     mathRandom := fun _ => "0.5";
     generateInitialTasks := fun o => [pendingTask "task-1" o 1 None];
     generateFollowUpTasks := fun _ _ _ => [];
     prioritizeTasks := sortByPriority |}.

(** The same with a clock that does not advance between readings. *)
Definition frozenEnv : Env :=
  {| dateNow := fun _ => 1700000000000;
     mathRandom := fun _ => "0.5";
     generateInitialTasks := fun o => [pendingTask "task-1" o 1 None];
     generateFollowUpTasks := fun _ _ _ => [];
     prioritizeTasks := sortByPriority |}.

(** A running session holding the given tasks. *)
Definition session (ts : list Task) : World :=
  {| store :=
       {| objective := "Write a blog post";
          tasks := ts;
          executionLog := [];
          isRunning := true;
          isPaused := false;
          currentIteration := 0;
          maxIterations := 20;
          mode := simulated;
          settings := defaultSettings;
          theme := dark;
          sidebarCollapsed := false;
          selectedTask := None;
          sessionId := "1700000000000" |};
     reads := 1 |}.

(** The same session with another iteration limit. *)
Definition sessionWithLimit (limit : Z) (ts : list Task) : World :=
  set (fun s =>
         mkAgentState (objective s) (tasks s) (executionLog s) (isRunning s)
           (isPaused s) (currentIteration s) limit (mode s) (settings s)
           (theme s) (sidebarCollapsed s) (selectedTask s) (sessionId s))
      (session ts).

(** The same session in AI mode with an API key entered. *)
Definition aiSession (ts : list Task) : World :=
  AgentStore.updateSettings
    (AgentStore.mkSettingsUpdates (Some "sk-or-v1-0000") None None None None
       None None None None)
    (AgentStore.setMode ai (session ts)).

Definition T1 : Task := pendingTask "t1" "Outline the post" 2 None.
Definition T2 : Task := pendingTask "t2" "Draft the post" 1 None.

Definition T3 : Task := pendingTask "t3" "Publish the post" 0 None.

(** [T1] waiting for [T2]. *)
Definition T1_after_T2 : Task :=
  pendingTask "t1" "Outline the post" 2 (Some ["t2"]).

(** A task whose execution failed earlier. *)
Definition T_failed : Task :=
  {| id := "t0"; description := "Collect sources"; status := failed;
     priority := 3; createdAt := 0; completedAt := None;
     result := None; dependencies := None |}.

(** [t2] after a failed execution: [T1_after_T2] can then never run. *)
Definition T2_failed : Task :=
  {| id := "t2"; description := "Draft the post"; status := failed;
     priority := 1; createdAt := 0; completedAt := None;
     result := None; dependencies := None |}.

(** A completed task, and a task that lists it next to an id no task has. *)
Definition T_done : Task :=
  {| id := "t0"; description := "Collect sources"; status := completed;
     priority := 3; createdAt := 0; completedAt := Some 1699999999000;
     result := Some "Sources collected"; dependencies := None |}.

Definition T3_dangling : Task :=
  pendingTask "t3" "Publish the post" 1 (Some ["ghost"; "t0"]).

(** The first hook mounted on a session with its interval armed. *)
Definition mounted (w : World) : UseAgent.Hook :=
  UseAgent.mkHook w true [].

Definition statuses (w : World) : list (string * TaskStatus) :=
  map (fun t => (id t, status t)) (tasks (store w)).

Definition countStatus (st : TaskStatus) (w : World) : nat :=
  List.length (filter (statusIs st) (tasks (store w))).

(** The log entries of a given type, by message. *)
Definition messagesOf (ty : LogType.t) (w : World) : list string :=
  map Log.message
    (filter (fun e => logtype_eqb (Log.type e) ty) (executionLog (store w))).

Definition idStatusResult (w : World) : list (string * TaskStatus * option string) :=
  map (fun t => (id t, status t, result t)) (tasks (store w)).

(** Two hundred tasks with distinct ids, the first [done] of them completed. *)
Definition numbered (done : nat) (i : nat) : Task :=
  {| id := "n" ++ toString (Z.of_nat i);
     description := "Step";
     status := if (i <? done)%nat then completed else pending;
     priority := 0; createdAt := 0; completedAt := None;
     result := None; dependencies := None |}.

Definition twoHundred (done : nat) : list Task :=
  map (numbered done) (seq 0 200).

(** A check that the strings of a list are pairwise different. *)
Fixpoint distinct (l : list string) : bool :=
  match l with
  | [] => true
  | x :: rest => negb (existsb (String.eqb x) rest) && distinct rest
  end.

(** ** Predicates used in the statements *)

(** The store with its two loop flags overwritten. *)
Definition withFlags (running paused : bool) : World -> World :=
  set (fun s => set_isPaused paused (set_isRunning running s)).

(** What [completeTask] does to one task. *)
Definition committed (taskId res : string) (t t' : Task) : Prop :=
  if (id t =? taskId)%string then
    id t' = id t /\ description t' = description t
    /\ status t' = completed /\ result t' = Some res
    /\ priority t' = priority t /\ dependencies t' = dependencies t
  else t' = t.

(** A task that will not run again. *)
Definition resolved (t : Task) : Prop :=
  status t = completed \/ status t = failed.

Definition isReset (ev : UseAgent.Event) : bool :=
  match ev with UseAgent.ResetAgent => true | _ => false end.

Definition noReset (evs : list UseAgent.Event) : bool :=
  forallb (fun ev => negb (isReset ev)) evs.

(** From [w] to [w']: the limit is the same, the counter has not decreased,
    and it has stayed within the limit if it was. *)
Definition advances (w w' : World) : Prop :=
  maxIterations (store w') = maxIterations (store w)
  /\ currentIteration (store w) <= currentIteration (store w')
  /\ (currentIteration (store w) <= maxIterations (store w) ->
      currentIteration (store w') <= maxIterations (store w')).

(** One iteration of the first hook carried through with nothing in
    between: the part before the [await] and, when a task was started, the
    rest with what the executor call settled with. *)
Definition iterate (E : Env) (w : World) (r : Settled string) : World :=
  match UseAgent.iterationStart E w with
  | UseAgent.Awaiting w' k => UseAgent.iterationEnd E k r w'
  | t => UseAgent.worldOf t
  end.

(** A session in which no two iterations overlap. *)
Definition iterations (E : Env) (w : World) (rs : list (Settled string)) : World :=
  fold_left (iterate E) rs w.

(** The number of log entries announcing [p] percent, for each hook's
    wording. *)
Definition isMilestoneAt (p : Z) (e : Log.Entry) : bool :=
  logtype_eqb (Log.type e) LogType.milestone
  && (Log.message e =? Log.d_message (UseAgent.milestoneDraft p))%string.

Definition milestonesAt (p : Z) (w : World) : nat :=
  List.length (filter (isMilestoneAt p) (executionLog (store w))).

Definition isCallbackMilestoneAt (p : Z) (e : Log.Entry) : bool :=
  logtype_eqb (Log.type e) LogType.milestone
  && (Log.message e =? "Milestone: " ++ toString p ++ "% complete!")%string.

Definition callbackMilestonesAt (p : Z) (w : World) : nat :=
  List.length (filter (isCallbackMilestoneAt p) (executionLog (store w))).

(** The percentage an iteration of the first hook computes from the state
    it read. *)
Definition snapshotProgress (s : AgentState) : Z :=
  UseAgent.progressOf (List.length (filter (statusIs completed) (tasks s)))
                      (List.length (tasks s)).

(** What holds between the iterations of a session of [n] tasks with
    distinct ids: [p] percent has been announced at most once, and if it
    has, the percentage computed from now on is past [p]. *)
Definition announcedOnce (p : Z) (n : nat) (w : World) : Prop :=
  NoDup (map id (tasks (store w)))
  /\ List.length (tasks (store w)) = n
  /\ (milestonesAt p w <= 1)%nat
  /\ (milestonesAt p w = 1%nat ->
      p < UseAgent.progressOf (countStatus completed w) n).

(** The same for the callback hook. *)
Definition callbackIterate (E : Env) (w : World) (r : Settled string) : World :=
  match UseAgentCallback.iterationStart E w with
  | UseAgentCallback.Awaiting w' k => UseAgentCallback.iterationEnd E k r w'
  | UseAgentCallback.Stopped w' => w'
  end.

Definition callbackIterations (E : Env) (w : World)
                              (rs : list (Settled string)) : World :=
  fold_left (callbackIterate E) rs w.

Definition callbackAnnouncedOnce (p : Z) (n : nat) (w : World) : Prop :=
  NoDup (map id (tasks (store w)))
  /\ List.length (tasks (store w)) = n
  /\ (callbackMilestonesAt p w <= 1)%nat
  /\ (callbackMilestonesAt p w = 1%nat ->
      p * Z.of_nat n < Z.of_nat (countStatus completed w) * 100).

(** A task that waits for itself. *)
Definition T_self : Task :=
  pendingTask "t7" "Review the post" 1 (Some ["t7"]).

(** ** The commands the hooks return, and what the store persists *)

(** [!objective.trim()]: the string holds nothing but the white space and
    line terminators that [trim] removes, read as UTF-8: U+0009 to U+000D,
    U+0020, U+00A0, U+1680, U+2000 to U+200A, U+2028, U+2029, U+202F,
    U+205F, U+3000 and U+FEFF. *)
Fixpoint isBlank (s : string) : bool :=
  match s with
  | EmptyString => true
  | String c rest =>
      let n := nat_of_ascii c in
      if ((9 <=? n) && (n <=? 13) || (n =? 32))%nat then isBlank rest
      else
        match rest with
        | String c2 rest2 =>
            let n2 := nat_of_ascii c2 in
            if ((n =? 194) && (n2 =? 160))%nat then isBlank rest2
            else
              match rest2 with
              | String c3 rest3 =>
                  let n3 := nat_of_ascii c3 in
                  if ((n =? 225) && (n2 =? 154) && (n3 =? 128)
                      || (n =? 226) && (n2 =? 128)
                         && ((128 <=? n3) && (n3 <=? 138)
                             || (n3 =? 168) || (n3 =? 169) || (n3 =? 175))
                      || (n =? 226) && (n2 =? 129) && (n3 =? 159)
                      || (n =? 227) && (n2 =? 128) && (n3 =? 128)
                      || (n =? 239) && (n2 =? 187) && (n3 =? 191))%nat
                  then isBlank rest3
                  else false
              | EmptyString => false
              end
        | EmptyString => false
        end
  end.

Module UseAgentCommands.
Section Commands.

Variable E : Env.

(** [startAgent] of the first hook: a blank objective is refused with an
    error entry, otherwise the store's [startAgent] runs and the effect on
    the two flags follows. *)
Definition startAgent (h : UseAgent.Hook) : UseAgent.Hook :=
  let store := store (UseAgent.world h) in
  if isBlank (objective store) then
    UseAgent.mkHook
      (AgentStore.addLog E
         (Log.draft LogType.error "❌ Please enter an objective first" "❌")
         (UseAgent.world h))
      (UseAgent.agentLoopRef h) (UseAgent.awaiting h)
  else
    UseAgent.useEffect E store
      (UseAgent.mkHook (AgentStore.startAgent (UseAgent.world h))
                       (UseAgent.agentLoopRef h) (UseAgent.awaiting h)).

(** [startAgent] of the callback hook: it seeds the tasks itself, in the
    order [prioritizeTasks] gives, before setting the flags. *)
Definition callbackStartAgent (w : World) : World :=
  let st := store w in
  if isBlank (objective st) then
    UseAgentCallback.logNow E "" LogType.error
      "Please enter an objective first" "❌" w
  else
    let initialTasks := generateInitialTasks E (objective st) in
    let prioritizedTasks := prioritizeTasks E initialTasks in
    let w1 := fold_left (fun acc t => AgentStore.addTask t acc)
                        prioritizedTasks w in
    let w2 := UseAgentCallback.logNow E "" LogType.info
                ("Generated " ++ toString (Z.of_nat (List.length initialTasks))
                   ++ " initial tasks")
                "📝" w1 in
    UseAgentCallback.setIsPaused false (UseAgentCallback.setIsRunning true w2).

End Commands.
End UseAgentCommands.

(** [partialize] of the [persist] middleware: what is written to storage. *)
Definition partialize (s : AgentState) : Settings.t * Theme :=
  (settings s, theme s).

(** The empty [Partial<Settings>], and the spread of one over another. *)
Definition noSettingsUpdates : AgentStore.SettingsUpdates :=
  AgentStore.mkSettingsUpdates None None None None None None None None None.

Definition overrideSettings (u1 u2 : AgentStore.SettingsUpdates)
  : AgentStore.SettingsUpdates :=
  AgentStore.mkSettingsUpdates
    (orKeep (AgentStore.upd_apiKey u2) (AgentStore.upd_apiKey u1))
    (orKeep (AgentStore.upd_provider u2) (AgentStore.upd_provider u1))
    (orKeep (AgentStore.upd_model u2) (AgentStore.upd_model u1))
    (orKeep (AgentStore.upd_temperature u2) (AgentStore.upd_temperature u1))
    (orKeep (AgentStore.upd_iterationDelay u2) (AgentStore.upd_iterationDelay u1))
    (orKeep (AgentStore.upd_maxTokens u2) (AgentStore.upd_maxTokens u1))
    (orKeep (AgentStore.upd_enableSounds u2) (AgentStore.upd_enableSounds u1))
    (orKeep (AgentStore.upd_autoScroll u2) (AgentStore.upd_autoScroll u1))
    (orKeep (AgentStore.upd_maxIterations u2) (AgentStore.upd_maxIterations u1)).

(** ** components/PWAInstall.tsx: the install banner *)

Module PWAInstall.

(** The two pieces of component state; the captured [beforeinstallprompt]
    event is named by a number. [choosing] counts the calls of
    [handleInstall] that wait for [userChoice]. *)
Record State := mkState {
  deferredPrompt : option nat;
  showInstall : bool;
  choosing : nat
}.

Definition initial : State := mkState None false 0.

Inductive Outcome := accepted | dismissed.

Inductive Event :=
| BeforeInstallPrompt (e : nat)
| ClickInstall
| UserChoice (outcome : Outcome)
| ClickLater
| ClickClose.

(** The listener registered by the effect. *)
Definition handler (e : nat) (s : State) : State :=
  mkState (Some e) true (choosing s).

(** [handleInstall] up to its [await]. *)
Definition handleInstall (s : State) : State :=
  match deferredPrompt s with
  | None => s
  | Some _ => mkState (deferredPrompt s) (showInstall s) (S (choosing s))
  end.

(** [handleInstall] after [userChoice] has resolved. *)
Definition handleInstallEnd (outcome : Outcome) (s : State) : State :=
  match choosing s with
  | O => s
  | S n =>
      match outcome with
      | accepted => mkState None false n
      | dismissed => mkState (deferredPrompt s) (showInstall s) n
      end
  end.

Definition step (s : State) (ev : Event) : State :=
  match ev with
  | BeforeInstallPrompt e => handler e s
  | ClickInstall => if showInstall s then handleInstall s else s
  | UserChoice outcome => handleInstallEnd outcome s
  | ClickLater | ClickClose =>
      if showInstall s then mkState (deferredPrompt s) false (choosing s) else s
  end.

Definition run (s : State) (evs : list Event) : State := fold_left step evs s.

End PWAInstall.

(** ** Relations between the states of a run *)

(** The log of [w'] continues the log of [w]. *)
Definition logExtends (w w' : World) : Prop :=
  exists added, executionLog (store w') = (executionLog (store w) ++ added)%list.

(** [t'] is [t] at a later time: the same id, and not back to [pending]. *)
Definition laterTask (t t' : Task) : Prop :=
  id t' = id t /\ (status t' = pending -> status t = pending).

(** The tasks of [w'] are those of [w], later and in the same order,
    followed by tasks added since. *)
Definition tasksEvolve (w w' : World) : Prop :=
  exists olds added,
    tasks (store w') = (olds ++ added)%list
    /\ Forall2 laterTask (tasks (store w)) olds.

Definition timerOnly (evs : list UseAgent.Event) : bool :=
  forallb (fun ev => match ev with UseAgent.TimerFires => true | _ => false end)
          evs.

(** What no event of a session is meant to touch: the persisted part, the
    mode and the iteration limit. *)
Definition config (w : World) : Settings.t * Theme * AgentMode * Z :=
  (partialize (store w), mode (store w), maxIterations (store w)).

(** The ids of the tasks whose executor call has not settled yet. *)
Definition nextIds (aw : list UseAgent.Suspended) : list string :=
  map (fun k => id (UseAgent.nextTask k)) aw.

(** What relates the task sequence to the suspended iterations: distinct
    ids on both sides, each suspended iteration with its task running in
    the sequence, and as many running tasks as suspended iterations. *)
Definition inFlight (ts : list Task) (aw : list UseAgent.Suspended) : Prop :=
  NoDup (map id ts)
  /\ ts <> []
  /\ NoDup (nextIds aw)
  /\ (forall i, In i (nextIds aw) ->
       exists t, In t ts /\ id t = i /\ status t = running)
  /\ List.length (filter (statusIs running) ts) = List.length aw.

(** * Properties *)

(** ** The store's operator commands *)

Lemma set_objective_back (v : string) (s : AgentState) :
  set_objective (objective s) (set_objective v s) = s.
Proof. destruct s; reflexivity. Qed.

(** C8, as the code has it: [setObjective] has no guard. In every state,
    running or not, it replaces the stored objective by its argument and
    changes nothing else. *)
Theorem setObjective_replaces_in_every_state :
  forall (text : string) (w : World),
    let w' := AgentStore.setObjective text w in
    objective (store w') = text
    /\ isRunning (store w') = isRunning (store w)
    /\ set_objective (objective (store w)) (store w') = store w
    /\ reads w' = reads w.
Proof.
  intros text w; cbn.
  repeat split; try reflexivity.
  apply set_objective_back.
Qed.

(** C8 as stated fails: in a running session [setObjective] changes the
    objective. *)
Lemma setObjective_changes_running_objective :
  isRunning (store (session [T1])) = true
  /\ objective (store (AgentStore.setObjective "Plan a trip" (session [T1])))
     <> objective (store (session [T1])).
Proof. split; [reflexivity | cbn; discriminate]. Qed.

(** C9, as the code has it. The store's [resetAgent] empties [tasks] and
    [executionLog], zeroes [currentIteration], clears both flags, keeps
    [settings] and [theme], and sets [sessionId] to the rendering of the
    clock reading it takes. The callback hook's [resetAgent] does the same
    to tasks, counter, flags, settings and theme, and leaves in the log the
    single entry it appends after clearing. *)
Theorem resetAgent_effect :
  forall (E : Env) (w : World),
    let w' := AgentStore.resetAgent E w in
    let b := UseAgentCallback.resetAgent E w in
    (tasks (store w') = []
     /\ executionLog (store w') = []
     /\ currentIteration (store w') = 0
     /\ isRunning (store w') = false
     /\ isPaused (store w') = false
     /\ sessionId (store w') = toString (dateNow E (reads w))
     /\ settings (store w') = settings (store w)
     /\ theme (store w') = theme (store w))
    /\ (tasks (store b) = []
        /\ map Log.message (executionLog (store b)) = ["Agent reset"]
        /\ map Log.type (executionLog (store b)) = [LogType.info]
        /\ currentIteration (store b) = 0
        /\ isRunning (store b) = false
        /\ isPaused (store b) = false
        /\ settings (store b) = settings (store w)
        /\ theme (store b) = theme (store w)).
Proof.
  intros E w; cbn.
  repeat split; reflexivity.
Qed.

(** C9 as stated fails. A reset that reads the clock value the current
    [sessionId] was made from assigns the same [sessionId] again, and the
    callback hook's reset leaves a log entry behind. *)
Lemma resetAgent_same_sessionId_and_log_entry :
  sessionId (store (AgentStore.resetAgent frozenEnv (AgentStore.initial frozenEnv)))
    = sessionId (store (AgentStore.initial frozenEnv))
  /\ executionLog (store (UseAgentCallback.resetAgent sampleEnv (session [T1])))
     <> [].
Proof. split; [reflexivity | cbn; discriminate]. Qed.

(** ** Dependencies in the first hook *)

Lemma no_pending_dependencies_intro (t : Task) (allTasks : list Task) :
  (forall deps d, dependencies t = Some deps -> In d deps ->
     forall u, find (fun t' => (id t' =? d)%string) allTasks = Some u ->
               status u = completed) ->
  UseAgent.hasPendingDependencies t allTasks = false.
Proof.
  intros H. unfold UseAgent.hasPendingDependencies.
  destruct (dependencies t) as [deps|]; [|reflexivity].
  destruct (List.length deps =? 0)%nat; [reflexivity|].
  apply not_true_is_false. intros Hex.
  apply existsb_exists in Hex. destruct Hex as [d [Hin Hd]].
  destruct (find (fun t' => (id t' =? d)%string) allTasks) as [u|] eqn:Hf;
    [|discriminate].
  rewrite (H deps d eq_refl Hin u Hf) in Hd. discriminate.
Qed.

Lemma no_pending_dependencies_elim (t : Task) (allTasks : list Task) :
  UseAgent.hasPendingDependencies t allTasks = false ->
  forall deps d, dependencies t = Some deps -> In d deps ->
     forall u, find (fun t' => (id t' =? d)%string) allTasks = Some u ->
               status u = completed.
Proof.
  unfold UseAgent.hasPendingDependencies. intros H deps d Hd Hin u Hf.
  rewrite Hd in H.
  destruct (List.length deps =? 0)%nat eqn:Hlen.
  - apply Nat.eqb_eq in Hlen. destruct deps; [destruct Hin | discriminate].
  - apply not_true_iff_false in H.
    destruct (status u) eqn:Hs; try reflexivity; exfalso; apply H;
      apply existsb_exists; exists d;
      (split; [exact Hin | rewrite Hf, Hs; reflexivity]).
Qed.

Lemma find_absent (d : string) (allTasks : list Task) :
  (forall u, In u allTasks -> id u <> d) ->
  find (fun t' => (id t' =? d)%string) allTasks = None.
Proof.
  intros H. destruct (find _ allTasks) as [u|] eqn:Hf; [|reflexivity].
  apply find_some in Hf. destruct Hf as [Hin Heq].
  apply String.eqb_eq in Heq. exfalso. exact (H u Hin Heq).
Qed.

(** C10. A dependency id that matches no task of the sequence does not block:
    a pending task is eligible for the selecting [find] as soon as each of
    its other dependencies is found completed, and the iteration then finds
    a task to run when the task is among the prioritized ones. *)
Theorem missing_dependency_does_not_block :
  forall (E : Env) (t : Task) (allTasks : list Task)
         (deps : list string) (missing : string),
    status t = pending ->
    dependencies t = Some deps ->
    In missing deps ->
    (forall u, In u allTasks -> id u <> missing) ->
    (forall d, In d deps -> d <> missing ->
       exists u, find (fun t' => (id t' =? d)%string) allTasks = Some u
                 /\ status u = completed) ->
    UseAgent.hasPendingDependencies t allTasks = false
    /\ UseAgent.eligible allTasks t = true
    /\ (In t (prioritizeTasks E allTasks) ->
        exists next,
          find (UseAgent.eligible allTasks) (prioritizeTasks E allTasks)
            = Some next).
Proof.
  intros E t allTasks deps missing Hst Hdeps Hin Habs Hrest.
  assert (Hno : UseAgent.hasPendingDependencies t allTasks = false).
  { apply no_pending_dependencies_intro.
    intros deps' d Hd' Hind u Hf.
    rewrite Hdeps in Hd'. injection Hd' as <-.
    destruct (string_dec d missing) as [->|Hne].
    - rewrite (find_absent missing allTasks Habs) in Hf. discriminate.
    - destruct (Hrest d Hind Hne) as [u' [Hf' Hc]].
      rewrite Hf in Hf'. injection Hf' as <-. exact Hc. }
  assert (Hel : UseAgent.eligible allTasks t = true).
  { unfold UseAgent.eligible, statusIs. rewrite Hst, Hno. reflexivity. }
  repeat split; try assumption.
  intros HinP.
  destruct (find (UseAgent.eligible allTasks) (prioritizeTasks E allTasks))
    as [next|] eqn:Hf.
  - exists next; reflexivity.
  - exfalso. pose proof (find_none _ _ Hf t HinP) as Hn.
    rewrite Hel in Hn. discriminate.
Qed.

Lemma missing_dependency_does_not_block_witness :
  UseAgent.hasPendingDependencies T3_dangling [T_done; T3_dangling] = false
  /\ UseAgent.eligible [T_done; T3_dangling] T3_dangling = true
  /\ (In T3_dangling (prioritizeTasks sampleEnv [T_done; T3_dangling]) ->
      exists next,
        find (UseAgent.eligible [T_done; T3_dangling])
             (prioritizeTasks sampleEnv [T_done; T3_dangling]) = Some next).
Proof.
  apply (missing_dependency_does_not_block sampleEnv T3_dangling
           [T_done; T3_dangling] ["ghost"; "t0"] "ghost").
  - reflexivity.
  - reflexivity.
  - simpl; auto.
  - intros u [<-|[<-|[]]]; simpl; discriminate.
  - intros d [<-|[<-|[]]] Hne.
    + exfalso; apply Hne; reflexivity.
    + exists T_done. split; reflexivity.
Defined.

(** ** How the store's actions act on the task sequence and the log *)

Section StoreFacts.

Variable E : Env.

Lemma addTasks_store (l : list Task) (w : World) :
  fold_left (fun acc t => AgentStore.addTask t acc) l w
  = mkWorld (set_tasks (tasks (store w) ++ l) (store w)) (reads w).
Proof.
  revert w. induction l as [|t l IH]; intros w; simpl.
  - rewrite app_nil_r. destruct w as [s n]; destruct s; reflexivity.
  - rewrite IH. cbn. rewrite <- app_assoc. reflexivity.
Qed.

Lemma completeAll_committed (taskId res : string) (ts : list Task) (n : nat) :
  Forall2 (committed taskId res) ts
          (fst (AgentStore.completeAll E taskId res ts n)).
Proof.
  revert n. induction ts as [|t ts IH]; intros n; simpl.
  - constructor.
  - destruct (id t =? taskId)%string eqn:Hid.
    + specialize (IH (S n)).
      destruct (AgentStore.completeAll E taskId res ts (S n)) as [rest' n'].
      simpl in *. constructor; [|exact IH].
      unfold committed. rewrite Hid. cbn. repeat split; reflexivity.
    + specialize (IH n).
      destruct (AgentStore.completeAll E taskId res ts n) as [rest' n'].
      simpl in *. constructor; [|exact IH].
      unfold committed. rewrite Hid. reflexivity.
Qed.

Lemma completeTask_store (taskId res : string) (w : World) :
  store (AgentStore.completeTask E taskId res w)
  = set_tasks (fst (AgentStore.completeAll E taskId res (tasks (store w)) (reads w)))
              (store w).
Proof.
  unfold AgentStore.completeTask.
  destruct (AgentStore.completeAll E taskId res (tasks (store w)) (reads w));
    reflexivity.
Qed.

End StoreFacts.

(** ** Overlapping iterations *)

(** C1, the code at a failing input. The interval callback does not wait for
    the iteration it started: when the timer fires again before the
    executor call of the first iteration has settled, the second iteration
    starts the next pending task, and two tasks are [running]. *)
Theorem overlapping_iterations_run_two_tasks :
  let h := UseAgent.run sampleEnv (mounted (session [T1; T2]))
             [UseAgent.TimerFires; UseAgent.TimerFires] in
  statuses (UseAgent.world h) = [("t1", running); ("t2", running)]
  /\ countStatus running (UseAgent.world h) = 2%nat
  /\ List.length (UseAgent.awaiting h) = 2%nat
  /\ UseAgent.agentLoopRef h = true.
Proof. vm_compute. repeat split; reflexivity. Qed.

(** The callback hook does the same when its iteration starts twice. *)
Lemma overlapping_callback_iterations_run_two_tasks :
  statuses
    (UseAgentCallback.worldOf
       (UseAgentCallback.iterationStart sampleEnv
          (UseAgentCallback.worldOf
             (UseAgentCallback.iterationStart sampleEnv (session [T1; T2])))))
  = [("t1", running); ("t2", running)].
Proof. vm_compute. reflexivity. Qed.

(** ** Selection *)

(** X22. In the first hook a task that is chosen is pending and none of its
    dependencies is found in the sequence with a status other than
    [completed]. *)
Lemma selected_task_dependencies_completed (E : Env) (w w' : World)
                                          (k : UseAgent.Suspended) :
  UseAgent.iterationStart E w = UseAgent.Awaiting w' k ->
  status (UseAgent.nextTask k) = pending
  /\ forall deps d u,
       dependencies (UseAgent.nextTask k) = Some deps -> In d deps ->
       find (fun t' => (id t' =? d)%string) (tasks (store w)) = Some u ->
       status u = completed.
Proof.
  unfold UseAgent.iterationStart. intros H.
  destruct (negb (isRunning (store w)) || isPaused (store w)); [discriminate|].
  destruct (currentIteration (store w) >=? maxIterations (store w));
    [discriminate|].
  destruct ((List.length (tasks (store w)) =? 0)%nat && truthy (objective (store w)));
    [discriminate|].
  destruct (find (UseAgent.eligible (tasks (store w)))
                 (prioritizeTasks E (tasks (store w)))) as [next|] eqn:Hf.
  - apply find_some in Hf. destruct Hf as [_ Hel].
    unfold UseAgent.eligible, statusIs in Hel.
    apply andb_true_iff in Hel. destruct Hel as [Hp Hd].
    apply negb_true_iff in Hd.
    assert (Hk : UseAgent.nextTask k = next).
    { destruct (mode_eqb (mode (store w)) ai
                && truthy (Settings.apiKey (settings (store w))));
        injection H as _ <-; reflexivity. }
    rewrite Hk. split.
    + destruct (status next); try discriminate; reflexivity.
    + intros deps d u Hdeps Hin Hfu.
      exact (no_pending_dependencies_elim next (tasks (store w)) Hd deps d Hdeps Hin u Hfu).
  - destruct (forallb _ _ && _); discriminate.
Qed.

(** C2, the code at a failing input. The callback hook takes the first
    pending task of the sequence without looking at its dependencies:
    [t1], which depends on the pending [t2], is started. The first hook
    starts [t2] on the same session. *)
Theorem callback_hook_starts_task_with_pending_dependency :
  (exists w k,
     UseAgentCallback.iterationStart sampleEnv (session [T1_after_T2; T2])
       = UseAgentCallback.Awaiting w k
     /\ UseAgentCallback.nextTask k = T1_after_T2
     /\ dependencies (UseAgentCallback.nextTask k) = Some ["t2"]
     /\ statuses w = [("t1", running); ("t2", pending)])
  /\ (exists w k,
        UseAgent.iterationStart sampleEnv (session [T1_after_T2; T2])
          = UseAgent.Awaiting w k
        /\ UseAgent.nextTask k = T2
        /\ statuses w = [("t1", pending); ("t2", running)]).
Proof.
  split; eexists; eexists; (split; [vm_compute; reflexivity|]);
    repeat split; reflexivity.
Qed.

(** ** Stopping when nothing is left to run *)

Section Completion.

Variable E : Env.

(** [prioritizeTasks] only reorders: it returns no task it was not given. *)
Hypothesis prioritize_sub :
  forall ts t, In t (prioritizeTasks E ts) -> In t ts.

Lemma forallb_resolved (ts : list Task) :
  forallb (fun t => statusIs completed t || statusIs failed t) ts = true
  <-> Forall resolved ts.
Proof.
  rewrite forallb_forall, Forall_forall. unfold resolved, statusIs.
  split; intros H t Hin; specialize (H t Hin).
  - destruct (status t); try discriminate; auto.
  - destruct H as [-> | ->]; reflexivity.
Qed.

Lemma some_completed (ts : list Task) :
  (0 <? List.length (filter (statusIs completed) ts))%nat = true
  <-> exists t, In t ts /\ status t = completed.
Proof.
  rewrite Nat.ltb_lt. split.
  - intros H. destruct (filter (statusIs completed) ts) as [|t l] eqn:Hf.
    + inversion H.
    + assert (Hin : In t (filter (statusIs completed) ts))
        by (rewrite Hf; left; reflexivity).
      apply filter_In in Hin. destruct Hin as [Hin Hs].
      exists t. split; [exact Hin|].
      unfold statusIs in Hs. destruct (status t); try discriminate; reflexivity.
  - intros [t [Hin Hs]].
    assert (Hin' : In t (filter (statusIs completed) ts)).
    { apply filter_In. split; [exact Hin|]. unfold statusIs. rewrite Hs. reflexivity. }
    destruct (filter (statusIs completed) ts); [destruct Hin' | simpl; lia].
Qed.

Lemma no_eligible_when_resolved (ts : list Task) :
  Forall resolved ts ->
  find (UseAgent.eligible ts) (prioritizeTasks E ts) = None.
Proof.
  intros Hall.
  destruct (find (UseAgent.eligible ts) (prioritizeTasks E ts)) as [t|] eqn:Hf;
    [|reflexivity].
  apply find_some in Hf. destruct Hf as [Hin Hel].
  apply prioritize_sub in Hin.
  rewrite Forall_forall in Hall. specialize (Hall t Hin).
  unfold UseAgent.eligible, statusIs in Hel.
  destruct Hall as [Hs | Hs]; rewrite Hs in Hel; discriminate.
Qed.

(** X23. In the first hook, an iteration that gets past the running and budget
    checks ends the session as completed exactly when every task is
    completed or failed and one is completed; it then logs a milestone and
    pauses. *)
Lemma first_hook_completes_iff (w : World) :
  isRunning (store w) = true -> isPaused (store w) = false ->
  currentIteration (store w) < maxIterations (store w) ->
  ((exists w', UseAgent.iterationStart E w = UseAgent.Completed w')
   <-> (Forall resolved (tasks (store w))
        /\ exists t, In t (tasks (store w)) /\ status t = completed))
  /\ (forall w', UseAgent.iterationStart E w = UseAgent.Completed w' ->
        isPaused (store w') = true
        /\ tasks (store w') = tasks (store w)
        /\ exists e, executionLog (store w') = (executionLog (store w) ++ [e])%list
                     /\ Log.type e = LogType.milestone).
Proof.
  intros Hrun Hp Hlt. unfold UseAgent.iterationStart.
  rewrite Hrun, Hp. cbn [negb orb].
  destruct (currentIteration (store w) >=? maxIterations (store w)) eqn:Hge;
    [apply Z.geb_le in Hge; lia|].
  split.
  - split.
    + intros [w' H].
      destruct ((List.length (tasks (store w)) =? 0)%nat && truthy (objective (store w)));
        [discriminate|].
      destruct (find _ _); [destruct (_ && _); discriminate|].
      destruct (forallb _ _ && _) eqn:Hc; [|discriminate].
      apply andb_true_iff in Hc. destruct Hc as [Hall Hsome].
      split; [apply forallb_resolved; exact Hall | apply some_completed; exact Hsome].
    + intros [Hall Hsome].
      destruct Hsome as [t [Hin Hs]].
      assert (Hlen : (List.length (tasks (store w)) =? 0)%nat = false).
      { destruct (tasks (store w)); [destruct Hin | reflexivity]. }
      rewrite Hlen. cbn [andb].
      rewrite (no_eligible_when_resolved _ Hall).
      assert (H1 : forallb (fun t => statusIs completed t || statusIs failed t)
                           (tasks (store w)) = true)
        by (apply forallb_resolved; exact Hall).
      assert (H2 : (0 <? List.length (filter (statusIs completed) (tasks (store w))))%nat
                   = true)
        by (apply some_completed; exists t; auto).
      rewrite H1, H2. cbn [andb]. eexists; reflexivity.
  - intros w' H.
    destruct ((List.length (tasks (store w)) =? 0)%nat && truthy (objective (store w)));
      [discriminate|].
    destruct (find _ _); [destruct (_ && _); discriminate|].
    destruct (forallb _ _ && _); [|discriminate].
    injection H as <-. cbn. repeat split.
    eexists; split; reflexivity.
Qed.

(** X24. In the first hook, when a pending task remains and no pending task is
    eligible, the iteration changes nothing. *)
Lemma first_hook_idles_when_blocked (w : World) (t : Task) :
  isRunning (store w) = true -> isPaused (store w) = false ->
  currentIteration (store w) < maxIterations (store w) ->
  In t (tasks (store w)) -> status t = pending ->
  (forall u, In u (tasks (store w)) -> status u = pending ->
             UseAgent.hasPendingDependencies u (tasks (store w)) = true) ->
  UseAgent.iterationStart E w = UseAgent.NothingToRun w.
Proof.
  intros Hrun Hp Hlt Hin Hs Hblocked. unfold UseAgent.iterationStart.
  rewrite Hrun, Hp. cbn [negb orb].
  destruct (currentIteration (store w) >=? maxIterations (store w)) eqn:Hge;
    [apply Z.geb_le in Hge; lia|].
  assert (Hlen : (List.length (tasks (store w)) =? 0)%nat = false).
  { destruct (tasks (store w)); [destruct Hin | reflexivity]. }
  rewrite Hlen. cbn [andb].
  destruct (find _ _) as [u|] eqn:Hf.
  - exfalso. apply find_some in Hf. destruct Hf as [Hu Hel].
    apply prioritize_sub in Hu.
    unfold UseAgent.eligible, statusIs in Hel.
    apply andb_true_iff in Hel. destruct Hel as [Hpu Hdu].
    assert (Hsu : status u = pending)
      by (destruct (status u); try discriminate; reflexivity).
    rewrite (Hblocked u Hu Hsu) in Hdu. discriminate.
  - assert (Hall : forallb (fun t => statusIs completed t || statusIs failed t)
                           (tasks (store w)) = false).
    { apply not_true_iff_false. intros Hall.
      rewrite forallb_forall in Hall. specialize (Hall t Hin).
      unfold statusIs in Hall. rewrite Hs in Hall. discriminate. }
    rewrite Hall. reflexivity.
Qed.

End Completion.

(** C6, the code at failing inputs. The callback hook stops as soon as no
    task is pending: with one failed task and none completed it logs that
    all tasks completed and clears [isRunning]; and it starts [t1], which is
    blocked for good by the failed [t2], where the first hook leaves the
    session as it is. *)
Theorem callback_hook_completes_without_completed_task :
  (exists w,
     UseAgentCallback.iterationStart sampleEnv (session [T_failed])
       = UseAgentCallback.Stopped w
     /\ countStatus completed w = 0%nat
     /\ messagesOf LogType.milestone w
        = ["🎉 All tasks completed! Objective achieved!"]
     /\ isRunning (store w) = false)
  /\ UseAgent.iterationStart sampleEnv (session [T_failed])
     = UseAgent.NothingToRun (session [T_failed])
  /\ (exists w k,
        UseAgentCallback.iterationStart sampleEnv (session [T1_after_T2; T2_failed])
          = UseAgentCallback.Awaiting w k
        /\ statuses w = [("t1", running); ("t2", failed)])
  /\ UseAgent.iterationStart sampleEnv (session [T1_after_T2; T2_failed])
     = UseAgent.NothingToRun (session [T1_after_T2; T2_failed]).
Proof.
  split; [|split; [|split]].
  - eexists. split; [vm_compute; reflexivity|]. repeat split; reflexivity.
  - vm_compute; reflexivity.
  - eexists; eexists. split; [vm_compute; reflexivity|]. reflexivity.
  - vm_compute; reflexivity.
Qed.

(** ** Failure of the executor *)

(** X26. What the [catch] block of each hook does, for every store and reason:
    the tasks carrying the chosen id become [failed], one [error] entry is
    appended and the flags are left alone; only the callback hook writes the
    reason into [result]. *)
Lemma failure_path (E : Env) (k : UseAgent.Suspended)
                   (kb : UseAgentCallback.Suspended) (e : Thrown) (w : World) :
  let w' := UseAgent.iterationEnd E k (Rejected e) w in
  let b' := UseAgentCallback.iterationEnd E kb (Rejected e) w in
  tasks (store w')
    = map (fun t =>
             if (id t =? id (UseAgent.nextTask k))%string
             then mkTask (id t) (description t) failed (priority t)
                         (createdAt t) (completedAt t) (result t)
                         (dependencies t)
             else t)
          (tasks (store w))
  /\ (exists entry,
        executionLog (store w') = (executionLog (store w) ++ [entry])%list
        /\ Log.type entry = LogType.error
        /\ Log.message entry = "❌ Failed: " ++ errorText e)
  /\ isRunning (store w') = isRunning (store w)
  /\ isPaused (store w') = isPaused (store w)
  /\ tasks (store b')
     = map (fun t =>
              if (id t =? id (UseAgentCallback.nextTask kb))%string
              then mkTask (id t) (description t) failed (priority t)
                          (createdAt t) (completedAt t) (Some (errorText e))
                          (dependencies t)
              else t)
           (tasks (store w))
  /\ (exists entry,
        executionLog (store b') = (executionLog (store w) ++ [entry])%list
        /\ Log.type entry = LogType.error).
Proof.
  cbn. repeat split; try reflexivity;
    try (eexists; repeat split; reflexivity).
Qed.

(** C4, the code at a failing input. When the executor call of the first
    hook is rejected, the task becomes [failed] and an [error] entry with
    the reason is logged, but the task's [result] is left unset; the
    callback hook stores the reason in [result]. *)
Theorem first_hook_failure_leaves_result_unset :
  let h := UseAgent.run sampleEnv (mounted (session [T1; T2]))
             [UseAgent.TimerFires;
              UseAgent.Settles 0 (SimReply (Rejected (ErrorObject "Request timed out")))] in
  idStatusResult (UseAgent.world h)
    = [("t1", failed, None); ("t2", pending, None)]
  /\ messagesOf LogType.error (UseAgent.world h) = ["❌ Failed: Request timed out"]
  /\ isRunning (store (UseAgent.world h)) = true
  /\ isPaused (store (UseAgent.world h)) = false
  /\ UseAgent.agentLoopRef h = true
  /\ (exists w k,
        UseAgentCallback.iterationStart sampleEnv (session [T1; T2])
          = UseAgentCallback.Awaiting w k
        /\ idStatusResult
             (UseAgentCallback.iterationEnd sampleEnv k
                (Rejected (ErrorObject "Request timed out")) w)
           = [("t1", failed, Some "Request timed out"); ("t2", pending, None)]).
Proof.
  repeat split; try (vm_compute; reflexivity).
  eexists; eexists. split; vm_compute; reflexivity.
Qed.

(** The same when the AI executor resolves to a response that carries an
    error: the response is thrown and the task fails with no [result]. *)
Example ai_error_response_fails_task :
  let h := UseAgent.run sampleEnv (mounted (aiSession [T1; T2]))
             [UseAgent.TimerFires;
              UseAgent.Settles 0
                (AiReply (Fulfilled (mkAiResponse "" (Some "Rate limit exceeded"))))] in
  idStatusResult (UseAgent.world h)
    = [("t1", failed, None); ("t2", pending, None)]
  /\ messagesOf LogType.error (UseAgent.world h)
     = ["❌ Failed: Rate limit exceeded"]
  /\ messagesOf LogType.thinking (UseAgent.world h) = ["💭 AI is thinking..."].
Proof. vm_compute. repeat split; reflexivity. Qed.

(** ** A call that settles after a pause or a reset *)

Section Settling.

Variable E : Env.

Lemma followUps_empty (l : list Task) :
  (0 <? List.length l)%nat = false -> l = [].
Proof. destruct l; [reflexivity | discriminate]. Qed.

Lemma iterationEnd_tasks (k : UseAgent.Suspended) (res : string) (w : World) :
  tasks (store (UseAgent.iterationEnd E k (Fulfilled res) w))
  = (fst (AgentStore.completeAll E (id (UseAgent.nextTask k)) res
            (tasks (store w)) (reads w))
     ++ generateFollowUpTasks E (UseAgent.nextTask k) res
          (objective (UseAgent.snapshot k)))%list.
Proof.
  unfold UseAgent.iterationEnd. cbv zeta.
  destruct (existsb _ _);
    destruct (0 <? List.length (generateFollowUpTasks E _ res _))%nat eqn:Hf;
    cbn; rewrite ?addTasks_store; cbn; rewrite completeTask_store; cbn;
    try reflexivity;
    rewrite (followUps_empty _ Hf), app_nil_r; reflexivity.
Qed.

Lemma iterationEnd_flags (k : UseAgent.Suspended) (r : Settled string) (w : World) :
  isRunning (store (UseAgent.iterationEnd E k r w)) = isRunning (store w)
  /\ isPaused (store (UseAgent.iterationEnd E k r w)) = isPaused (store w)
  /\ currentIteration (store (UseAgent.iterationEnd E k r w))
     = currentIteration (store w)
  /\ maxIterations (store (UseAgent.iterationEnd E k r w))
     = maxIterations (store w).
Proof.
  unfold UseAgent.iterationEnd. cbv zeta.
  destruct r as [res|e]; [|cbn; repeat split; reflexivity].
  destruct (existsb _ _);
    destruct (0 <? List.length (generateFollowUpTasks E _ res _))%nat;
    cbn; rewrite ?addTasks_store; cbn; rewrite completeTask_store; cbn;
    repeat split; reflexivity.
Qed.

Lemma iterationEnd_log (k : UseAgent.Suspended) (res : string) (w : World) :
  exists e1 e2 rest,
    executionLog (store (UseAgent.iterationEnd E k (Fulfilled res) w))
    = (executionLog (store w) ++ e1 :: e2 :: rest)%list
    /\ Log.type e1 = LogType.success
    /\ Log.message e1 = "✅ Completed: " ++ description (UseAgent.nextTask k)
    /\ Log.type e2 = LogType.result
    /\ Log.message e2 = "📊 Result: " ++ res.
Proof.
  unfold UseAgent.iterationEnd. cbv zeta.
  destruct (existsb _ _);
    destruct (0 <? List.length (generateFollowUpTasks E _ res _))%nat;
    cbn; rewrite ?addTasks_store; cbn; rewrite completeTask_store; cbn;
    do 3 eexists; (split; [rewrite <- ?app_assoc; cbn; reflexivity|]);
    repeat split; reflexivity.
Qed.

Lemma completeTask_withFlags (b1 b2 : bool) (taskId res : string) (w : World) :
  AgentStore.completeTask E taskId res (withFlags b1 b2 w)
  = withFlags b1 b2 (AgentStore.completeTask E taskId res w).
Proof.
  unfold AgentStore.completeTask, withFlags. cbn.
  destruct (AgentStore.completeAll E taskId res (tasks (store w)) (reads w));
    reflexivity.
Qed.

(** The rest of the iteration depends on the flags in no way: run on a store
    with other flags it yields the same store with those flags. *)
Lemma iterationEnd_withFlags (b1 b2 : bool) (k : UseAgent.Suspended)
                             (r : Settled string) (w : World) :
  UseAgent.iterationEnd E k r (withFlags b1 b2 w)
  = withFlags b1 b2 (UseAgent.iterationEnd E k r w).
Proof.
  unfold UseAgent.iterationEnd. cbv zeta.
  destruct r as [res|e]; [|reflexivity].
  rewrite completeTask_withFlags.
  destruct (existsb _ _);
    destruct (0 <? List.length (generateFollowUpTasks E _ res _))%nat;
    rewrite ?addTasks_store; reflexivity.
Qed.

Lemma callback_iterationEnd_withFlags (b1 b2 : bool)
        (k : UseAgentCallback.Suspended) (r : Settled string) (w : World) :
  UseAgentCallback.iterationEnd E k r (withFlags b1 b2 w)
  = withFlags b1 b2 (UseAgentCallback.iterationEnd E k r w).
Proof.
  unfold UseAgentCallback.iterationEnd. cbv zeta.
  destruct r as [res|e]; [|reflexivity].
  destruct (find _ _);
    destruct (0 <? List.length (generateFollowUpTasks E _ res _))%nat;
    rewrite ?addTasks_store; reflexivity.
Qed.

Lemma callback_iterationEnd_tasks (k : UseAgentCallback.Suspended)
                                  (res : string) (w : World) :
  tasks (store (UseAgentCallback.iterationEnd E k (Fulfilled res) w))
  = (map (fun t =>
            if (id t =? id (UseAgentCallback.nextTask k))%string
            then spread t (mkUpdates None None (Some completed) None None
                             (Some (dateNow E (reads w))) (Some res) None)
            else t)
         (tasks (store w))
     ++ generateFollowUpTasks E (UseAgentCallback.nextTask k) res
          (objective (UseAgentCallback.snapshot k)))%list.
Proof.
  unfold UseAgentCallback.iterationEnd. cbv zeta.
  destruct (find _ _);
    destruct (0 <? List.length (generateFollowUpTasks E _ res _))%nat eqn:Hf;
    cbn; rewrite ?addTasks_store; cbn; try reflexivity;
    rewrite (followUps_empty _ Hf), app_nil_r; reflexivity.
Qed.

Lemma callback_iterationEnd_flags (k : UseAgentCallback.Suspended)
                                  (r : Settled string) (w : World) :
  isRunning (store (UseAgentCallback.iterationEnd E k r w)) = isRunning (store w)
  /\ isPaused (store (UseAgentCallback.iterationEnd E k r w)) = isPaused (store w)
  /\ currentIteration (store (UseAgentCallback.iterationEnd E k r w))
     = currentIteration (store w)
  /\ maxIterations (store (UseAgentCallback.iterationEnd E k r w))
     = maxIterations (store w).
Proof.
  unfold UseAgentCallback.iterationEnd. cbv zeta.
  destruct r as [res|e]; [|cbn; repeat split; reflexivity].
  destruct (find _ _);
    destruct (0 <? List.length (generateFollowUpTasks E _ res _))%nat;
    cbn; rewrite ?addTasks_store; cbn; repeat split; reflexivity.
Qed.

End Settling.

(** The operator's pause or reset while executor calls are in flight: the
    store's action is applied and the suspended iterations stay suspended,
    so that a call settling afterwards runs the rest of its iteration on
    the paused or the reset store. *)
Lemma pause_keeps_calls_in_flight (E : Env) (h : UseAgent.Hook) :
  UseAgent.world (UseAgent.step E h UseAgent.PauseAgent)
  = AgentStore.pauseAgent (UseAgent.world h)
  /\ UseAgent.awaiting (UseAgent.step E h UseAgent.PauseAgent)
     = UseAgent.awaiting h.
Proof.
  destruct h as [w ref aw]. cbn. unfold UseAgent.useEffect. cbn.
  destruct (Bool.eqb _ _ && Bool.eqb _ _); [split; reflexivity|].
  rewrite andb_false_r. unfold UseAgent.stopAgentLoop. cbn.
  destruct ref; cbn; split; reflexivity.
Qed.

Lemma reset_keeps_calls_in_flight (E : Env) (h : UseAgent.Hook) :
  UseAgent.world (UseAgent.step E h UseAgent.ResetAgent)
  = AgentStore.resetAgent E (UseAgent.world h)
  /\ UseAgent.awaiting (UseAgent.step E h UseAgent.ResetAgent)
     = UseAgent.awaiting h.
Proof.
  destruct h as [w ref aw]. cbn. unfold UseAgent.useEffect. cbn.
  destruct (Bool.eqb _ _ && Bool.eqb _ _); [split; reflexivity|].
  unfold UseAgent.stopAgentLoop. cbn.
  destruct ref; cbn; split; reflexivity.
Qed.

Lemma settles_after_pause_or_reset (E : Env) (h : UseAgent.Hook) (n : nat)
                                   (k : UseAgent.Suspended) (r : Reply) :
  nth_error (UseAgent.awaiting h) n = Some k ->
  UseAgent.replyMatches k r = true ->
  UseAgent.world
    (UseAgent.run E h [UseAgent.PauseAgent; UseAgent.Settles n r])
  = UseAgent.iterationEnd E k (UseAgent.awaited r)
      (AgentStore.pauseAgent (UseAgent.world h))
  /\ UseAgent.world
       (UseAgent.run E h [UseAgent.ResetAgent; UseAgent.Settles n r])
     = UseAgent.iterationEnd E k (UseAgent.awaited r)
         (AgentStore.resetAgent E (UseAgent.world h)).
Proof.
  intros Hk Hr. unfold UseAgent.run. cbn [fold_left].
  destruct (pause_keeps_calls_in_flight E h) as (Hw & Ha).
  destruct (reset_keeps_calls_in_flight E h) as (Hw' & Ha').
  split.
  - remember (UseAgent.step E h UseAgent.PauseAgent) as hp eqn:Hp.
    unfold UseAgent.step. rewrite Ha, Hk, Hr. cbn. rewrite Hw. reflexivity.
  - remember (UseAgent.step E h UseAgent.ResetAgent) as hr eqn:Hp.
    unfold UseAgent.step. rewrite Ha', Hk, Hr. cbn. rewrite Hw'. reflexivity.
Qed.

(** C5, as the code has it. When the awaited call resolves, the rest of the
    iteration runs without reading [isRunning] or [isPaused] (whatever their
    values, it does the same to the rest of the store): in the store as it
    is then, every task carrying the chosen task's id is completed
    with the result, the follow-up tasks are appended, and the [success] and
    [result] entries are logged. After a pause the task is thus completed;
    after a reset, which emptied the sequence, no task is changed, and the
    entries and follow-up tasks land in the new session. The callback hook
    commits in the same way. The result [res] is what either executor's
    call yields when it is fulfilled: the content of the AI executor's
    response when it carries no error, or the simulated executor's string. *)
Theorem settled_call_is_committed :
  forall (E : Env) (k : UseAgent.Suspended) (kb : UseAgentCallback.Suspended)
         (res : string) (w : World),
    let next := UseAgent.nextTask k in
    let w' := UseAgent.iterationEnd E k (Fulfilled res) w in
    let b' := UseAgentCallback.iterationEnd E kb (Fulfilled res) w in
    (forall running paused r,
       UseAgent.iterationEnd E k r (withFlags running paused w)
       = withFlags running paused (UseAgent.iterationEnd E k r w)
       /\ UseAgentCallback.iterationEnd E kb r (withFlags running paused w)
          = withFlags running paused (UseAgentCallback.iterationEnd E kb r w))
    /\ (isRunning (store w') = isRunning (store w)
        /\ isPaused (store w') = isPaused (store w))
    /\ (exists done,
          Forall2 (committed (id next) res) (tasks (store w)) done
          /\ tasks (store w')
             = (done ++ generateFollowUpTasks E next res
                          (objective (UseAgent.snapshot k)))%list)
    /\ (exists e1 e2 rest,
          executionLog (store w')
          = (executionLog (store w) ++ e1 :: e2 :: rest)%list
          /\ Log.type e1 = LogType.success
          /\ Log.type e2 = LogType.result
          /\ Log.message e2 = "📊 Result: " ++ res)
    /\ (isRunning (store b') = isRunning (store w)
        /\ isPaused (store b') = isPaused (store w)
        /\ map (fun t => (id t, status t, result t)) (tasks (store b'))
           = (map (fun t =>
                     if (id t =? id (UseAgentCallback.nextTask kb))%string
                     then (id t, completed, Some res)
                     else (id t, status t, result t))
                  (tasks (store w))
              ++ map (fun t => (id t, status t, result t))
                   (generateFollowUpTasks E (UseAgentCallback.nextTask kb) res
                      (objective (UseAgentCallback.snapshot kb))))%list)
    /\ (UseAgent.awaited (AiReply (Fulfilled (mkAiResponse res None)))
        = Fulfilled res
        /\ UseAgent.awaited (SimReply (Fulfilled res)) = Fulfilled res)
    /\ (let p' := UseAgent.iterationEnd E k (Fulfilled res)
                    (AgentStore.pauseAgent w) in
        isPaused (store p') = true
        /\ isRunning (store p') = isRunning (store w)
        /\ (exists done,
              Forall2 (committed (id next) res) (tasks (store w)) done
              /\ tasks (store p')
                 = (done ++ generateFollowUpTasks E next res
                              (objective (UseAgent.snapshot k)))%list)
        /\ (exists e1 e2 rest,
              executionLog (store p')
              = (executionLog (store w) ++ e1 :: e2 :: rest)%list
              /\ Log.type e1 = LogType.success
              /\ Log.type e2 = LogType.result
              /\ Log.message e2 = "📊 Result: " ++ res))
    /\ (let r' := UseAgent.iterationEnd E k (Fulfilled res)
                    (AgentStore.resetAgent E w) in
        isRunning (store r') = false
        /\ isPaused (store r') = false
        /\ currentIteration (store r') = 0
        /\ tasks (store r')
           = generateFollowUpTasks E next res (objective (UseAgent.snapshot k))
        /\ (exists e1 e2 rest,
              executionLog (store r') = e1 :: e2 :: rest
              /\ Log.type e1 = LogType.success
              /\ Log.message e1 = "✅ Completed: " ++ description next
              /\ Log.type e2 = LogType.result
              /\ Log.message e2 = "📊 Result: " ++ res))
    /\ (let c' := UseAgentCallback.iterationEnd E kb (Fulfilled res)
                    (UseAgentCallback.resetAgent E w) in
        isRunning (store c') = false
        /\ isPaused (store c') = false
        /\ tasks (store c')
           = generateFollowUpTasks E (UseAgentCallback.nextTask kb) res
               (objective (UseAgentCallback.snapshot kb))).
Proof.
  intros E k kb res w next w' b'.
  split; [|split; [|split; [|split; [|split; [|split; [|split; [|split]]]]]]].
  - intros running paused r. split;
      [apply iterationEnd_withFlags | apply callback_iterationEnd_withFlags].
  - destruct (iterationEnd_flags E k (Fulfilled res) w) as (H1 & H2 & _).
    split; assumption.
  - eexists. split; [apply completeAll_committed|].
    apply iterationEnd_tasks.
  - destruct (iterationEnd_log E k res w) as (e1 & e2 & rest & H & T1 & _ & T2 & M2).
    exists e1, e2, rest. repeat split; assumption.
  - destruct (callback_iterationEnd_flags E kb (Fulfilled res) w) as (H1 & H2 & _).
    split; [exact H1 | split; [exact H2|]].
    subst b'. rewrite callback_iterationEnd_tasks, map_app, map_map.
    f_equal. apply map_ext. intros t.
    destruct (id t =? id (UseAgentCallback.nextTask kb))%string; reflexivity.
  - split; reflexivity.
  - cbv zeta.
    destruct (iterationEnd_flags E k (Fulfilled res) (AgentStore.pauseAgent w))
      as (H1 & H2 & _).
    split; [rewrite H2; reflexivity|].
    split; [rewrite H1; reflexivity|].
    split.
    + eexists. split; [apply completeAll_committed|].
      rewrite iterationEnd_tasks. reflexivity.
    + destruct (iterationEnd_log E k res (AgentStore.pauseAgent w))
        as (e1 & e2 & rest & H & T1 & _ & T2 & M2).
      exists e1, e2, rest. split; [exact H|]. repeat split; assumption.
  - cbv zeta.
    destruct (iterationEnd_flags E k (Fulfilled res) (AgentStore.resetAgent E w))
      as (H1 & H2 & H3 & _).
    split; [rewrite H1; reflexivity|].
    split; [rewrite H2; reflexivity|].
    split; [rewrite H3; reflexivity|].
    split.
    + rewrite iterationEnd_tasks. reflexivity.
    + destruct (iterationEnd_log E k res (AgentStore.resetAgent E w))
        as (e1 & e2 & rest & H & T1 & M1 & T2 & M2).
      exists e1, e2, rest. split; [exact H|]. repeat split; assumption.
  - cbv zeta.
    destruct (callback_iterationEnd_flags E kb (Fulfilled res)
                (UseAgentCallback.resetAgent E w)) as (H1 & H2 & _).
    split; [rewrite H1; reflexivity|].
    split; [rewrite H2; reflexivity|].
    rewrite callback_iterationEnd_tasks. reflexivity.
Qed.

(** C5 as stated fails. The session is in AI mode with an API key, so the
    iteration awaits the AI executor's call for [t1]; the operator pauses
    while the call is in flight; the call resolves to a response without an
    error, and [t1] is completed with its content in the paused session. *)
Lemma result_committed_after_pause :
  let started := UseAgent.run sampleEnv (mounted (aiSession [T1; T2]))
                   [UseAgent.TimerFires] in
  let paused := UseAgent.step sampleEnv started UseAgent.PauseAgent in
  let h := UseAgent.step sampleEnv paused
             (UseAgent.Settles 0
                (AiReply (Fulfilled (mkAiResponse "Outline ready" None)))) in
  map (fun k => (id (UseAgent.nextTask k), UseAgent.viaAI k))
      (UseAgent.awaiting started) = [("t1", true)]
  /\ messagesOf LogType.thinking (UseAgent.world started)
     = ["💭 AI is thinking..."]
  /\ isPaused (store (UseAgent.world started)) = false
  /\ isPaused (store (UseAgent.world paused)) = true
  /\ UseAgent.agentLoopRef paused = false
  /\ idStatusResult (UseAgent.world paused)
     = [("t1", running, None); ("t2", pending, None)]
  /\ isRunning (store (UseAgent.world h)) = true
  /\ isPaused (store (UseAgent.world h)) = true
  /\ idStatusResult (UseAgent.world h)
     = [("t1", completed, Some "Outline ready"); ("t2", pending, None)]
  /\ messagesOf LogType.result (UseAgent.world h)
     = ["📊 Result: Outline ready"].
Proof. vm_compute. repeat split; reflexivity. Qed.

(** ** The iteration budget *)

Lemma advances_refl (w : World) : advances w w.
Proof. unfold advances. repeat split; lia || auto. Qed.

Lemma advances_trans (a b c : World) :
  advances a b -> advances b c -> advances a c.
Proof.
  unfold advances. intros (M1 & L1 & B1) (M2 & L2 & B2).
  repeat split; [congruence | lia | auto].
Qed.

Section Budget.

Variable E : Env.

Lemma iterationStart_advances (w : World) :
  advances w (UseAgent.worldOf (UseAgent.iterationStart E w)).
Proof.
  unfold UseAgent.iterationStart. cbv zeta.
  destruct (negb (isRunning (store w)) || isPaused (store w));
    [apply advances_refl|].
  destruct (currentIteration (store w) >=? maxIterations (store w)) eqn:Hge.
  { unfold advances; cbn. repeat split; lia || auto. }
  destruct ((List.length (tasks (store w)) =? 0)%nat && truthy (objective (store w))).
  { cbn. rewrite addTasks_store. unfold advances; cbn. repeat split; lia || auto. }
  destruct (find _ _) as [next|].
  - assert (Hlt : currentIteration (store w) < maxIterations (store w)).
    { destruct (Z.geb_spec (currentIteration (store w)) (maxIterations (store w)));
        [discriminate | lia]. }
    destruct (mode_eqb _ _ && _); unfold advances; cbn; repeat split; lia.
  - destruct (forallb _ _ && _).
    + unfold advances; cbn. repeat split; lia || auto.
    + apply advances_refl.
Qed.

Lemma iterationEnd_advances (k : UseAgent.Suspended) (r : Settled string)
                            (w : World) :
  advances w (UseAgent.iterationEnd E k r w).
Proof.
  destruct (iterationEnd_flags E k r w) as (_ & _ & Hc & Hm).
  unfold advances. rewrite Hc, Hm. repeat split; lia || auto.
Qed.

Lemma stopAgentLoop_world (h : UseAgent.Hook) :
  UseAgent.world (UseAgent.stopAgentLoop h) = UseAgent.world h.
Proof. unfold UseAgent.stopAgentLoop. destruct (UseAgent.agentLoopRef h); reflexivity. Qed.

Lemma executeAgentIteration_world (h : UseAgent.Hook) :
  UseAgent.world (UseAgent.executeAgentIteration E h)
  = UseAgent.worldOf (UseAgent.iterationStart E (UseAgent.world h)).
Proof.
  unfold UseAgent.executeAgentIteration.
  destruct (UseAgent.iterationStart E (UseAgent.world h));
    rewrite ?stopAgentLoop_world; reflexivity.
Qed.

Lemma startAgentLoop_advances (h : UseAgent.Hook) :
  advances (UseAgent.world h) (UseAgent.world (UseAgent.startAgentLoop E h)).
Proof.
  unfold UseAgent.startAgentLoop. destruct (UseAgent.agentLoopRef h).
  - apply advances_refl.
  - rewrite executeAgentIteration_world. apply iterationStart_advances.
Qed.

Lemma useEffect_advances (before : AgentState) (h : UseAgent.Hook) :
  advances (UseAgent.world h) (UseAgent.world (UseAgent.useEffect E before h)).
Proof.
  unfold UseAgent.useEffect. cbv zeta.
  destruct (Bool.eqb _ _ && Bool.eqb _ _); [apply advances_refl|].
  destruct (isRunning _ && negb _).
  - eapply advances_trans; [|apply startAgentLoop_advances].
    rewrite stopAgentLoop_world. apply advances_refl.
  - rewrite !stopAgentLoop_world. apply advances_refl.
Qed.

Lemma step_advances (h : UseAgent.Hook) (ev : UseAgent.Event) :
  ev <> UseAgent.ResetAgent ->
  advances (UseAgent.world h) (UseAgent.world (UseAgent.step E h ev)).
Proof.
  intros Hev. destruct ev as [|n r| | |text]; cbn [UseAgent.step].
  - destruct (UseAgent.agentLoopRef h); [|apply advances_refl].
    rewrite executeAgentIteration_world. apply iterationStart_advances.
  - destruct (nth_error (UseAgent.awaiting h) n) as [k|]; [|apply advances_refl].
    destruct (UseAgent.replyMatches k r); [|apply advances_refl].
    cbn. apply iterationEnd_advances.
  - eapply advances_trans; [|apply useEffect_advances].
    unfold advances; cbn. repeat split; lia || auto.
  - contradiction.
  - unfold advances; cbn. repeat split; lia || auto.
Qed.

Lemma step_within_budget (h : UseAgent.Hook) (ev : UseAgent.Event) :
  0 <= maxIterations (store (UseAgent.world h)) ->
  currentIteration (store (UseAgent.world h))
    <= maxIterations (store (UseAgent.world h)) ->
  maxIterations (store (UseAgent.world (UseAgent.step E h ev)))
    = maxIterations (store (UseAgent.world h))
  /\ currentIteration (store (UseAgent.world (UseAgent.step E h ev)))
     <= maxIterations (store (UseAgent.world (UseAgent.step E h ev))).
Proof.
  intros H0 Hle.
  destruct (isReset ev) eqn:Hk.
  - destruct ev; try discriminate. cbn [UseAgent.step].
    match goal with |- context [UseAgent.useEffect E ?b ?h'] =>
      destruct (useEffect_advances b h') as (Hm & _ & Hb) end.
    cbn in Hm, Hb. split; [exact Hm | apply Hb; exact H0].
  - assert (Hev : ev <> UseAgent.ResetAgent) by (intros ->; discriminate).
    destruct (step_advances h ev Hev) as (Hm & _ & Hb). split; auto.
Qed.

Lemma run_advances (evs : list UseAgent.Event) (h : UseAgent.Hook) :
  noReset evs = true ->
  advances (UseAgent.world h) (UseAgent.world (UseAgent.run E h evs)).
Proof.
  revert h. induction evs as [|ev evs IH]; intros h Hn.
  - apply advances_refl.
  - cbn in Hn. apply andb_true_iff in Hn. destruct Hn as [Hev Hn].
    cbn [UseAgent.run fold_left].
    eapply advances_trans; [apply step_advances | apply (IH _ Hn)].
    intros ->; discriminate.
Qed.

Lemma run_within_budget (evs : list UseAgent.Event) (h : UseAgent.Hook) :
  0 <= maxIterations (store (UseAgent.world h)) ->
  currentIteration (store (UseAgent.world h))
    <= maxIterations (store (UseAgent.world h)) ->
  currentIteration (store (UseAgent.world (UseAgent.run E h evs)))
    <= maxIterations (store (UseAgent.world (UseAgent.run E h evs))).
Proof.
  revert h. induction evs as [|ev evs IH]; intros h H0 Hle.
  - exact Hle.
  - cbn [UseAgent.run fold_left].
    destruct (step_within_budget h ev H0 Hle) as [Hm Hb].
    apply IH; [rewrite Hm; exact H0 | exact Hb].
Qed.

End Budget.

Section BudgetChecks.

Variable E : Env.

(** The first hook at the limit: the iteration logs a milestone, pauses and
    clears the interval, whatever tasks are left. *)
Lemma budget_reached_stops (h : UseAgent.Hook) :
  isRunning (store (UseAgent.world h)) = true ->
  isPaused (store (UseAgent.world h)) = false ->
  maxIterations (store (UseAgent.world h))
    <= currentIteration (store (UseAgent.world h)) ->
  let h' := UseAgent.executeAgentIteration E h in
  (exists w', UseAgent.iterationStart E (UseAgent.world h)
              = UseAgent.BudgetReached w')
  /\ tasks (store (UseAgent.world h')) = tasks (store (UseAgent.world h))
  /\ currentIteration (store (UseAgent.world h'))
     = currentIteration (store (UseAgent.world h))
  /\ isPaused (store (UseAgent.world h')) = true
  /\ UseAgent.agentLoopRef h' = false
  /\ UseAgent.awaiting h' = UseAgent.awaiting h
  /\ exists e,
       executionLog (store (UseAgent.world h'))
       = (executionLog (store (UseAgent.world h)) ++ [e])%list
       /\ Log.type e = LogType.milestone.
Proof.
  intros Hrun Hp Hge h'. subst h'.
  unfold UseAgent.executeAgentIteration, UseAgent.iterationStart. cbv zeta.
  rewrite Hrun, Hp. cbn [negb orb].
  assert (Hb : (currentIteration (store (UseAgent.world h))
                >=? maxIterations (store (UseAgent.world h))) = true)
    by (apply Z.geb_le; exact Hge).
  rewrite Hb.
  split; [eexists; reflexivity|].
  unfold UseAgent.stopAgentLoop.
  destruct (UseAgent.agentLoopRef h); cbn;
    repeat split; try reflexivity; eexists; split; reflexivity.
Qed.

Lemma callback_iterationStart_advances (w : World) :
  advances w (UseAgentCallback.worldOf (UseAgentCallback.iterationStart E w)).
Proof.
  unfold UseAgentCallback.iterationStart. cbv zeta.
  destruct (filter (statusIs pending) (tasks (store w))) as [|next rest].
  - cbn [List.length Nat.eqb orb].
    destruct (currentIteration (store w) >=? maxIterations (store w));
      unfold advances; cbn; repeat split; lia || auto.
  - cbn [List.length Nat.eqb orb].
    destruct (currentIteration (store w) >=? maxIterations (store w)) eqn:Hge.
    + unfold advances; cbn; repeat split; lia || auto.
    + assert (Hlt : currentIteration (store w) < maxIterations (store w)).
      { destruct (Z.geb_spec (currentIteration (store w)) (maxIterations (store w)));
          [discriminate | lia]. }
      unfold advances; cbn; repeat split; lia.
Qed.

(** The callback hook at the limit: the iteration clears [isRunning] and
    logs a warning, whatever tasks are left. *)
Lemma callback_budget_reached_stops (w : World) :
  maxIterations (store w) <= currentIteration (store w) ->
  exists w' e,
    UseAgentCallback.iterationStart E w = UseAgentCallback.Stopped w'
    /\ tasks (store w') = tasks (store w)
    /\ currentIteration (store w') = currentIteration (store w)
    /\ isRunning (store w') = false
    /\ executionLog (store w') = (executionLog (store w) ++ [e])%list
    /\ Log.type e = LogType.warning.
Proof.
  intros Hge. unfold UseAgentCallback.iterationStart. cbv zeta.
  assert (Hb : (currentIteration (store w) >=? maxIterations (store w)) = true)
    by (apply Z.geb_le; exact Hge).
  rewrite Hb, orb_true_r.
  eexists; eexists. split; [reflexivity|]. cbn. repeat split; reflexivity.
Qed.

End BudgetChecks.

(** C3. Along any run of the first hook without a reset [currentIteration]
    does not decrease; the check against [maxIterations] comes before a
    task is chosen, and at the limit the iteration only logs a milestone
    entry, pauses and clears the interval, whatever tasks are pending; so a
    session that starts within its limit never exceeds it, resets included.
    The callback hook's iteration likewise never lowers the counter nor
    takes it past the limit, and at the limit it only clears [isRunning]
    and logs a warning entry. *)
Theorem iteration_budget_respected :
  forall (E : Env) (h : UseAgent.Hook) (evs : list UseAgent.Event) (wb : World),
    0 <= maxIterations (store (UseAgent.world h)) ->
    currentIteration (store (UseAgent.world h))
      <= maxIterations (store (UseAgent.world h)) ->
    (noReset evs = true ->
     currentIteration (store (UseAgent.world h))
       <= currentIteration (store (UseAgent.world (UseAgent.run E h evs))))
    /\ maxIterations (store (UseAgent.world (UseAgent.run E h evs)))
       = maxIterations (store (UseAgent.world h))
    /\ currentIteration (store (UseAgent.world (UseAgent.run E h evs)))
       <= maxIterations (store (UseAgent.world h))
    /\ (forall g : UseAgent.Hook,
          isRunning (store (UseAgent.world g)) = true ->
          isPaused (store (UseAgent.world g)) = false ->
          maxIterations (store (UseAgent.world g))
            <= currentIteration (store (UseAgent.world g)) ->
          let g' := UseAgent.executeAgentIteration E g in
          (exists w', UseAgent.iterationStart E (UseAgent.world g)
                      = UseAgent.BudgetReached w')
          /\ tasks (store (UseAgent.world g')) = tasks (store (UseAgent.world g))
          /\ currentIteration (store (UseAgent.world g'))
             = currentIteration (store (UseAgent.world g))
          /\ isPaused (store (UseAgent.world g')) = true
          /\ UseAgent.agentLoopRef g' = false
          /\ UseAgent.awaiting g' = UseAgent.awaiting g
          /\ exists e,
               executionLog (store (UseAgent.world g'))
               = (executionLog (store (UseAgent.world g)) ++ [e])%list
               /\ Log.type e = LogType.milestone)
    /\ advances wb
         (UseAgentCallback.worldOf (UseAgentCallback.iterationStart E wb))
    /\ (forall k r,
          currentIteration (store (UseAgentCallback.iterationEnd E k r wb))
          = currentIteration (store wb))
    /\ (maxIterations (store wb) <= currentIteration (store wb) ->
        exists w' e,
          UseAgentCallback.iterationStart E wb = UseAgentCallback.Stopped w'
          /\ tasks (store w') = tasks (store wb)
          /\ currentIteration (store w') = currentIteration (store wb)
          /\ isRunning (store w') = false
          /\ executionLog (store w') = (executionLog (store wb) ++ [e])%list
          /\ Log.type e = LogType.warning).
Proof.
  intros E h evs wb H0 Hle.
  assert (Hkeep : forall evs' g,
            0 <= maxIterations (store (UseAgent.world g)) ->
            currentIteration (store (UseAgent.world g))
              <= maxIterations (store (UseAgent.world g)) ->
            maxIterations (store (UseAgent.world (UseAgent.run E g evs')))
            = maxIterations (store (UseAgent.world g))).
  { induction evs' as [|ev evs' IH]; intros g G0 Gle; [reflexivity|].
    cbn [UseAgent.run fold_left].
    destruct (step_within_budget E g ev G0 Gle) as [Hm Hb].
    unfold UseAgent.run in IH. rewrite IH; [exact Hm | rewrite Hm; exact G0 | exact Hb]. }
  split; [|split; [|split; [|split; [|split; [|split]]]]].
  - intros Hn. destruct (run_advances E evs h Hn) as (_ & Hmono & _). exact Hmono.
  - apply Hkeep; assumption.
  - rewrite <- (Hkeep evs h H0 Hle). apply run_within_budget; assumption.
  - intros g. apply budget_reached_stops.
  - apply callback_iterationStart_advances.
  - intros k r. destruct (callback_iterationEnd_flags E k r wb) as (_ & _ & Hc & _).
    exact Hc.
  - apply callback_budget_reached_stops.
Qed.

(** ** Completion-ratio milestones *)

Section Milestones.

Variable E : Env.

Lemma milestonesAt_logged (p : Z) (s : AgentState) (n : nat)
                          (l : list Log.Entry) (e : Log.Entry) :
  milestonesAt p (mkWorld (set_executionLog (l ++ [e]) s) n)
  = (List.length (filter (isMilestoneAt p) l)
     + (if isMilestoneAt p e then 1 else 0))%nat.
Proof.
  unfold milestonesAt. cbn. rewrite filter_app, length_app. cbn.
  destruct (isMilestoneAt p e); reflexivity.
Qed.

Lemma thresholds_cases (x : Z) :
  existsb (Z.eqb x) [25; 50; 75] = true -> x = 25 \/ x = 50 \/ x = 75.
Proof.
  cbn. intros H.
  destruct (Z.eqb_spec x 25); [auto|].
  destruct (Z.eqb_spec x 50); [auto|].
  destruct (Z.eqb_spec x 75); [auto|]. discriminate.
Qed.

Lemma not_milestone_type (p : Z) (e : Log.Entry) :
  Log.type e <> LogType.milestone -> isMilestoneAt p e = false.
Proof.
  intros H. unfold isMilestoneAt.
  destruct (Log.type e); try reflexivity. contradiction.
Qed.

Lemma filter_none {A} (f : A -> bool) (l : list A) :
  Forall (fun x => f x = false) l -> filter f l = [].
Proof.
  induction 1 as [|x l Hx _ IH]; [reflexivity|].
  cbn. rewrite Hx. exact IH.
Qed.

(** The entries a successful end of iteration appends: some that are not
    milestones, then the announcement if the computed percentage is a
    threshold. *)
Lemma iterationEnd_log_shape (k : UseAgent.Suspended) (res : string) (w : World) :
  exists mid tail,
    executionLog (store (UseAgent.iterationEnd E k (Fulfilled res) w))
    = (executionLog (store w) ++ mid ++ tail)%list
    /\ Forall (fun e => Log.type e <> LogType.milestone) mid
    /\ if existsb (Z.eqb (snapshotProgress (UseAgent.snapshot k))) [25; 50; 75]
       then exists m, tail = [m]
                      /\ Log.type m = LogType.milestone
                      /\ Log.message m
                         = Log.d_message
                             (UseAgent.milestoneDraft
                                (snapshotProgress (UseAgent.snapshot k)))
       else tail = [].
Proof.
  unfold UseAgent.iterationEnd, snapshotProgress. cbv zeta.
  set (pr := UseAgent.progressOf _ _).
  destruct (existsb (Z.eqb pr) [25; 50; 75]);
    destruct (0 <? List.length (generateFollowUpTasks E _ res _))%nat;
    cbn -[UseAgent.milestoneDraft]; rewrite ?addTasks_store;
    cbn -[UseAgent.milestoneDraft]; rewrite completeTask_store;
    cbn -[UseAgent.milestoneDraft]; rewrite <- ?app_assoc;
    cbn -[UseAgent.milestoneDraft].
  - eexists [_; _; _], _. split; [cbn; reflexivity|].
    split; [repeat constructor; cbn; discriminate|].
    eexists. repeat split; reflexivity.
  - eexists [_; _], _. split; [cbn; reflexivity|].
    split; [repeat constructor; cbn; discriminate|].
    eexists. repeat split; reflexivity.
  - eexists [_; _; _], []. split; [cbn; reflexivity|].
    split; [repeat constructor; cbn; discriminate | reflexivity].
  - eexists [_; _], []. split; [cbn; reflexivity|].
    split; [repeat constructor; cbn; discriminate | reflexivity].
Qed.

(** What the end of an iteration adds to the count of each announcement. *)
Lemma iterationEnd_milestones (p : Z) (k : UseAgent.Suspended)
                              (r : Settled string) (w : World) :
  In p [25; 50; 75; 100] ->
  milestonesAt p (UseAgent.iterationEnd E k r w)
  = (milestonesAt p w
     + match r with
       | Fulfilled _ =>
           if (snapshotProgress (UseAgent.snapshot k) =? p)%Z
              && existsb (Z.eqb p) [25%Z; 50%Z; 75%Z]
           then 1 else 0
       | Rejected _ => 0
       end)%nat.
Proof.
  intros Hp. destruct r as [res|e].
  - destruct (iterationEnd_log_shape k res w) as (mid & tail & Hlog & Hmid & Htail).
    unfold milestonesAt. rewrite Hlog, !filter_app, !length_app.
    rewrite (filter_none (isMilestoneAt p) mid)
      by (eapply Forall_impl; [|exact Hmid]; intros e' He';
          apply not_milestone_type; exact He').
    set (pr := snapshotProgress (UseAgent.snapshot k)) in *.
    destruct (existsb (Z.eqb pr) [25; 50; 75]) eqn:Hex.
    + destruct Htail as (m & -> & Hty & Hmsg).
      apply thresholds_cases in Hex.
      cbn [filter]. unfold isMilestoneAt at 2. rewrite Hty, Hmsg.
      destruct Hex as [-> | [-> | ->]];
        destruct Hp as [<- | [<- | [<- | [<- | []]]]];
        cbn; lia.
    + subst tail.
      assert (Hne : (pr =? p) && existsb (Z.eqb p) [25; 50; 75] = false).
      { destruct (Z.eqb_spec pr p) as [->|]; [|reflexivity].
        rewrite Hex. reflexivity. }
      rewrite Hne. cbn. lia.
  - unfold milestonesAt, UseAgent.iterationEnd. cbn -[isMilestoneAt].
    rewrite filter_app, length_app. cbn. lia.
Qed.

(** The part of an iteration before the [await] announces no percentage. *)
Lemma iterationStart_milestones (p : Z) (w : World) :
  In p [25; 50; 75; 100] ->
  milestonesAt p (UseAgent.worldOf (UseAgent.iterationStart E w))
  = milestonesAt p w.
Proof.
  intros Hp. unfold UseAgent.iterationStart. cbv zeta.
  destruct (negb (isRunning (store w)) || isPaused (store w)); [reflexivity|].
  destruct (currentIteration (store w) >=? maxIterations (store w)).
  { unfold milestonesAt. cbn -[isMilestoneAt].
    rewrite filter_app, length_app.
    destruct Hp as [<- | [<- | [<- | [<- | []]]]]; cbn; lia. }
  destruct ((List.length (tasks (store w)) =? 0)%nat && truthy (objective (store w))).
  { cbn -[milestonesAt]. rewrite addTasks_store.
    unfold milestonesAt. cbn -[isMilestoneAt].
    rewrite filter_app, length_app. cbn. lia. }
  destruct (find _ _) as [next|].
  - destruct (mode_eqb _ _ && _); unfold milestonesAt; cbn -[isMilestoneAt];
      rewrite !filter_app, !length_app; cbn; lia.
  - destruct (forallb _ _ && _); [|reflexivity].
    unfold milestonesAt. cbn -[isMilestoneAt].
    rewrite filter_app, length_app.
    destruct Hp as [<- | [<- | [<- | [<- | []]]]]; cbn; lia.
Qed.

End Milestones.

(** ** One task at a time: what a whole iteration does to the sequence *)

Section WholeIteration.

Variable E : Env.

Lemma split_by_id (ts : list Task) (next : Task) :
  NoDup (map id ts) -> In next ts ->
  exists l1 l2,
    ts = (l1 ++ next :: l2)%list
    /\ (forall t, In t l1 -> (id t =? id next)%string = false)
    /\ (forall t, In t l2 -> (id t =? id next)%string = false).
Proof.
  intros Hnd Hin. apply in_split in Hin. destruct Hin as (l1 & l2 & ->).
  exists l1, l2. split; [reflexivity|].
  rewrite map_app in Hnd. cbn in Hnd. apply NoDup_remove_2 in Hnd.
  split; intros t Ht; apply String.eqb_neq; intros Heq; apply Hnd;
    rewrite <- Heq; apply in_or_app; [left | right]; apply in_map; exact Ht.
Qed.

Lemma map_on_split (f : Task -> Task) (i : string) (l1 l2 : list Task) (x : Task) :
  (forall t, In t l1 -> (id t =? i)%string = false) ->
  (forall t, In t l2 -> (id t =? i)%string = false) ->
  (id x =? i)%string = true ->
  map (fun t => if (id t =? i)%string then f t else t) (l1 ++ x :: l2)
  = (l1 ++ f x :: l2)%list.
Proof.
  intros H1 H2 Hx. rewrite map_app. cbn. rewrite Hx. f_equal; [|f_equal].
  - rewrite <- (map_id l1) at 2. apply map_ext_in. intros t Ht. rewrite (H1 t Ht). reflexivity.
  - rewrite <- (map_id l2) at 2. apply map_ext_in. intros t Ht. rewrite (H2 t Ht). reflexivity.
Qed.

Lemma completeAll_no_match (i res : string) (l : list Task) (n : nat) :
  (forall t, In t l -> (id t =? i)%string = false) ->
  AgentStore.completeAll E i res l n = (l, n).
Proof.
  revert n. induction l as [|t l IH]; intros n H; [reflexivity|].
  cbn. rewrite (H t (or_introl eq_refl)).
  rewrite IH by (intros u Hu; apply H; right; exact Hu). reflexivity.
Qed.

Lemma completeAll_on_split (i res : string) (l1 l2 : list Task) (x : Task)
                           (n : nat) :
  (forall t, In t l1 -> (id t =? i)%string = false) ->
  (forall t, In t l2 -> (id t =? i)%string = false) ->
  (id x =? i)%string = true ->
  exists x',
    fst (AgentStore.completeAll E i res (l1 ++ x :: l2) n) = (l1 ++ x' :: l2)%list
    /\ id x' = id x /\ status x' = completed.
Proof.
  intros H1 H2 Hx. revert n.
  induction l1 as [|t l1 IH]; intros n.
  - cbn. rewrite Hx, (completeAll_no_match i res l2 (S n) H2).
    eexists. cbn. repeat split; reflexivity.
  - cbn. rewrite (H1 t (or_introl eq_refl)).
    destruct (IH (fun u Hu => H1 u (or_intror Hu)) n) as (x' & Hfst & Hid & Hst).
    destruct (AgentStore.completeAll E i res (l1 ++ x :: l2) n) as [rest' n'].
    cbn in *. exists x'. rewrite Hfst. repeat split; assumption.
Qed.

(** What the part before the [await] fixes when it starts a task. *)
Lemma iterationStart_awaiting (w w' : World) (k : UseAgent.Suspended) :
  UseAgent.iterationStart E w = UseAgent.Awaiting w' k ->
  UseAgent.snapshot k = store w
  /\ In (UseAgent.nextTask k) (prioritizeTasks E (tasks (store w)))
  /\ UseAgent.eligible (tasks (store w)) (UseAgent.nextTask k) = true
  /\ tasks (store w')
     = map (fun t =>
              if (id t =? id (UseAgent.nextTask k))%string
              then spread t (mkUpdates None None (Some running)
                                       None None None None None)
              else t)
           (tasks (store w))
  /\ currentIteration (store w') = currentIteration (store w) + 1
  /\ currentIteration (store w) < maxIterations (store w)
  /\ isRunning (store w) = true /\ isPaused (store w) = false.
Proof.
  unfold UseAgent.iterationStart. cbv zeta. intros H.
  destruct (isRunning (store w)); [|discriminate].
  destruct (isPaused (store w)); [discriminate|]. cbn [negb orb] in H.
  destruct (Z.geb_spec (currentIteration (store w)) (maxIterations (store w)));
    [discriminate|].
  destruct ((List.length (tasks (store w)) =? 0)%nat && truthy (objective (store w)));
    [discriminate|].
  destruct (find _ _) as [next|] eqn:Hf;
    [|destruct (forallb _ _ && _); discriminate].
  apply find_some in Hf. destruct Hf as [Hin Hel].
  destruct (mode_eqb _ _ && _); injection H as <- <-; cbn;
    repeat split; auto; lia.
Qed.

(** With distinct ids, an iteration that starts a task and is carried
    through changes that task alone: it ends completed or failed in place. *)
Lemma iteration_replaces_one (w w' : World) (k : UseAgent.Suspended)
                             (r : Settled string) :
  (forall ts t, In t (prioritizeTasks E ts) -> In t ts) ->
  NoDup (map id (tasks (store w))) ->
  UseAgent.iterationStart E w = UseAgent.Awaiting w' k ->
  exists l1 l2 x,
    tasks (store w) = (l1 ++ UseAgent.nextTask k :: l2)%list
    /\ status (UseAgent.nextTask k) = pending
    /\ id x = id (UseAgent.nextTask k)
    /\ status x = match r with Fulfilled _ => completed | Rejected _ => failed end
    /\ tasks (store (UseAgent.iterationEnd E k r w'))
       = ((l1 ++ x :: l2)
          ++ match r with
             | Fulfilled res =>
                 generateFollowUpTasks E (UseAgent.nextTask k) res
                   (objective (store w))
             | Rejected _ => []
             end)%list.
Proof.
  intros Hsub Hnd Hstart.
  destruct (iterationStart_awaiting w w' k Hstart)
    as (Hsnap & Hin & Hel & Htasks & _).
  apply Hsub in Hin.
  destruct (split_by_id _ _ Hnd Hin) as (l1 & l2 & Hts & H1 & H2).
  assert (Hpend : status (UseAgent.nextTask k) = pending).
  { unfold UseAgent.eligible, statusIs in Hel.
    apply andb_true_iff in Hel. destruct Hel as [Hp _].
    destruct (status (UseAgent.nextTask k)); try discriminate; reflexivity. }
  rewrite Hts in Htasks.
  rewrite (map_on_split _ _ l1 l2 _ H1 H2 (String.eqb_refl _)) in Htasks.
  set (nr := spread (UseAgent.nextTask k) _) in Htasks.
  assert (Hnr : (id nr =? id (UseAgent.nextTask k))%string = true)
    by apply String.eqb_refl.
  destruct r as [res|e].
  - destruct (completeAll_on_split (id (UseAgent.nextTask k)) res l1 l2 nr
                (reads w') H1 H2 Hnr) as (x' & Hfst & Hid & Hst).
    exists l1, l2, x'. rewrite iterationEnd_tasks, Htasks, Hfst, Hsnap.
    repeat split; auto.
  - eexists l1, l2, _. split; [exact Hts|]. split; [exact Hpend|].
    split; [|split]; [| |unfold UseAgent.iterationEnd; cbn; rewrite Htasks;
      rewrite (map_on_split _ _ l1 l2 _ H1 H2 Hnr), app_nil_r; reflexivity];
      reflexivity.
Qed.

End WholeIteration.

Section AtMostOnce.

Variable E : Env.

Hypothesis prioritize_sub :
  forall ts t, In t (prioritizeTasks E ts) -> In t ts.

(** The total number of tasks is fixed: no follow-up task is generated. *)
Hypothesis no_followUp :
  forall t res o, generateFollowUpTasks E t res o = [].

Lemma progressOf_mono (c c' n : nat) :
  (c <= c')%nat -> UseAgent.progressOf c n <= UseAgent.progressOf c' n.
Proof.
  intros H. unfold UseAgent.progressOf.
  destruct n as [|n]; [cbn; rewrite !Z.div_0_r; lia|].
  apply Z.div_le_mono; lia.
Qed.

Lemma progressOf_next (c n : nat) :
  (1 <= n <= 100)%nat ->
  UseAgent.progressOf c n + 1 <= UseAgent.progressOf (S c) n.
Proof.
  intros Hn. unfold UseAgent.progressOf.
  rewrite <- (Z.div_add (Z.of_nat c * 100) 1 (Z.of_nat n)) by lia.
  apply Z.div_le_mono; lia.
Qed.

Lemma iterationStart_keeps_tasks (w : World) :
  tasks (store w) <> [] ->
  match UseAgent.iterationStart E w with
  | UseAgent.Awaiting _ _ => True
  | t => tasks (store (UseAgent.worldOf t)) = tasks (store w)
  end.
Proof.
  intros Hne. unfold UseAgent.iterationStart. cbv zeta.
  destruct (negb (isRunning (store w)) || isPaused (store w)); [reflexivity|].
  destruct (currentIteration (store w) >=? maxIterations (store w));
    [reflexivity|].
  destruct (tasks (store w)) as [|t0 ts0] eqn:Hts; [contradiction|].
  cbn [List.length Nat.eqb andb].
  destruct (find _ _); [destruct (mode_eqb _ _ && _); exact I|].
  destruct (forallb _ _ && _); cbn; rewrite ?Hts; reflexivity.
Qed.

Lemma countStatus_split (st : TaskStatus) (w : World)
                        (l1 l2 : list Task) (x : Task) :
  tasks (store w) = (l1 ++ x :: l2)%list ->
  countStatus st w
  = (List.length (filter (statusIs st) l1)
     + (if status_eqb (status x) st then 1 else 0)
     + List.length (filter (statusIs st) l2))%nat.
Proof.
  intros H. unfold countStatus. rewrite H.
  rewrite filter_app, length_app. cbn [filter]. unfold statusIs at 2.
  destruct (status_eqb (status x) st); cbn; lia.
Qed.

Lemma iterate_announcedOnce (p : Z) (n : nat) (w : World) (r : Settled string) :
  In p [25; 50; 75; 100] -> (1 <= n <= 100)%nat ->
  announcedOnce p n w -> announcedOnce p n (iterate E w r).
Proof.
  intros Hp Hn (Hnd & Hlen & Hle & Hpast). unfold iterate.
  assert (Hne : tasks (store w) <> []).
  { intros H0. rewrite H0 in Hlen. cbn in Hlen. lia. }
  pose proof (iterationStart_keeps_tasks w Hne) as Hkeep.
  pose proof (iterationStart_milestones E p w Hp) as Hms.
  destruct (UseAgent.iterationStart E w) as [w1|w1|w1|w1|w1|w1 k] eqn:Hs;
    cbn [UseAgent.worldOf] in *;
    try (unfold announcedOnce, countStatus in *; rewrite Hkeep, Hms;
         repeat split; assumption).
  destruct (iteration_replaces_one E w w1 k r prioritize_sub Hnd Hs)
    as (l1 & l2 & x & Hts & Hpend & Hid & Hst & Hend).
  destruct (iterationStart_awaiting E w w1 k Hs) as (Hsnap & _).
  pose proof (iterationEnd_milestones E p k r w1 Hp) as Hcount.
  rewrite Hms in Hcount.
  assert (Hend' : tasks (store (UseAgent.iterationEnd E k r w1))
                  = (l1 ++ x :: l2)%list).
  { rewrite Hend. destruct r; [rewrite no_followUp|]; apply app_nil_r. }
  assert (Hc0 : countStatus completed w
                = (List.length (filter (statusIs completed) l1)
                   + List.length (filter (statusIs completed) l2))%nat).
  { rewrite (countStatus_split completed w l1 l2 _ Hts), Hpend. cbn. lia. }
  assert (Hc1 : countStatus completed (UseAgent.iterationEnd E k r w1)
                = (countStatus completed w
                   + match r with Fulfilled _ => 1 | Rejected _ => 0 end)%nat).
  { rewrite (countStatus_split completed _ l1 l2 x Hend'), Hc0, Hst.
    destruct r; cbn; lia. }
  assert (Hprog : snapshotProgress (UseAgent.snapshot k)
                  = UseAgent.progressOf (countStatus completed w) n).
  { rewrite Hsnap. unfold snapshotProgress, countStatus. rewrite Hlen. reflexivity. }
  unfold announcedOnce. rewrite Hend', Hc1, Hcount.
  split; [|split].
  - rewrite map_app. cbn. rewrite Hid.
    rewrite Hts, map_app in Hnd. exact Hnd.
  - rewrite <- Hlen, Hts, !length_app. reflexivity.
  - destruct r as [res|e].
    + rewrite Hprog.
      destruct (Z.eqb_spec (UseAgent.progressOf (countStatus completed w) n) p)
        as [Heq|Hneq].
      * assert (H0 : milestonesAt p w = 0%nat).
        { destruct (milestonesAt p w) as [|[|m]]; [reflexivity| |lia].
          specialize (Hpast eq_refl). lia. }
        rewrite H0.
        pose proof (progressOf_next (countStatus completed w) n Hn) as Hnext.
        rewrite Nat.add_1_r.
        destruct (existsb (Z.eqb p) [25; 50; 75]); cbn; split; lia.
      * cbn [andb]. rewrite !Nat.add_0_r. split; [exact Hle|].
        intros H1. specialize (Hpast H1).
        pose proof (progressOf_mono (countStatus completed w)
                      (countStatus completed w + 1) n ltac:(lia)). lia.
    + rewrite !Nat.add_0_r. split; assumption.
Qed.

Lemma iterations_announcedOnce (p : Z) (n : nat) (rs : list (Settled string))
                               (w : World) :
  In p [25; 50; 75; 100] -> (1 <= n <= 100)%nat ->
  announcedOnce p n w -> announcedOnce p n (iterations E w rs).
Proof.
  intros Hp Hn. revert w. induction rs as [|r rs IH]; intros w Hw.
  - exact Hw.
  - cbn. apply IH. apply iterate_announcedOnce; assumption.
Qed.

End AtMostOnce.

Section CallbackMilestones.

Variable E : Env.

Lemma not_callback_milestone_type (p : Z) (e : Log.Entry) :
  Log.type e <> LogType.milestone -> isCallbackMilestoneAt p e = false.
Proof.
  intros H. unfold isCallbackMilestoneAt.
  destruct (Log.type e); try reflexivity. contradiction.
Qed.

Lemma progressIs_unique (c t : nat) (p q : Z) :
  UseAgentCallback.progressIs c t p = true ->
  UseAgentCallback.progressIs c t q = true -> p = q.
Proof.
  unfold UseAgentCallback.progressIs. intros Hp Hq.
  apply andb_true_iff in Hp. destruct Hp as [Ht Hp].
  apply andb_true_iff in Hq. destruct Hq as [_ Hq].
  apply negb_true_iff, Nat.eqb_neq in Ht.
  apply Z.eqb_eq in Hp. apply Z.eqb_eq in Hq.
  apply (Z.mul_reg_r _ _ (Z.of_nat t)); lia.
Qed.

Lemma callback_iterationEnd_log_shape (k : UseAgentCallback.Suspended)
                                      (res : string) (w : World) :
  let c := List.length (filter (statusIs completed)
                          (tasks (UseAgentCallback.snapshot k))) in
  let t := List.length (tasks (UseAgentCallback.snapshot k)) in
  exists mid tail,
    executionLog (store (UseAgentCallback.iterationEnd E k (Fulfilled res) w))
    = (executionLog (store w) ++ mid ++ tail)%list
    /\ Forall (fun e => Log.type e <> LogType.milestone) mid
    /\ match find (UseAgentCallback.progressIs c t) [25; 50; 75; 100] with
       | Some q => exists m, tail = [m]
                             /\ Log.type m = LogType.milestone
                             /\ Log.message m
                                = "Milestone: " ++ toString q ++ "% complete!"
       | None => tail = []
       end.
Proof.
  intros c t. unfold UseAgentCallback.iterationEnd. cbv zeta.
  fold c. fold t.
  destruct (find (UseAgentCallback.progressIs c t) [25; 50; 75; 100]);
    destruct (0 <? List.length (generateFollowUpTasks E _ res _))%nat;
    cbn -[toString]; rewrite ?addTasks_store; cbn -[toString];
    rewrite <- ?app_assoc; cbn -[toString].
  - eexists [_; _; _], _. split; [cbn; reflexivity|].
    split; [repeat constructor; cbn; discriminate|].
    eexists. repeat split; reflexivity.
  - eexists [_; _], _. split; [cbn; reflexivity|].
    split; [repeat constructor; cbn; discriminate|].
    eexists. repeat split; reflexivity.
  - eexists [_; _; _], []. split; [cbn; reflexivity|].
    split; [repeat constructor; cbn; discriminate | reflexivity].
  - eexists [_; _], []. split; [cbn; reflexivity|].
    split; [repeat constructor; cbn; discriminate | reflexivity].
Qed.

(** What the end of an iteration of the callback hook adds to the count of
    each announcement. *)
Lemma callback_iterationEnd_milestones (p : Z) (k : UseAgentCallback.Suspended)
                                       (r : Settled string) (w : World) :
  In p [25; 50; 75; 100] ->
  callbackMilestonesAt p (UseAgentCallback.iterationEnd E k r w)
  = (callbackMilestonesAt p w
     + match r with
       | Fulfilled _ =>
           if UseAgentCallback.progressIs
                (List.length (filter (statusIs completed)
                                (tasks (UseAgentCallback.snapshot k))))
                (List.length (tasks (UseAgentCallback.snapshot k))) p
           then 1 else 0
       | Rejected _ => 0
       end)%nat.
Proof.
  intros Hp. destruct r as [res|e].
  - destruct (callback_iterationEnd_log_shape k res w)
      as (mid & tail & Hlog & Hmid & Htail).
    unfold callbackMilestonesAt. rewrite Hlog, !filter_app, !length_app.
    rewrite (filter_none (isCallbackMilestoneAt p) mid)
      by (eapply Forall_impl; [|exact Hmid]; intros e' He';
          apply not_callback_milestone_type; exact He').
    set (c := List.length (filter _ _)) in *.
    set (t := List.length (tasks _)) in *.
    destruct (find (UseAgentCallback.progressIs c t) [25; 50; 75; 100])
      as [q|] eqn:Hf.
    + destruct Htail as (m & -> & Hty & Hmsg).
      apply find_some in Hf. destruct Hf as [Hq Hcq].
      cbn [filter]. unfold isCallbackMilestoneAt at 2. rewrite Hty, Hmsg.
      destruct (UseAgentCallback.progressIs c t p) eqn:Hcp.
      * rewrite (progressIs_unique c t p q Hcp Hcq).
        rewrite String.eqb_refl. cbn. lia.
      * assert (Hne : p <> q) by (intros ->; congruence).
        destruct Hq as [<- | [<- | [<- | [<- | []]]]];
          destruct Hp as [<- | [<- | [<- | [<- | []]]]];
          try (exfalso; apply Hne; reflexivity); cbn; lia.
    + subst tail.
      rewrite (find_none _ _ Hf p Hp). cbn. lia.
  - unfold callbackMilestonesAt, UseAgentCallback.iterationEnd.
    cbn -[isCallbackMilestoneAt].
    rewrite filter_app, length_app. cbn. lia.
Qed.

End CallbackMilestones.

Section CallbackAtMostOnce.

Variable E : Env.

Hypothesis no_followUp :
  forall t res o, generateFollowUpTasks E t res o = [].

Lemma callback_iterationStart_awaiting (w w' : World)
                                       (k : UseAgentCallback.Suspended) :
  UseAgentCallback.iterationStart E w = UseAgentCallback.Awaiting w' k ->
  UseAgentCallback.snapshot k = store w
  /\ In (UseAgentCallback.nextTask k) (tasks (store w))
  /\ status (UseAgentCallback.nextTask k) = pending
  /\ tasks (store w')
     = map (fun t =>
              if (id t =? id (UseAgentCallback.nextTask k))%string
              then spread t (mkUpdates None None (Some running)
                                       None None None None None)
              else t)
           (tasks (store w)).
Proof.
  unfold UseAgentCallback.iterationStart. cbv zeta. intros H.
  destruct (filter (statusIs pending) (tasks (store w))) as [|next rest] eqn:Hf.
  - cbn [List.length Nat.eqb orb] in H.
    destruct (currentIteration (store w) >=? maxIterations (store w));
      discriminate.
  - cbn [List.length Nat.eqb orb] in H.
    destruct (currentIteration (store w) >=? maxIterations (store w));
      [discriminate|].
    injection H as <- <-. cbn.
    assert (Hin : In next (filter (statusIs pending) (tasks (store w))))
      by (rewrite Hf; left; reflexivity).
    apply filter_In in Hin. destruct Hin as [Hin Hp].
    unfold statusIs in Hp.
    repeat split; auto.
    destruct (status next); try discriminate; reflexivity.
Qed.

Lemma callback_iterationStart_stopped (w w' : World) :
  UseAgentCallback.iterationStart E w = UseAgentCallback.Stopped w' ->
  tasks (store w') = tasks (store w).
Proof.
  unfold UseAgentCallback.iterationStart. cbv zeta. intros H.
  destruct (_ || _).
  - destruct (currentIteration (store w) >=? maxIterations (store w));
      injection H as <-; reflexivity.
  - destruct (filter (statusIs pending) (tasks (store w)));
      [injection H as <-; reflexivity | discriminate].
Qed.

Lemma callback_iterationStart_milestones (p : Z) (w : World) :
  In p [25; 50; 75; 100] ->
  callbackMilestonesAt p
    (UseAgentCallback.worldOf (UseAgentCallback.iterationStart E w))
  = callbackMilestonesAt p w.
Proof.
  intros Hp. unfold UseAgentCallback.iterationStart. cbv zeta.
  destruct (_ || _).
  - destruct (currentIteration (store w) >=? maxIterations (store w));
      unfold callbackMilestonesAt; cbn -[isCallbackMilestoneAt];
      rewrite filter_app, length_app;
      destruct Hp as [<- | [<- | [<- | [<- | []]]]]; cbn; lia.
  - destruct (filter (statusIs pending) (tasks (store w))); [reflexivity|].
    unfold callbackMilestonesAt. cbn -[isCallbackMilestoneAt].
    rewrite !filter_app, !length_app. cbn. lia.
Qed.

Lemma callback_iteration_replaces_one (w w' : World)
        (k : UseAgentCallback.Suspended) (r : Settled string) :
  NoDup (map id (tasks (store w))) ->
  UseAgentCallback.iterationStart E w = UseAgentCallback.Awaiting w' k ->
  exists l1 l2 x,
    tasks (store w) = (l1 ++ UseAgentCallback.nextTask k :: l2)%list
    /\ status (UseAgentCallback.nextTask k) = pending
    /\ id x = id (UseAgentCallback.nextTask k)
    /\ status x = match r with Fulfilled _ => completed | Rejected _ => failed end
    /\ tasks (store (UseAgentCallback.iterationEnd E k r w'))
       = (l1 ++ x :: l2)%list.
Proof.
  intros Hnd Hstart.
  destruct (callback_iterationStart_awaiting w w' k Hstart)
    as (Hsnap & Hin & Hpend & Htasks).
  destruct (split_by_id _ _ Hnd Hin) as (l1 & l2 & Hts & H1 & H2).
  rewrite Hts in Htasks.
  rewrite (map_on_split _ _ l1 l2 _ H1 H2 (String.eqb_refl _)) in Htasks.
  set (nr := spread (UseAgentCallback.nextTask k) _) in Htasks.
  assert (Hnr : (id nr =? id (UseAgentCallback.nextTask k))%string = true)
    by apply String.eqb_refl.
  destruct r as [res|e].
  - eexists l1, l2, _. split; [exact Hts|]. split; [exact Hpend|].
    split; [|split]; [| |rewrite callback_iterationEnd_tasks, no_followUp,
      app_nil_r, Htasks, (map_on_split _ _ l1 l2 _ H1 H2 Hnr); reflexivity];
      reflexivity.
  - eexists l1, l2, _. split; [exact Hts|]. split; [exact Hpend|].
    split; [|split]; [| |unfold UseAgentCallback.iterationEnd; cbn;
      rewrite Htasks, (map_on_split _ _ l1 l2 _ H1 H2 Hnr); reflexivity];
      reflexivity.
Qed.

Lemma callbackIterate_announcedOnce (p : Z) (n : nat) (w : World)
                                    (r : Settled string) :
  In p [25; 50; 75; 100] ->
  callbackAnnouncedOnce p n w -> callbackAnnouncedOnce p n (callbackIterate E w r).
Proof.
  intros Hp (Hnd & Hlen & Hle & Hpast). unfold callbackIterate.
  pose proof (callback_iterationStart_milestones p w Hp) as Hms.
  destruct (UseAgentCallback.iterationStart E w) as [w1|w1 k] eqn:Hs;
    cbn [UseAgentCallback.worldOf] in Hms.
  - pose proof (callback_iterationStart_stopped w w1 Hs) as Hkeep.
    unfold callbackAnnouncedOnce, countStatus in *. rewrite Hkeep, Hms.
    repeat split; assumption.
  - destruct (callback_iteration_replaces_one w w1 k r Hnd Hs)
      as (l1 & l2 & x & Hts & Hpend & Hid & Hst & Hend).
    destruct (callback_iterationStart_awaiting w w1 k Hs) as (Hsnap & _).
    pose proof (callback_iterationEnd_milestones E p k r w1 Hp) as Hcount.
    rewrite Hms, Hsnap in Hcount.
    assert (Hc0 : countStatus completed w
                  = (List.length (filter (statusIs completed) l1)
                     + List.length (filter (statusIs completed) l2))%nat).
    { rewrite (countStatus_split completed w l1 l2 _ Hts), Hpend. cbn. lia. }
    assert (Hc1 : countStatus completed (UseAgentCallback.iterationEnd E k r w1)
                  = (countStatus completed w
                     + match r with Fulfilled _ => 1 | Rejected _ => 0 end)%nat).
    { rewrite (countStatus_split completed _ l1 l2 x Hend), Hc0, Hst.
      destruct r; cbn; lia. }
    fold (countStatus completed w) in Hcount. rewrite Hlen in Hcount.
    unfold callbackAnnouncedOnce. rewrite Hend, Hc1, Hcount.
    split; [|split].
    + rewrite map_app. cbn. rewrite Hid.
      rewrite Hts, map_app in Hnd. exact Hnd.
    + rewrite <- Hlen, Hts, !length_app. reflexivity.
    + destruct r as [res|e].
      * destruct (UseAgentCallback.progressIs (countStatus completed w) n p)
          eqn:Hprog.
        -- unfold UseAgentCallback.progressIs in Hprog.
           apply andb_true_iff in Hprog. destruct Hprog as [_ Heq].
           apply Z.eqb_eq in Heq.
           assert (H0 : callbackMilestonesAt p w = 0%nat).
           { destruct (callbackMilestonesAt p w) as [|[|m]];
               [reflexivity| |lia].
             specialize (Hpast eq_refl). lia. }
           rewrite H0. split; lia.
        -- rewrite !Nat.add_0_r. split; [exact Hle|].
           intros H1. specialize (Hpast H1). lia.
      * rewrite !Nat.add_0_r. split; assumption.
Qed.

Lemma callbackIterations_announcedOnce (p : Z) (n : nat)
        (rs : list (Settled string)) (w : World) :
  In p [25; 50; 75; 100] ->
  callbackAnnouncedOnce p n w ->
  callbackAnnouncedOnce p n (callbackIterations E w rs).
Proof.
  intros Hp. revert w. induction rs as [|r rs IH]; intros w Hw.
  - exact Hw.
  - cbn. apply IH. apply callbackIterate_announcedOnce; assumption.
Qed.

End CallbackAtMostOnce.

(** C7, as the code has it. When an executor call succeeds, the iteration
    announces [p] percent exactly when the percentage it computes is equal
    to [p], for 25, 50 and 75 in the first hook (ratio rounded down, no
    entry for 100) and for 25, 50, 75 and 100 in the callback hook (exact
    ratio); nothing is announced when a call fails. In a session whose
    iterations do not overlap, with distinct task ids and no follow-up
    task, each announcement is logged at most once, provided, for the first
    hook, that there are at most 100 tasks. *)
Theorem milestones_on_equality_at_most_once :
  forall (E : Env) (p : Z),
    In p [25; 50; 75; 100] ->
    (forall k r v,
       milestonesAt p (UseAgent.iterationEnd E k r v)
       = (milestonesAt p v
          + match r with
            | Fulfilled _ =>
                if (snapshotProgress (UseAgent.snapshot k) =? p)%Z
                   && existsb (Z.eqb p) [25%Z; 50%Z; 75%Z]
                then 1 else 0
            | Rejected _ => 0
            end)%nat)
    /\ (forall k r v,
          callbackMilestonesAt p (UseAgentCallback.iterationEnd E k r v)
          = (callbackMilestonesAt p v
             + match r with
               | Fulfilled _ =>
                   if UseAgentCallback.progressIs
                        (List.length (filter (statusIs completed)
                                        (tasks (UseAgentCallback.snapshot k))))
                        (List.length (tasks (UseAgentCallback.snapshot k))) p
                   then 1 else 0
               | Rejected _ => 0
               end)%nat)
    /\ (forall (w : World) (rs : list (Settled string)),
          (forall ts t, In t (prioritizeTasks E ts) -> In t ts) ->
          (forall t res o, generateFollowUpTasks E t res o = []) ->
          NoDup (map id (tasks (store w))) ->
          (1 <= List.length (tasks (store w)) <= 100)%nat ->
          milestonesAt p w = 0%nat ->
          (milestonesAt p (iterations E w rs) <= 1)%nat
          /\ List.length (tasks (store (iterations E w rs)))
             = List.length (tasks (store w)))
    /\ (forall (w : World) (rs : list (Settled string)),
          (forall t res o, generateFollowUpTasks E t res o = []) ->
          NoDup (map id (tasks (store w))) ->
          callbackMilestonesAt p w = 0%nat ->
          (callbackMilestonesAt p (callbackIterations E w rs) <= 1)%nat
          /\ List.length (tasks (store (callbackIterations E w rs)))
             = List.length (tasks (store w))).
Proof.
  intros E p Hp. split; [|split; [|split]].
  - intros k r v. apply iterationEnd_milestones. exact Hp.
  - intros k r v. apply callback_iterationEnd_milestones. exact Hp.
  - intros w rs Hsub Hnf Hnd Hn H0.
    assert (Hinv : announcedOnce p (List.length (tasks (store w))) w).
    { unfold announcedOnce. rewrite H0. repeat split; auto; lia. }
    destruct (iterations_announcedOnce E Hsub Hnf p _ rs w Hp Hn Hinv)
      as (_ & Hlen & Hle & _).
    split; assumption.
  - intros w rs Hnf Hnd H0.
    assert (Hinv : callbackAnnouncedOnce p (List.length (tasks (store w))) w).
    { unfold callbackAnnouncedOnce. rewrite H0. repeat split; auto; lia. }
    destruct (callbackIterations_announcedOnce E Hnf p _ rs w Hp Hinv)
      as (_ & Hlen & Hle & _).
    split; assumption.
Qed.

Lemma insertByPriority_In (t u : Task) (sorted : list Task) :
  In u (insertByPriority t sorted) -> u = t \/ In u sorted.
Proof.
  induction sorted as [|v rest IH]; cbn.
  - intros [<- | []]. left; reflexivity.
  - destruct (priority v >? priority t); cbn.
    + intros [<- | H]; [right; left; reflexivity|].
      destruct (IH H) as [-> | H']; [left; reflexivity | right; right; exact H'].
    + intros [<- | [<- | H]]; [left; reflexivity | right; left; reflexivity
                               | right; right; exact H].
Qed.

Lemma sortByPriority_In (ts : list Task) (t : Task) :
  In t (sortByPriority ts) -> In t ts.
Proof.
  induction ts as [|u rest IH]; cbn; [auto|].
  intros H. apply insertByPriority_In in H.
  destruct H as [-> | H]; [left; reflexivity | right; exact (IH H)].
Qed.

Lemma distinct_NoDup (l : list string) : distinct l = true -> NoDup l.
Proof.
  induction l as [|x rest IH]; cbn; intros H; constructor.
  - apply andb_true_iff in H. destruct H as [H _].
    apply negb_true_iff in H. intros Hin.
    assert (Hex : existsb (String.eqb x) rest = true)
      by (apply existsb_exists; exists x; split; [exact Hin | apply String.eqb_refl]).
    congruence.
  - apply IH. apply andb_true_iff in H. tauto.
Qed.

Lemma milestones_on_equality_at_most_once_witness :
  (milestonesAt 50
     (iterations sampleEnv (session [T1; T2])
        [Fulfilled "Outline ready"; Fulfilled "Draft ready"; Fulfilled "-"])
   <= 1)%nat.
Proof.
  refine (proj1 (proj1 (proj2 (proj2
    (milestones_on_equality_at_most_once sampleEnv 50 _)))
    (session [T1; T2])
    [Fulfilled "Outline ready"; Fulfilled "Draft ready"; Fulfilled "-"]
    _ _ _ _ _)).
  - cbn; auto.
  - exact sortByPriority_In.
  - reflexivity.
  - apply distinct_NoDup. reflexivity.
  - cbn; lia.
  - reflexivity.
Defined.

(** C7 as stated fails: three tasks are completed one after the other, the
    completion ratio passes 25, 50, 75 and reaches 100 percent, and no
    milestone entry is logged. *)
Lemma thresholds_crossed_without_milestone :
  let w := iterations sampleEnv (session [T1; T2; T3])
             [Fulfilled "Outline ready"; Fulfilled "Draft ready";
              Fulfilled "Published"] in
  statuses w = [("t1", completed); ("t2", completed); ("t3", completed)]
  /\ List.length (tasks (store w)) = 3%nat
  /\ messagesOf LogType.milestone w = [].
Proof. vm_compute. repeat split; reflexivity. Qed.

(** With two tasks the 50 percent entry is logged when the second task
    completes, from the ratio of the list read before that completion. *)
Example fifty_percent_announced_at_second_completion :
  let w1 := iterations sampleEnv (session [T1; T2]) [Fulfilled "Outline ready"] in
  let w2 := iterate sampleEnv w1 (Fulfilled "Draft ready") in
  milestonesAt 50 w1 = 0%nat
  /\ statuses w1 = [("t1", completed); ("t2", pending)]
  /\ milestonesAt 50 w2 = 1%nat
  /\ statuses w2 = [("t1", completed); ("t2", completed)].
Proof. vm_compute. repeat split; reflexivity. Qed.

Lemma iteration_budget_respected_witness :
  let evs := [UseAgent.TimerFires;
              UseAgent.Settles 0 (SimReply (Fulfilled "Outline ready"));
              UseAgent.TimerFires] in
  let h := UseAgent.run sampleEnv (mounted (sessionWithLimit 1 [T1; T2])) evs in
  currentIteration (store (UseAgent.world h)) <= 1
  /\ statuses (UseAgent.world h) = [("t1", completed); ("t2", pending)]
  /\ isPaused (store (UseAgent.world h)) = true
  /\ UseAgent.agentLoopRef h = false.
Proof.
  intros evs h. split.
  - refine (proj1 (proj2 (proj2
      (iteration_budget_respected sampleEnv
         (mounted (sessionWithLimit 1 [T1; T2])) evs (session [T1; T2]) _ _)))).
    + cbn; lia.
    + cbn; lia.
  - vm_compute. repeat split; reflexivity.
Defined.

(** ** Iterations that do not overlap run one task at a time *)

(** X25. With distinct ids and no task running, an iteration of the first
    hook that starts a task leaves exactly one task running, and the end of
    that iteration, success or failure, leaves none running, provided the
    follow-up tasks are not running themselves. *)
Lemma one_running_when_serialized (E : Env) (w w' : World)
                                  (k : UseAgent.Suspended) :
  (forall ts t, In t (prioritizeTasks E ts) -> In t ts) ->
  NoDup (map id (tasks (store w))) ->
  countStatus running w = 0%nat ->
  UseAgent.iterationStart E w = UseAgent.Awaiting w' k ->
  countStatus running w' = 1%nat
  /\ forall r,
       Forall (fun t => status t <> running)
         match r with
         | Fulfilled res =>
             generateFollowUpTasks E (UseAgent.nextTask k) res
               (objective (store w))
         | Rejected _ => []
         end ->
       countStatus running (UseAgent.iterationEnd E k r w') = 0%nat.
Proof.
  intros Hsub Hnd Hrun Hstart.
  destruct (iterationStart_awaiting E w w' k Hstart)
    as (_ & Hin & _ & Htasks & _).
  destruct (iteration_replaces_one E w w' k (Rejected OtherValue) Hsub Hnd Hstart)
    as (l1 & l2 & _ & Hts & Hpend & _).
  destruct (split_by_id _ _ Hnd (Hsub _ _ Hin)) as (m1 & m2 & Hts' & H1 & H2).
  assert (H0 : (List.length (filter (statusIs running) m1)
                + List.length (filter (statusIs running) m2) = 0)%nat).
  { rewrite (countStatus_split running w m1 m2 _ Hts') in Hrun. lia. }
  rewrite Hts' in Htasks.
  rewrite (map_on_split _ _ m1 m2 _ H1 H2 (String.eqb_refl _)) in Htasks.
  split.
  - rewrite (countStatus_split running w' m1 m2 _ Htasks). cbn. lia.
  - intros r Hfollow.
    destruct (iteration_replaces_one E w w' k r Hsub Hnd Hstart)
      as (a1 & a2 & x & Hsplit & _ & _ & Hst & Hend).
    assert (Hw : countStatus running w
                 = (List.length (filter (statusIs running) a1)
                    + List.length (filter (statusIs running) a2))%nat).
    { rewrite (countStatus_split running w a1 a2 _ Hsplit), Hpend. cbn. lia. }
    unfold countStatus. rewrite Hend, filter_app, length_app.
    rewrite filter_app, length_app. cbn [filter]. unfold statusIs at 2.
    rewrite Hst.
    match goal with |- context [filter (statusIs running) (match r with _ => _ end)] =>
      rewrite (filter_none (statusIs running) (match r with
                 | Fulfilled res =>
                     generateFollowUpTasks E (UseAgent.nextTask k) res
                       (objective (store w))
                 | Rejected _ => []
                 end))
        by (eapply Forall_impl; [|exact Hfollow]; intros t Ht; unfold statusIs;
            destruct (status t) eqn:Hs; try reflexivity; congruence)
    end.
    destruct r; cbn; lia.
Qed.

(** Past 100 tasks two consecutive completions can compute the same
    rounded-down percentage: with 200 tasks of which 50 are completed, the
    next two successful iterations both announce 25 percent. *)
Example announcement_repeats_with_200_tasks :
  let w := iterations sampleEnv (session (twoHundred 50))
             [Fulfilled "ok"; Fulfilled "ok"] in
  NoDup (map id (twoHundred 50))
  /\ List.length (tasks (store w)) = 200%nat
  /\ countStatus completed w = 52%nat
  /\ milestonesAt 25 (session (twoHundred 50)) = 0%nat
  /\ milestonesAt 25 w = 2%nat.
Proof.
  split.
  - apply distinct_NoDup. vm_compute. reflexivity.
  - vm_compute. repeat split; reflexivity.
Qed.

(** A call of the AI executor that resolves after a reset: the emptied task
    sequence is not changed, and the entries of the old task are logged in
    the new session. *)
Example stale_result_logged_after_reset :
  let h := UseAgent.run sampleEnv (mounted (aiSession [T1; T2]))
             [UseAgent.TimerFires; UseAgent.ResetAgent;
              UseAgent.Settles 0
                (AiReply (Fulfilled (mkAiResponse "Outline ready" None)))] in
  tasks (store (UseAgent.world h)) = []
  /\ isRunning (store (UseAgent.world h)) = false
  /\ objective (store (UseAgent.world h)) = ""
  /\ map Log.message (executionLog (store (UseAgent.world h)))
     = ["✅ Completed: Outline the post"; "📊 Result: Outline ready"].
Proof. vm_compute. repeat split; reflexivity. Qed.

(** * Further properties of the store *)

Lemma set_tasks_same (s : AgentState) : set_tasks (tasks s) s = s.
Proof. destruct s; reflexivity. Qed.

Lemma map_unmatched (f : Task -> Task) (taskId : string) (ts : list Task) :
  (forall t, In t ts -> id t <> taskId) ->
  map (fun t => if (id t =? taskId)%string then f t else t) ts = ts.
Proof.
  intros H. rewrite <- (map_id ts) at 2. apply map_ext_in. intros t Ht.
  destruct (String.eqb_spec (id t) taskId) as [Heq|]; [|reflexivity].
  exfalso. exact (H t Ht Heq).
Qed.

(** X1. The two mutations by id do nothing at all when no task carries the id:
    [updateTask] and [completeTask] return the store as it was, and
    [completeTask] does not even read the clock. *)
Theorem mutation_by_absent_id_is_noop :
  forall (E : Env) (taskId : string) (updates : TaskUpdates) (res : string)
         (w : World),
    (forall t, In t (tasks (store w)) -> id t <> taskId) ->
    AgentStore.updateTask taskId updates w = w
    /\ AgentStore.completeTask E taskId res w = w.
Proof.
  intros E taskId updates res w H. split.
  - unfold AgentStore.updateTask, set.
    rewrite (map_unmatched _ taskId _ H), set_tasks_same.
    destruct w; reflexivity.
  - unfold AgentStore.completeTask.
    rewrite (completeAll_no_match E taskId res (tasks (store w)) (reads w))
      by (intros t Ht; apply String.eqb_neq; exact (H t Ht)).
    rewrite set_tasks_same. destruct w; reflexivity.
Qed.

Lemma mutation_by_absent_id_is_noop_witness :
  AgentStore.updateTask "t9"
    (mkUpdates None None (Some failed) None None None None None)
    (session [T1; T2]) = session [T1; T2]
  /\ AgentStore.completeTask sampleEnv "t9" "late result" (session [T1; T2])
     = session [T1; T2].
Proof.
  apply (mutation_by_absent_id_is_noop sampleEnv "t9").
  intros t [<- | [<- | []]]; cbn; discriminate.
Defined.

(** X2. [completeTask] does not look at the status a task has: any task of the
    sequence with the given id, be it failed or completed before, is found
    afterwards at the same position completed with the new result, and the
    sequence keeps its length. *)
Theorem completeTask_overrides_any_status :
  forall (E : Env) (taskId res : string) (w : World) (n : nat) (t : Task),
    nth_error (tasks (store w)) n = Some t ->
    id t = taskId ->
    (exists t',
       nth_error (tasks (store (AgentStore.completeTask E taskId res w))) n
         = Some t'
       /\ id t' = taskId /\ status t' = completed /\ result t' = Some res
       /\ description t' = description t
       /\ dependencies t' = dependencies t)
    /\ List.length (tasks (store (AgentStore.completeTask E taskId res w)))
       = List.length (tasks (store w)).
Proof.
  intros E taskId res w n t Hn Hid.
  rewrite completeTask_store. cbn [tasks set_tasks].
  pose proof (completeAll_committed E taskId res (tasks (store w)) (reads w))
    as HF.
  split.
  - revert n Hn. induction HF as [|a b l l' Hab _ IH]; intros n Hn.
    + destruct n; discriminate.
    + destruct n as [|n]; cbn in Hn |- *.
      * injection Hn as Ha. subst a. exists b. split; [reflexivity|].
        unfold committed in Hab. rewrite Hid, String.eqb_refl in Hab.
        destruct Hab as (H1 & H2 & H3 & H4 & _ & H6).
        repeat split; try assumption; congruence.
      * apply IH. exact Hn.
  - symmetry. eapply Forall2_length. exact HF.
Qed.

Lemma completeTask_overrides_any_status_witness :
  (exists t',
     nth_error (tasks (store (AgentStore.completeTask sampleEnv "t0" "redone"
                                (session [T_failed; T1])))) 0
       = Some t'
     /\ id t' = "t0" /\ status t' = completed /\ result t' = Some "redone"
     /\ description t' = description T_failed
     /\ dependencies t' = dependencies T_failed)
  /\ List.length (tasks (store (AgentStore.completeTask sampleEnv "t0" "redone"
                                  (session [T_failed; T1]))))
     = List.length (tasks (store (session [T_failed; T1]))).
Proof.
  apply (completeTask_overrides_any_status sampleEnv "t0" "redone"
           (session [T_failed; T1]) 0 T_failed); reflexivity.
Defined.

(** X3. Toggling the theme or the sidebar twice gives back the store. *)
Theorem toggles_are_involutions :
  forall w : World,
    AgentStore.toggleTheme (AgentStore.toggleTheme w) = w
    /\ AgentStore.toggleSidebar (AgentStore.toggleSidebar w) = w.
Proof.
  intros [s n]. destruct s as [? ? ? ? ? ? ? ? ? th sc ? ?]. split.
  - destruct th; reflexivity.
  - destruct sc; reflexivity.
Qed.

Lemma orElse_orKeep {A} (o2 o1 : option A) (c : A) :
  orElse (orKeep o2 o1) c = orElse o2 (orElse o1 c).
Proof. destruct o2, o1; reflexivity. Qed.

(** X4. Two [updateSettings] in a row are one [updateSettings] with the second
    partial object spread over the first, and the empty partial object
    changes nothing. *)
Theorem updateSettings_composes :
  forall (u1 u2 : AgentStore.SettingsUpdates) (w : World),
    AgentStore.updateSettings u2 (AgentStore.updateSettings u1 w)
    = AgentStore.updateSettings (overrideSettings u1 u2) w
    /\ AgentStore.updateSettings noSettingsUpdates w = w.
Proof.
  intros u1 u2 [s n]. split.
  - unfold AgentStore.updateSettings, set, overrideSettings. cbn.
    rewrite !orElse_orKeep. reflexivity.
  - destruct s as [? ? ? ? ? ? ? ? st ? ? ? ?]. destruct st. reflexivity.
Qed.

(** X5. The limit the loop checks is the store's own [maxIterations], which
    [updateSettings] never writes: raising [settings.maxIterations] does not
    lift a budget that has been reached. *)
Theorem updateSettings_does_not_lift_budget :
  forall (E : Env) (u : AgentStore.SettingsUpdates) (w : World),
    isRunning (store w) = true ->
    isPaused (store w) = false ->
    maxIterations (store w) <= currentIteration (store w) ->
    maxIterations (store (AgentStore.updateSettings u w))
      = maxIterations (store w)
    /\ Settings.maxIterations (settings (store (AgentStore.updateSettings u w)))
       = orElse (AgentStore.upd_maxIterations u)
                (Settings.maxIterations (settings (store w)))
    /\ exists w',
         UseAgent.iterationStart E (AgentStore.updateSettings u w)
         = UseAgent.BudgetReached w'.
Proof.
  intros E u w Hrun Hp Hge. split; [reflexivity|]. split; [reflexivity|].
  unfold UseAgent.iterationStart. cbn.
  rewrite Hrun, Hp. cbn.
  assert (Hb : (currentIteration (store w) >=? maxIterations (store w)) = true)
    by (apply Z.geb_le; exact Hge).
  rewrite Hb. eexists; reflexivity.
Qed.

Lemma updateSettings_does_not_lift_budget_witness :
  let u := AgentStore.mkSettingsUpdates None None None None None None None None
             (Some 100) in
  let w := sessionWithLimit 0 [T1; T2] in
  maxIterations (store (AgentStore.updateSettings u w)) = 0
  /\ Settings.maxIterations (settings (store (AgentStore.updateSettings u w)))
     = 100
  /\ exists w',
       UseAgent.iterationStart sampleEnv (AgentStore.updateSettings u w)
       = UseAgent.BudgetReached w'.
Proof.
  intros u w.
  apply (updateSettings_does_not_lift_budget sampleEnv u w);
    [reflexivity | reflexivity | cbn; lia].
Defined.

(** * Further properties of the first hook *)

Section RunFacts.

Variable E : Env.

Lemma stopAgentLoop_awaiting (h : UseAgent.Hook) :
  UseAgent.awaiting (UseAgent.stopAgentLoop h) = UseAgent.awaiting h.
Proof. unfold UseAgent.stopAgentLoop. destruct (UseAgent.agentLoopRef h); reflexivity. Qed.

(** A property of worlds that every part of an iteration and every command
    carries over is carried over by every event of the hook. *)
Lemma step_carries (R : World -> World -> Prop) (withReset : bool) :
  (forall w, R w w) ->
  (forall a b c, R a b -> R b c -> R a c) ->
  (forall w, R w (UseAgent.worldOf (UseAgent.iterationStart E w))) ->
  (forall k r w, R w (UseAgent.iterationEnd E k r w)) ->
  (forall w, R w (AgentStore.pauseAgent w)) ->
  (forall text w, R w (AgentStore.setObjective text w)) ->
  (withReset = true -> forall w, R w (AgentStore.resetAgent E w)) ->
  forall h ev,
    (withReset = false -> isReset ev = false) ->
    R (UseAgent.world h) (UseAgent.world (UseAgent.step E h ev)).
Proof.
  intros Hrefl Htrans Hstart Hend Hpause Hobj Hreset h ev Hev.
  assert (Hexec : forall g, R (UseAgent.world g)
                    (UseAgent.world (UseAgent.executeAgentIteration E g))).
  { intros g. rewrite executeAgentIteration_world. apply Hstart. }
  assert (Heff : forall before g, R (UseAgent.world g)
                   (UseAgent.world (UseAgent.useEffect E before g))).
  { intros before g. unfold UseAgent.useEffect. cbv zeta.
    destruct (Bool.eqb _ _ && Bool.eqb _ _); [apply Hrefl|].
    destruct (isRunning _ && negb _).
    - unfold UseAgent.startAgentLoop.
      destruct (UseAgent.agentLoopRef (UseAgent.stopAgentLoop g)) eqn:Hr.
      + rewrite stopAgentLoop_world. apply Hrefl.
      + eapply Htrans; [|apply Hexec]. cbn. rewrite stopAgentLoop_world.
        apply Hrefl.
    - rewrite !stopAgentLoop_world. apply Hrefl. }
  destruct ev as [|n r| | |text]; cbn [UseAgent.step].
  - destruct (UseAgent.agentLoopRef h); [apply Hexec | apply Hrefl].
  - destruct (nth_error (UseAgent.awaiting h) n) as [k|]; [|apply Hrefl].
    destruct (UseAgent.replyMatches k r); [|apply Hrefl].
    cbn. apply Hend.
  - eapply Htrans; [|apply Heff]. cbn. apply Hpause.
  - destruct withReset.
    + eapply Htrans; [|apply Heff]. cbn. apply Hreset. reflexivity.
    + specialize (Hev eq_refl). discriminate.
  - cbn. apply Hobj.
Qed.

Lemma run_carries (R : World -> World -> Prop) (withReset : bool) :
  (forall w, R w w) ->
  (forall a b c, R a b -> R b c -> R a c) ->
  (forall w, R w (UseAgent.worldOf (UseAgent.iterationStart E w))) ->
  (forall k r w, R w (UseAgent.iterationEnd E k r w)) ->
  (forall w, R w (AgentStore.pauseAgent w)) ->
  (forall text w, R w (AgentStore.setObjective text w)) ->
  (withReset = true -> forall w, R w (AgentStore.resetAgent E w)) ->
  forall evs h,
    (withReset = false -> noReset evs = true) ->
    R (UseAgent.world h) (UseAgent.world (UseAgent.run E h evs)).
Proof.
  intros Hrefl Htrans Hstart Hend Hpause Hobj Hreset.
  induction evs as [|ev evs IH]; intros h Hn; [apply Hrefl|].
  cbn [UseAgent.run fold_left].
  eapply Htrans.
  - apply (step_carries R withReset); try assumption.
    intros Hw. specialize (Hn Hw). cbn in Hn.
    apply andb_true_iff in Hn. destruct Hn as [Hn _].
    apply negb_true_iff in Hn. exact Hn.
  - apply IH. intros Hw. specialize (Hn Hw). cbn in Hn.
    apply andb_true_iff in Hn. tauto.
Qed.

(** *** The configuration *)

Lemma iterationStart_config (w : World) :
  config (UseAgent.worldOf (UseAgent.iterationStart E w)) = config w.
Proof.
  unfold UseAgent.iterationStart. cbv zeta.
  destruct (negb (isRunning (store w)) || isPaused (store w)); [reflexivity|].
  destruct (currentIteration (store w) >=? maxIterations (store w));
    [reflexivity|].
  destruct ((List.length (tasks (store w)) =? 0)%nat && truthy (objective (store w))).
  { cbn. rewrite addTasks_store. reflexivity. }
  destruct (find _ _); [destruct (mode_eqb _ _ && _); reflexivity|].
  destruct (forallb _ _ && _); reflexivity.
Qed.

Lemma iterationEnd_config (k : UseAgent.Suspended) (r : Settled string)
                          (w : World) :
  config (UseAgent.iterationEnd E k r w) = config w.
Proof.
  unfold UseAgent.iterationEnd. cbv zeta.
  destruct r as [res|e]; [|reflexivity].
  destruct (existsb _ _);
    destruct (0 <? List.length (generateFollowUpTasks E _ res _))%nat;
    unfold config, partialize; cbn; rewrite ?addTasks_store; cbn;
    rewrite completeTask_store; reflexivity.
Qed.

(** *** The log *)

Lemma logExtends_refl (w : World) : logExtends w w.
Proof. exists []. rewrite app_nil_r. reflexivity. Qed.

Lemma logExtends_trans (a b c : World) :
  logExtends a b -> logExtends b c -> logExtends a c.
Proof.
  intros [l1 H1] [l2 H2]. exists (l1 ++ l2)%list.
  rewrite H2, H1, app_assoc. reflexivity.
Qed.

Lemma iterationStart_logExtends (w : World) :
  logExtends w (UseAgent.worldOf (UseAgent.iterationStart E w)).
Proof.
  unfold UseAgent.iterationStart. cbv zeta.
  destruct (negb (isRunning (store w)) || isPaused (store w));
    [apply logExtends_refl|].
  destruct (currentIteration (store w) >=? maxIterations (store w)).
  { eexists. cbn. reflexivity. }
  destruct ((List.length (tasks (store w)) =? 0)%nat && truthy (objective (store w))).
  { eexists. cbn. rewrite addTasks_store. cbn. reflexivity. }
  destruct (find _ _).
  - destruct (mode_eqb _ _ && _); eexists; cbn; rewrite <- app_assoc;
      reflexivity.
  - destruct (forallb _ _ && _); [eexists; cbn; reflexivity|].
    apply logExtends_refl.
Qed.

Lemma iterationEnd_logExtends (k : UseAgent.Suspended) (r : Settled string)
                              (w : World) :
  logExtends w (UseAgent.iterationEnd E k r w).
Proof.
  destruct r as [res|e].
  - destruct (iterationEnd_log E k res w) as (e1 & e2 & rest & H & _).
    eexists. exact H.
  - eexists. cbn. reflexivity.
Qed.

(** *** The task sequence *)

Lemma laterTask_refl (t : Task) : laterTask t t.
Proof. split; auto. Qed.

Lemma Forall2_laterTask_refl (ts : list Task) : Forall2 laterTask ts ts.
Proof. induction ts; constructor; auto using laterTask_refl. Qed.

Lemma Forall2_laterTask_trans (a b c : list Task) :
  Forall2 laterTask a b -> Forall2 laterTask b c -> Forall2 laterTask a c.
Proof.
  intros Hab. revert c. induction Hab as [|x y a b Hxy _ IH]; intros c Hbc.
  - inversion Hbc. constructor.
  - inversion Hbc as [|y' z b' c' Hyz Hbc' Eq1 Eq2]; subst.
    constructor; [|apply IH; exact Hbc'].
    destruct Hxy as [I1 S1], Hyz as [I2 S2]. split; [congruence | auto].
Qed.

Lemma tasksEvolve_refl (w : World) : tasksEvolve w w.
Proof.
  exists (tasks (store w)), []. rewrite app_nil_r.
  split; [reflexivity | apply Forall2_laterTask_refl].
Qed.

Lemma tasksEvolve_trans (a b c : World) :
  tasksEvolve a b -> tasksEvolve b c -> tasksEvolve a c.
Proof.
  intros (o1 & a1 & H1 & F1) (o2 & a2 & H2 & F2).
  rewrite H1 in F2. apply Forall2_app_inv_l in F2.
  destruct F2 as (p & q & Fp & Fq & ->).
  exists p, (q ++ a2)%list. split.
  - rewrite H2, app_assoc. reflexivity.
  - eapply Forall2_laterTask_trans; eassumption.
Qed.

Lemma Forall2_laterTask_map (f : Task -> Task) (ts : list Task) :
  (forall t, laterTask t (f t)) -> Forall2 laterTask ts (map f ts).
Proof. intros H. induction ts; cbn; constructor; auto. Qed.

Lemma laterTask_status_update (taskId : string) (st : TaskStatus)
                              (res : option string) (t : Task) :
  st <> pending ->
  laterTask t
    (if (id t =? taskId)%string
     then spread t (mkUpdates None None (Some st) None None None res None)
     else t).
Proof.
  intros Hst. destruct (id t =? taskId)%string; [|apply laterTask_refl].
  split; [reflexivity|]. cbn. intros H. contradiction.
Qed.

Lemma committed_laterTask (taskId res : string) (t t' : Task) :
  committed taskId res t t' -> laterTask t t'.
Proof.
  unfold committed. destruct (id t =? taskId)%string.
  - intros (H1 & _ & H3 & _). split; [exact H1|]. rewrite H3. discriminate.
  - intros ->. apply laterTask_refl.
Qed.

Lemma iterationStart_tasksEvolve (w : World) :
  tasksEvolve w (UseAgent.worldOf (UseAgent.iterationStart E w)).
Proof.
  unfold UseAgent.iterationStart. cbv zeta.
  destruct (negb (isRunning (store w)) || isPaused (store w));
    [apply tasksEvolve_refl|].
  destruct (currentIteration (store w) >=? maxIterations (store w)).
  { exists (tasks (store w)), []. cbn. rewrite app_nil_r.
    split; [reflexivity | apply Forall2_laterTask_refl]. }
  destruct ((List.length (tasks (store w)) =? 0)%nat && truthy (objective (store w))).
  { eexists (tasks (store w)), _. cbn. rewrite addTasks_store. cbn.
    split; [reflexivity | apply Forall2_laterTask_refl]. }
  destruct (find _ _) as [next|].
  - destruct (mode_eqb _ _ && _); eexists _, []; cbn; rewrite app_nil_r;
      (split; [reflexivity|]); apply Forall2_laterTask_map; intros t;
      apply laterTask_status_update; discriminate.
  - destruct (forallb _ _ && _); [|apply tasksEvolve_refl].
    exists (tasks (store w)), []. cbn. rewrite app_nil_r.
    split; [reflexivity | apply Forall2_laterTask_refl].
Qed.

Lemma iterationEnd_tasksEvolve (k : UseAgent.Suspended) (r : Settled string)
                               (w : World) :
  tasksEvolve w (UseAgent.iterationEnd E k r w).
Proof.
  destruct r as [res|e].
  - eexists _, _. split; [apply iterationEnd_tasks|].
    eapply Forall2_impl; [|apply completeAll_committed].
    intros t t'. apply committed_laterTask.
  - eexists _, []. cbn. rewrite app_nil_r. split; [reflexivity|].
    apply Forall2_laterTask_map. intros t.
    apply laterTask_status_update. discriminate.
Qed.

End RunFacts.

(** X6. No event of the first hook, a reset included, changes what [partialize]
    persists ([settings] and [theme]), the mode or the iteration limit. *)
Theorem events_keep_configuration :
  forall (E : Env) (h : UseAgent.Hook) (evs : list UseAgent.Event),
    partialize (store (UseAgent.world (UseAgent.run E h evs)))
      = partialize (store (UseAgent.world h))
    /\ mode (store (UseAgent.world (UseAgent.run E h evs)))
       = mode (store (UseAgent.world h))
    /\ maxIterations (store (UseAgent.world (UseAgent.run E h evs)))
       = maxIterations (store (UseAgent.world h)).
Proof.
  intros E h evs.
  assert (H : config (UseAgent.world (UseAgent.run E h evs))
              = config (UseAgent.world h)).
  { apply (run_carries E (fun w w' => config w' = config w) true);
      try reflexivity; try discriminate.
    - intros a b c H1 H2. congruence.
    - apply iterationStart_config.
    - apply iterationEnd_config. }
  unfold config in H.
  pose proof (f_equal (fun c => fst (fst c)) H) as H1.
  pose proof (f_equal (fun c => snd (fst c)) H) as H2.
  pose proof (f_equal snd H) as H3.
  repeat split; assumption.
Qed.

(** X7. Along a run of the first hook without a reset the execution log is
    append-only: the log at the start is a prefix of the log at the end. *)
Theorem log_is_append_only :
  forall (E : Env) (h : UseAgent.Hook) (evs : list UseAgent.Event),
    noReset evs = true ->
    exists added,
      executionLog (store (UseAgent.world (UseAgent.run E h evs)))
      = (executionLog (store (UseAgent.world h)) ++ added)%list.
Proof.
  intros E h evs Hn.
  apply (run_carries E logExtends false logExtends_refl logExtends_trans
           (iterationStart_logExtends E) (iterationEnd_logExtends E)).
  - intros w. exists []. cbn. rewrite app_nil_r. reflexivity.
  - intros text w. exists []. cbn. rewrite app_nil_r. reflexivity.
  - discriminate.
  - intros _. exact Hn.
Qed.

Lemma log_is_append_only_witness :
  exists added,
    executionLog (store (UseAgent.world
      (UseAgent.run sampleEnv (mounted (session [T1; T2]))
         [UseAgent.TimerFires;
          UseAgent.Settles 0 (SimReply (Fulfilled "Outline ready"));
          UseAgent.PauseAgent])))
    = (executionLog (store (UseAgent.world (mounted (session [T1; T2]))))
       ++ added)%list.
Proof.
  apply (log_is_append_only sampleEnv (mounted (session [T1; T2]))).
  reflexivity.
Defined.

(** X8. Along a run of the first hook without a reset no task is removed or
    moved and none goes back to [pending]: the sequence at the end starts
    with the tasks of the start, each with its id and, if it was not
    pending, still not pending; what follows was added since. *)
Theorem tasks_stay_and_never_return_to_pending :
  forall (E : Env) (h : UseAgent.Hook) (evs : list UseAgent.Event),
    noReset evs = true ->
    exists olds added,
      tasks (store (UseAgent.world (UseAgent.run E h evs)))
      = (olds ++ added)%list
      /\ Forall2 (fun t t' => id t' = id t
                              /\ (status t' = pending -> status t = pending))
                 (tasks (store (UseAgent.world h))) olds.
Proof.
  intros E h evs Hn.
  apply (run_carries E tasksEvolve false tasksEvolve_refl tasksEvolve_trans
           (iterationStart_tasksEvolve E) (iterationEnd_tasksEvolve E)).
  - intros w. exists (tasks (store w)), []. cbn. rewrite app_nil_r.
    split; [reflexivity | apply Forall2_laterTask_refl].
  - intros text w. exists (tasks (store w)), []. cbn. rewrite app_nil_r.
    split; [reflexivity | apply Forall2_laterTask_refl].
  - discriminate.
  - intros _. exact Hn.
Qed.

Lemma tasks_stay_and_never_return_to_pending_witness :
  exists olds added,
    tasks (store (UseAgent.world
      (UseAgent.run sampleEnv (mounted (session [T1; T_failed]))
         [UseAgent.TimerFires;
          UseAgent.Settles 0 (SimReply (Rejected (ErrorObject "Request timed out")));
          UseAgent.TimerFires])))
    = (olds ++ added)%list
    /\ Forall2 (fun t t' => id t' = id t
                            /\ (status t' = pending -> status t = pending))
               (tasks (store (UseAgent.world (mounted (session [T1; T_failed])))))
               olds.
Proof.
  apply (tasks_stay_and_never_return_to_pending sampleEnv
           (mounted (session [T1; T_failed]))).
  reflexivity.
Defined.

Lemma iterationStart_inactive (E : Env) (w : World) :
  isRunning (store w) = false \/ isPaused (store w) = true ->
  UseAgent.iterationStart E w = UseAgent.NotRunning w.
Proof.
  intros H. unfold UseAgent.iterationStart. cbv zeta.
  destruct H as [-> | ->]; [reflexivity|].
  rewrite orb_true_r. reflexivity.
Qed.

(** X9. A hook that is not running, or is paused, ignores its timer: however
    often the interval fires, the store and the suspended iterations stay
    as they are, and the first firing clears the interval. *)
Theorem inactive_hook_ignores_timer :
  forall (E : Env) (h : UseAgent.Hook) (evs : list UseAgent.Event),
    isRunning (store (UseAgent.world h)) = false
    \/ isPaused (store (UseAgent.world h)) = true ->
    timerOnly evs = true ->
    UseAgent.world (UseAgent.run E h evs) = UseAgent.world h
    /\ UseAgent.awaiting (UseAgent.run E h evs) = UseAgent.awaiting h
    /\ (evs <> [] -> UseAgent.agentLoopRef (UseAgent.run E h evs) = false).
Proof.
  intros E h evs. revert h.
  induction evs as [|ev evs IH]; intros h Hin Ht.
  - repeat split; try reflexivity. intros H; contradiction.
  - cbn in Ht. apply andb_true_iff in Ht. destruct Ht as [Hev Ht].
    destruct ev; try discriminate.
    cbn [UseAgent.run fold_left UseAgent.step].
    assert (Hstep : exists g,
              (if UseAgent.agentLoopRef h
               then UseAgent.executeAgentIteration E h else h) = g
              /\ UseAgent.world g = UseAgent.world h
              /\ UseAgent.awaiting g = UseAgent.awaiting h
              /\ UseAgent.agentLoopRef g = false).
    { eexists. split; [reflexivity|].
      destruct (UseAgent.agentLoopRef h) eqn:Hr.
      - unfold UseAgent.executeAgentIteration.
        rewrite (iterationStart_inactive E _ Hin).
        unfold UseAgent.stopAgentLoop. cbn. rewrite Hr. cbn.
        destruct h; repeat split; reflexivity.
      - repeat split; try reflexivity. exact Hr. }
    destruct Hstep as (g & -> & Hw & Ha & Hr).
    assert (Hin' : isRunning (store (UseAgent.world g)) = false
                   \/ isPaused (store (UseAgent.world g)) = true)
      by (rewrite Hw; exact Hin).
    destruct (IH g Hin' Ht) as (Hw' & Ha' & Hr').
    fold (UseAgent.run E g evs).
    split; [congruence|]. split; [congruence|].
    intros _. destruct evs as [|ev' evs']; [exact Hr|].
    apply Hr'. discriminate.
Qed.

Lemma inactive_hook_ignores_timer_witness :
  let h := UseAgent.run sampleEnv (mounted (session [T1; T2]))
             [UseAgent.TimerFires; UseAgent.PauseAgent] in
  let evs := [UseAgent.TimerFires; UseAgent.TimerFires] in
  UseAgent.world (UseAgent.run sampleEnv h evs) = UseAgent.world h
  /\ UseAgent.awaiting (UseAgent.run sampleEnv h evs) = UseAgent.awaiting h
  /\ (evs <> [] -> UseAgent.agentLoopRef (UseAgent.run sampleEnv h evs) = false).
Proof.
  intros h evs.
  apply (inactive_hook_ignores_timer sampleEnv h evs);
    [right; reflexivity | reflexivity].
Defined.

(** * Starting an iteration *)

(** X10. An iteration that starts a task calls the AI executor exactly when the
    mode is [ai] and an API key is entered, so that AI mode without a key
    runs the simulated executor; it advances the counter by one, leaves the
    flags alone and logs two entries, the start of the task and then
    [thinking] for the AI executor or [info] for the simulated one. *)
Theorem started_iteration_chooses_executor :
  forall (E : Env) (w w' : World) (k : UseAgent.Suspended),
    UseAgent.iterationStart E w = UseAgent.Awaiting w' k ->
    UseAgent.viaAI k
      = mode_eqb (mode (store w)) ai
        && negb (Settings.apiKey (settings (store w)) =? "")%string
    /\ currentIteration (store w') = currentIteration (store w) + 1
    /\ isRunning (store w') = isRunning (store w)
    /\ isPaused (store w') = isPaused (store w)
    /\ exists e1 e2,
         executionLog (store w')
         = (executionLog (store w) ++ [e1; e2])%list
         /\ Log.type e1 = LogType.task
         /\ Log.message e1
            = "▶️ Starting: " ++ description (UseAgent.nextTask k)
         /\ Log.type e2
            = if UseAgent.viaAI k then LogType.thinking else LogType.info.
Proof.
  unfold UseAgent.iterationStart. cbv zeta. intros E w w' k H.
  destruct (negb (isRunning (store w)) || isPaused (store w)); [discriminate|].
  destruct (currentIteration (store w) >=? maxIterations (store w));
    [discriminate|].
  destruct ((List.length (tasks (store w)) =? 0)%nat && truthy (objective (store w)));
    [discriminate|].
  destruct (find _ _) as [next|];
    [|destruct (forallb _ _ && _); discriminate].
  unfold truthy in H.
  destruct (mode_eqb (mode (store w)) ai
            && negb (Settings.apiKey (settings (store w)) =? "")%string);
    injection H as <- <-; cbn; repeat split;
    eexists; eexists; (split; [rewrite <- app_assoc; reflexivity|]);
    repeat split; reflexivity.
Qed.

Lemma started_iteration_chooses_executor_witness :
  exists w' k,
    UseAgent.iterationStart sampleEnv
      (AgentStore.setMode ai (session [T1; T2])) = UseAgent.Awaiting w' k
    /\ UseAgent.viaAI k = false
    /\ currentIteration (store w') = 1.
Proof.
  eexists; eexists.
  assert (H : UseAgent.iterationStart sampleEnv
                (AgentStore.setMode ai (session [T1; T2]))
              = UseAgent.Awaiting _ _) by (vm_compute; reflexivity).
  split; [exact H|].
  destruct (started_iteration_chooses_executor sampleEnv _ _ _ H)
    as (Hv & Hc & _).
  split; [exact Hv | exact Hc].
Defined.

(** X11. With an empty task sequence, an active iteration below the limit seeds
    the tasks when an objective is set: the sequence becomes the initial
    tasks in the order generated, one [info] entry is logged, and neither
    the counter nor the flags change. With an empty objective it changes
    nothing at all, provided [prioritizeTasks] makes no task out of none. *)
Theorem empty_queue_seeds_or_idles :
  forall (E : Env) (w : World),
    isRunning (store w) = true ->
    isPaused (store w) = false ->
    currentIteration (store w) < maxIterations (store w) ->
    tasks (store w) = [] ->
    (objective (store w) <> "" ->
     exists w' e,
       UseAgent.iterationStart E w = UseAgent.Seeded w'
       /\ tasks (store w') = generateInitialTasks E (objective (store w))
       /\ executionLog (store w') = (executionLog (store w) ++ [e])%list
       /\ Log.type e = LogType.info
       /\ currentIteration (store w') = currentIteration (store w)
       /\ isRunning (store w') = true /\ isPaused (store w') = false)
    /\ (objective (store w) = "" -> prioritizeTasks E [] = [] ->
        UseAgent.iterationStart E w = UseAgent.NothingToRun w).
Proof.
  intros E w Hrun Hp Hlt Hts.
  unfold UseAgent.iterationStart. cbv zeta.
  rewrite Hrun, Hp, Hts. cbn [negb orb List.length Nat.eqb andb].
  destruct (Z.geb_spec (currentIteration (store w)) (maxIterations (store w)));
    [lia|].
  split.
  - intros Hobj.
    assert (Ht : truthy (objective (store w)) = true).
    { unfold truthy. apply negb_true_iff, String.eqb_neq. exact Hobj. }
    rewrite Ht. eexists; eexists. split; [reflexivity|].
    cbn. rewrite addTasks_store. cbn. rewrite Hts, Hrun, Hp.
    repeat split; reflexivity.
  - intros Hobj Hnil. rewrite Hobj, Hnil. reflexivity.
Qed.

Lemma empty_queue_seeds_or_idles_witness :
  (objective (store (session [])) <> "" ->
   exists w' e,
     UseAgent.iterationStart sampleEnv (session []) = UseAgent.Seeded w'
     /\ tasks (store w')
        = generateInitialTasks sampleEnv (objective (store (session [])))
     /\ executionLog (store w')
        = (executionLog (store (session [])) ++ [e])%list
     /\ Log.type e = LogType.info
     /\ currentIteration (store w') = currentIteration (store (session []))
     /\ isRunning (store w') = true /\ isPaused (store w') = false)
  /\ (objective (store (session [])) = "" ->
      prioritizeTasks sampleEnv [] = [] ->
      UseAgent.iterationStart sampleEnv (session [])
      = UseAgent.NothingToRun (session [])).
Proof.
  apply (empty_queue_seeds_or_idles sampleEnv (session []));
    [reflexivity | reflexivity | cbn; lia | reflexivity].
Defined.

(** * Dependencies *)

(** X12. [hasPendingDependencies] answers true exactly when one of the listed
    ids is carried by a task of the sequence, and the first task carrying
    it is not completed: pending, running and failed dependencies all
    block, absent ones and an absent or empty list do not. *)
Theorem blocked_iff_some_dependency_not_completed :
  forall (t : Task) (allTasks : list Task),
    UseAgent.hasPendingDependencies t allTasks = true
    <-> exists deps d u,
          dependencies t = Some deps /\ In d deps
          /\ find (fun t' => (id t' =? d)%string) allTasks = Some u
          /\ status u <> completed.
Proof.
  intros t allTasks. split.
  - intros H.
    destruct (dependencies t) as [deps|] eqn:Hd;
      [|unfold UseAgent.hasPendingDependencies in H; rewrite Hd in H;
        discriminate].
    unfold UseAgent.hasPendingDependencies in H. rewrite Hd in H.
    destruct (List.length deps =? 0)%nat; [discriminate|].
    apply existsb_exists in H. destruct H as (d & Hin & Hf).
    destruct (find (fun t' => (id t' =? d)%string) allTasks) as [u|] eqn:Hu;
      [|discriminate].
    exists deps, d, u. repeat split; auto.
    intros Hc. rewrite Hc in Hf. discriminate.
  - intros (deps & d & u & Hd & Hin & Hu & Hs).
    destruct (UseAgent.hasPendingDependencies t allTasks) eqn:H;
      [reflexivity|].
    exfalso. apply Hs.
    exact (no_pending_dependencies_elim t allTasks H deps d Hd Hin u Hu).
Qed.

(** X13. A pending task that lists its own id as a dependency, and is the first
    task carrying that id, is not eligible for selection, whatever the
    other tasks are. *)
Theorem self_dependency_is_never_eligible :
  forall (t : Task) (allTasks : list Task) (deps : list string),
    status t = pending ->
    dependencies t = Some deps ->
    In (id t) deps ->
    find (fun t' => (id t' =? id t)%string) allTasks = Some t ->
    UseAgent.eligible allTasks t = false.
Proof.
  intros t allTasks deps Hs Hd Hin Hf.
  unfold UseAgent.eligible.
  assert (H : UseAgent.hasPendingDependencies t allTasks = true).
  { unfold UseAgent.hasPendingDependencies. rewrite Hd.
    destruct deps as [|d0 ds]; [destruct Hin|].
    cbn [List.length Nat.eqb].
    apply existsb_exists. exists (id t). split; [exact Hin|].
    rewrite Hf, Hs. reflexivity. }
  rewrite H, andb_false_r. reflexivity.
Qed.

Lemma self_dependency_is_never_eligible_witness :
  UseAgent.eligible [T_done; T_self] T_self = false.
Proof.
  apply (self_dependency_is_never_eligible T_self [T_done; T_self] ["t7"]);
    [reflexivity | reflexivity | left; reflexivity | reflexivity].
Defined.

(** * Sessions of the first hook whose iterations do not overlap *)

Section Draining.

Variable E : Env.

Hypothesis prioritize_sub :
  forall ts t, In t (prioritizeTasks E ts) -> In t ts.

Hypothesis no_followUp :
  forall t res o, generateFollowUpTasks E t res o = [].

Lemma iterationStart_keeps_counter (w : World) :
  tasks (store w) <> [] ->
  match UseAgent.iterationStart E w with
  | UseAgent.Awaiting _ _ => True
  | t => currentIteration (store (UseAgent.worldOf t))
         = currentIteration (store w)
  end.
Proof.
  intros Hne. unfold UseAgent.iterationStart. cbv zeta.
  destruct (negb (isRunning (store w)) || isPaused (store w)); [reflexivity|].
  destruct (currentIteration (store w) >=? maxIterations (store w));
    [reflexivity|].
  destruct (tasks (store w)) as [|t0 ts0] eqn:Hts; [contradiction|].
  cbn [List.length Nat.eqb andb].
  destruct (find _ _); [destruct (mode_eqb _ _ && _); exact I|].
  destruct (forallb _ _ && _); reflexivity.
Qed.

Lemma awaiting_keeps_flags (w w' : World) (k : UseAgent.Suspended) :
  UseAgent.iterationStart E w = UseAgent.Awaiting w' k ->
  isRunning (store w') = isRunning (store w)
  /\ isPaused (store w') = isPaused (store w).
Proof.
  unfold UseAgent.iterationStart. cbv zeta. intros H.
  destruct (negb (isRunning (store w)) || isPaused (store w)); [discriminate|].
  destruct (currentIteration (store w) >=? maxIterations (store w));
    [discriminate|].
  destruct ((List.length (tasks (store w)) =? 0)%nat && truthy (objective (store w)));
    [discriminate|].
  destruct (find _ _) as [next|];
    [|destruct (forallb _ _ && _); discriminate].
  destruct (mode_eqb _ _ && _); injection H as <- <-; split; reflexivity.
Qed.

Lemma completeAll_on_split_committed (i res : string) (l1 l2 : list Task)
                                     (x : Task) (n : nat) :
  (forall t, In t l1 -> (id t =? i)%string = false) ->
  (forall t, In t l2 -> (id t =? i)%string = false) ->
  (id x =? i)%string = true ->
  exists x',
    fst (AgentStore.completeAll E i res (l1 ++ x :: l2) n) = (l1 ++ x' :: l2)%list
    /\ committed i res x x'.
Proof.
  intros H1 H2 Hx. revert n.
  induction l1 as [|t l1 IH]; intros n.
  - cbn. rewrite Hx, (completeAll_no_match E i res l2 (S n) H2).
    eexists. split; [reflexivity|].
    unfold committed. rewrite Hx. cbn. repeat split; reflexivity.
  - cbn. rewrite (H1 t (or_introl eq_refl)).
    destruct (IH (fun u Hu => H1 u (or_intror Hu)) n) as (x' & Hfst & Hc).
    destruct (AgentStore.completeAll E i res (l1 ++ x :: l2) n) as [rest' n'].
    cbn in *. exists x'. rewrite Hfst. split; [reflexivity | exact Hc].
Qed.

(** What one whole iteration does to a session of distinct ids: either it
    starts no task and keeps tasks and counter, or it takes one pending
    task to completed or failed and adds one to the counter. *)
Lemma iterate_step (w : World) (r : Settled string) :
  NoDup (map id (tasks (store w))) ->
  tasks (store w) <> [] ->
  (iterate E w r = UseAgent.worldOf (UseAgent.iterationStart E w)
   /\ tasks (store (iterate E w r)) = tasks (store w)
   /\ currentIteration (store (iterate E w r)) = currentIteration (store w)
   /\ forall w' k, UseAgent.iterationStart E w <> UseAgent.Awaiting w' k)
  \/ (exists w' k l1 l2 x,
        UseAgent.iterationStart E w = UseAgent.Awaiting w' k
        /\ tasks (store w) = (l1 ++ UseAgent.nextTask k :: l2)%list
        /\ status (UseAgent.nextTask k) = pending
        /\ tasks (store (iterate E w r)) = (l1 ++ x :: l2)%list
        /\ id x = id (UseAgent.nextTask k)
        /\ dependencies x = dependencies (UseAgent.nextTask k)
        /\ status x = match r with
                      | Fulfilled _ => completed
                      | Rejected _ => failed
                      end
        /\ currentIteration (store (iterate E w r))
           = currentIteration (store w) + 1
        /\ isRunning (store (iterate E w r)) = isRunning (store w)
        /\ isPaused (store (iterate E w r)) = isPaused (store w)
        /\ maxIterations (store (iterate E w r)) = maxIterations (store w)).
Proof.
  intros Hnd Hne. unfold iterate.
  pose proof (iterationStart_keeps_tasks E w Hne) as Hkt.
  pose proof (iterationStart_keeps_counter w Hne) as Hkc.
  destruct (UseAgent.iterationStart E w) as [w1|w1|w1|w1|w1|w1 k] eqn:Hs;
    try (left; cbn [UseAgent.worldOf] in *; repeat split; auto;
         intros; discriminate).
  right.
  destruct (iterationStart_awaiting E w w1 k Hs)
    as (Hsnap & Hin & Hel & Htasks & Hcur & _).
  apply prioritize_sub in Hin.
  destruct (split_by_id _ _ Hnd Hin) as (l1 & l2 & Hts & H1 & H2).
  assert (Hpend : status (UseAgent.nextTask k) = pending).
  { unfold UseAgent.eligible, statusIs in Hel.
    apply andb_true_iff in Hel. destruct Hel as [Hp _].
    destruct (status (UseAgent.nextTask k)); try discriminate; reflexivity. }
  rewrite Hts in Htasks.
  rewrite (map_on_split _ _ l1 l2 _ H1 H2 (String.eqb_refl _)) in Htasks.
  set (nr := spread (UseAgent.nextTask k) _) in Htasks.
  assert (Hnr : (id nr =? id (UseAgent.nextTask k))%string = true)
    by apply String.eqb_refl.
  destruct (iterationEnd_flags E k r w1) as (Hf1 & Hf2 & Hf3 & Hf4).
  assert (Hflags : isRunning (store w1) = isRunning (store w)
                   /\ isPaused (store w1) = isPaused (store w)
                   /\ maxIterations (store w1) = maxIterations (store w)).
  { destruct (awaiting_keeps_flags w w1 k Hs) as (Hr & Hp).
    destruct (iterationStart_advances E w) as (Hm & _).
    rewrite Hs in Hm. cbn in Hm. auto. }
  destruct Hflags as (Hr & Hp & Hm).
  destruct r as [res|e].
  - destruct (completeAll_on_split_committed (id (UseAgent.nextTask k)) res
                l1 l2 nr (reads w1) H1 H2 Hnr) as (x' & Hfst & Hc).
    unfold committed in Hc. rewrite Hnr in Hc.
    destruct Hc as (Hid & _ & Hst & _ & _ & Hdep).
    exists w1, k, l1, l2, x'.
    rewrite iterationEnd_tasks, Htasks, Hfst, no_followUp, app_nil_r.
    rewrite Hf1, Hf2, Hf3, Hf4, Hcur, Hr, Hp, Hm.
    repeat split; auto.
  - eexists w1, k, l1, l2, _.
    split; [reflexivity|]. split; [exact Hts|]. split; [exact Hpend|].
    split.
    { unfold UseAgent.iterationEnd. cbn. rewrite Htasks.
      rewrite (map_on_split _ _ l1 l2 _ H1 H2 Hnr). reflexivity. }
    rewrite Hf1, Hf2, Hf3, Hf4, Hcur, Hr, Hp, Hm.
    repeat split; reflexivity.
Qed.

End Draining.

Lemma pending_task_is_started (E : Env) (w : World) (t : Task) :
  (forall ts u, In u ts -> In u (prioritizeTasks E ts)) ->
  isRunning (store w) = true -> isPaused (store w) = false ->
  currentIteration (store w) < maxIterations (store w) ->
  In t (tasks (store w)) -> status t = pending -> dependencies t = None ->
  exists w' k, UseAgent.iterationStart E w = UseAgent.Awaiting w' k.
Proof.
  intros Hall Hrun Hp Hlt Hin Hs Hd.
  unfold UseAgent.iterationStart. cbv zeta.
  rewrite Hrun, Hp. cbn [negb orb].
  destruct (Z.geb_spec (currentIteration (store w)) (maxIterations (store w)));
    [lia|].
  assert (Hlen : (List.length (tasks (store w)) =? 0)%nat = false).
  { destruct (tasks (store w)); [destruct Hin | reflexivity]. }
  rewrite Hlen. cbn [andb].
  destruct (find _ _) as [next|] eqn:Hf.
  - destruct (mode_eqb _ _ && _); eexists; eexists; reflexivity.
  - exfalso. pose proof (find_none _ _ Hf t (Hall _ _ Hin)) as Hn.
    unfold UseAgent.eligible, statusIs, UseAgent.hasPendingDependencies in Hn.
    rewrite Hs, Hd in Hn. discriminate.
Qed.

Lemma countStatus_positive (st : TaskStatus) (w : World) (n : nat) :
  countStatus st w = S n ->
  exists t, In t (tasks (store w)) /\ status t = st.
Proof.
  unfold countStatus. intros H.
  destruct (filter (statusIs st) (tasks (store w))) as [|t l] eqn:Hf;
    [discriminate|].
  assert (Hin : In t (filter (statusIs st) (tasks (store w))))
    by (rewrite Hf; left; reflexivity).
  apply filter_In in Hin. destruct Hin as [Hin Hs].
  exists t. split; [exact Hin|].
  unfold statusIs in Hs. destruct (status t), st; try discriminate; reflexivity.
Qed.



(** X15. The queue drains. In a running session of the first hook whose
    iterations do not overlap, with distinct ids, no dependencies, no
    follow-up task and room in the budget for every pending task, as many
    iterations as there are pending tasks leave none pending, whether the
    executor calls succeed or fail, and each of them counted. *)
Theorem pending_tasks_are_all_executed :
  forall (E : Env) (rs : list (Settled string)) (w : World),
    (forall ts t, In t (prioritizeTasks E ts) -> In t ts) ->
    (forall ts t, In t ts -> In t (prioritizeTasks E ts)) ->
    (forall t res o, generateFollowUpTasks E t res o = []) ->
    NoDup (map id (tasks (store w))) ->
    Forall (fun t => dependencies t = None) (tasks (store w)) ->
    isRunning (store w) = true ->
    isPaused (store w) = false ->
    currentIteration (store w) + Z.of_nat (countStatus pending w)
      <= maxIterations (store w) ->
    List.length rs = countStatus pending w ->
    countStatus pending (iterations E w rs) = 0%nat
    /\ currentIteration (store (iterations E w rs))
       = currentIteration (store w) + Z.of_nat (List.length rs)
    /\ List.length (tasks (store (iterations E w rs)))
       = List.length (tasks (store w))
    /\ isRunning (store (iterations E w rs)) = true
    /\ isPaused (store (iterations E w rs)) = false.
Proof.
  intros E rs. induction rs as [|r rs IH];
    intros w Hsub Hall Hnf Hnd Hdeps Hrun Hp Hbud Hlen.
  - cbn in *. repeat split; auto. lia.
  - cbn [List.length] in Hlen. symmetry in Hlen.
    destruct (countStatus_positive pending w _ Hlen) as (t & Hin & Hs).
    assert (Hne : tasks (store w) <> [])
      by (intros H0; rewrite H0 in Hin; destruct Hin).
    assert (Hd : dependencies t = None)
      by (rewrite Forall_forall in Hdeps; exact (Hdeps t Hin)).
    assert (Hlt : currentIteration (store w) < maxIterations (store w)) by lia.
    destruct (pending_task_is_started E w t Hall Hrun Hp Hlt Hin Hs Hd)
      as (w0 & k0 & Hstart).
    destruct (iterate_step E Hsub Hnf w r Hnd Hne)
      as [(_ & _ & _ & Hno)
         | (w1 & k & l1 & l2 & x & _ & Hts & Hpend & Ht & Hid & Hdx & Hst
            & Hc & Hr' & Hp' & Hm')].
    { exfalso. exact (Hno w0 k0 Hstart). }
    assert (Hcount : countStatus pending (iterate E w r) = List.length rs).
    { rewrite (countStatus_split pending _ l1 l2 x Ht), Hst.
      rewrite (countStatus_split pending w l1 l2 _ Hts), Hpend in Hlen.
      destruct r; cbn in *; lia. }
    cbn [iterations fold_left]. fold (iterations E (iterate E w r) rs).
    destruct (IH (iterate E w r)) as (H1 & H2 & H3 & H4 & H5); auto.
    + rewrite Ht, map_app. cbn. rewrite Hid.
      rewrite Hts, map_app in Hnd. exact Hnd.
    + rewrite Ht. rewrite Hts in Hdeps.
      apply Forall_app in Hdeps. destruct Hdeps as [D1 D2].
      apply Forall_app. split; [exact D1|].
      inversion D2 as [|? ? Dn D2']; subst.
      constructor; [congruence | exact D2'].
    + congruence.
    + congruence.
    + rewrite Hc, Hm', Hcount. lia.
    + repeat split; auto.
      * rewrite H2, Hc. cbn [List.length]. lia.
      * rewrite H3, Ht, Hts, !length_app. reflexivity.
Qed.

Lemma sortByPriority_all (ts : list Task) (t : Task) :
  In t ts -> In t (sortByPriority ts).
Proof.
  induction ts as [|u rest IH]; cbn; [auto|].
  assert (Hins : forall a b l, (a = b \/ In a l) -> In a (insertByPriority b l)).
  { intros a b l. induction l as [|v l IHl]; cbn.
    - intros [-> | []]. left; reflexivity.
    - destruct (priority v >? priority b); cbn.
      + intros [-> | [<- | H]]; [right; apply IHl; left; reflexivity
                                 | left; reflexivity
                                 | right; apply IHl; right; exact H].
      + intros [-> | [<- | H]]; [left; reflexivity | right; left; reflexivity
                                 | right; right; exact H]. }
  intros [<- | H]; apply Hins; [left; reflexivity | right; exact (IH H)].
Qed.

Lemma pending_tasks_are_all_executed_witness :
  let rs := [Fulfilled "Outline ready";
             Rejected (ErrorObject "Request timed out");
             Fulfilled "Published"] in
  let w := session [T1; T2; T3] in
  countStatus pending (iterations sampleEnv w rs) = 0%nat
  /\ currentIteration (store (iterations sampleEnv w rs))
     = currentIteration (store w) + Z.of_nat (List.length rs)
  /\ List.length (tasks (store (iterations sampleEnv w rs)))
     = List.length (tasks (store w))
  /\ isRunning (store (iterations sampleEnv w rs)) = true
  /\ isPaused (store (iterations sampleEnv w rs)) = false.
Proof.
  intros rs w.
  apply (pending_tasks_are_all_executed sampleEnv rs w).
  - exact sortByPriority_In.
  - exact sortByPriority_all.
  - reflexivity.
  - apply distinct_NoDup. reflexivity.
  - repeat constructor.
  - reflexivity.
  - reflexivity.
  - cbn; lia.
  - reflexivity.
Defined.

(** * The commands *)

Lemma blank_when_empty (s : string) : isBlank s = false -> s <> "".
Proof. intros H ->. discriminate. Qed.

(** X16. [startAgent] of the first hook refuses an objective that is empty or
    only white space: it logs one [error] entry and leaves the flags, the
    tasks, the counter, the interval and the suspended iterations as they
    were. *)
Theorem startAgent_refuses_blank_objective :
  forall (E : Env) (h : UseAgent.Hook),
    isBlank (objective (store (UseAgent.world h))) = true ->
    let h' := UseAgentCommands.startAgent E h in
    isRunning (store (UseAgent.world h')) = isRunning (store (UseAgent.world h))
    /\ isPaused (store (UseAgent.world h')) = isPaused (store (UseAgent.world h))
    /\ tasks (store (UseAgent.world h')) = tasks (store (UseAgent.world h))
    /\ currentIteration (store (UseAgent.world h'))
       = currentIteration (store (UseAgent.world h))
    /\ UseAgent.agentLoopRef h' = UseAgent.agentLoopRef h
    /\ UseAgent.awaiting h' = UseAgent.awaiting h
    /\ exists e,
         executionLog (store (UseAgent.world h'))
         = (executionLog (store (UseAgent.world h)) ++ [e])%list
         /\ Log.type e = LogType.error
         /\ Log.message e = "❌ Please enter an objective first".
Proof.
  intros E h Hb h'. subst h'. unfold UseAgentCommands.startAgent. cbv zeta.
  rewrite Hb. cbn. repeat split. eexists. repeat split; reflexivity.
Qed.

Lemma startAgent_refuses_blank_objective_witness :
  let h := UseAgent.mkHook
             (AgentStore.setObjective "   " (AgentStore.initial sampleEnv))
             false [] in
  isRunning (store (UseAgent.world (UseAgentCommands.startAgent sampleEnv h)))
    = false
  /\ tasks (store (UseAgent.world (UseAgentCommands.startAgent sampleEnv h)))
     = [].
Proof.
  intros h.
  destruct (startAgent_refuses_blank_objective sampleEnv h eq_refl)
    as (H1 & _ & H3 & _).
  split; [exact H1 | exact H3].
Defined.

(** X17. Started from idle with an objective that is not blank and no tasks, the
    first hook runs its first iteration at once: the loop is running, the
    interval is armed and the sequence holds the initial tasks before any
    timer has fired. *)
Theorem startAgent_seeds_at_once :
  forall (E : Env) (h : UseAgent.Hook),
    isBlank (objective (store (UseAgent.world h))) = false ->
    isRunning (store (UseAgent.world h)) = false ->
    UseAgent.agentLoopRef h = false ->
    tasks (store (UseAgent.world h)) = [] ->
    currentIteration (store (UseAgent.world h))
      < maxIterations (store (UseAgent.world h)) ->
    let h' := UseAgentCommands.startAgent E h in
    isRunning (store (UseAgent.world h')) = true
    /\ isPaused (store (UseAgent.world h')) = false
    /\ UseAgent.agentLoopRef h' = true
    /\ UseAgent.awaiting h' = UseAgent.awaiting h
    /\ tasks (store (UseAgent.world h'))
       = generateInitialTasks E (objective (store (UseAgent.world h)))
    /\ currentIteration (store (UseAgent.world h'))
       = currentIteration (store (UseAgent.world h)).
Proof.
  intros E h Hb Hrun Href Hts Hlt h'. subst h'.
  pose proof (blank_when_empty _ Hb) as Hobj.
  unfold UseAgentCommands.startAgent. cbv zeta. rewrite Hb.
  unfold UseAgent.useEffect. cbn. rewrite Hrun. cbn.
  unfold UseAgent.stopAgentLoop at 1. cbn. rewrite Href.
  unfold UseAgent.startAgentLoop. cbn.
  unfold UseAgent.executeAgentIteration, UseAgent.iterationStart. cbn.
  destruct (Z.geb_spec (currentIteration (store (UseAgent.world h)))
                       (maxIterations (store (UseAgent.world h)))); [lia|].
  rewrite Hts. cbn.
  assert (Ht : truthy (objective (store (UseAgent.world h))) = true).
  { unfold truthy. apply negb_true_iff, String.eqb_neq. exact Hobj. }
  rewrite Ht. cbn. rewrite addTasks_store. cbn. rewrite Hts.
  repeat split; reflexivity.
Qed.

Lemma startAgent_seeds_at_once_witness :
  let h := UseAgent.mkHook
             (AgentStore.setObjective "Write a blog post"
                (AgentStore.initial sampleEnv))
             false [] in
  tasks (store (UseAgent.world (UseAgentCommands.startAgent sampleEnv h)))
    = [pendingTask "task-1" "Write a blog post" 1 None]
  /\ UseAgent.agentLoopRef (UseAgentCommands.startAgent sampleEnv h) = true.
Proof.
  intros h.
  destruct (startAgent_seeds_at_once sampleEnv h)
    as (_ & _ & H3 & _ & H5 & _);
    [reflexivity | reflexivity | reflexivity | reflexivity | cbn; lia |].
  split; [exact H5 | exact H3].
Defined.

(** X18. The store's [pauseAgent] only ever pauses: pausing twice is pausing
    once, and a paused store stays paused. The store's [startAgent] is the
    resume: after a pause it clears [isPaused] and gives back the store it
    was called on before the pause, if that one was running and unpaused. *)
Theorem pause_is_idempotent_and_start_resumes :
  forall w : World,
    AgentStore.pauseAgent (AgentStore.pauseAgent w) = AgentStore.pauseAgent w
    /\ isPaused (store (AgentStore.pauseAgent w)) = true
    /\ (isRunning (store w) = true -> isPaused (store w) = false ->
        AgentStore.startAgent (AgentStore.pauseAgent w) = w).
Proof.
  intros [s n]. split; [reflexivity|]. split; [reflexivity|].
  cbn. intros Hr Hp. destruct s; cbn in *. subst. reflexivity.
Qed.

(** X19. [pauseAgent] of the callback hook is a toggle: called twice it restores
    [isPaused], leaves tasks, counter and [isRunning] alone, and logs two
    [info] entries that name the pause and the resume in the order they
    happened. *)
Theorem callback_pauseAgent_toggles :
  forall (E : Env) (w : World),
    let w2 := UseAgentCallback.pauseAgent E (UseAgentCallback.pauseAgent E w) in
    isPaused (store (UseAgentCallback.pauseAgent E w))
      = negb (isPaused (store w))
    /\ isPaused (store w2) = isPaused (store w)
    /\ isRunning (store w2) = isRunning (store w)
    /\ tasks (store w2) = tasks (store w)
    /\ currentIteration (store w2) = currentIteration (store w)
    /\ exists e1 e2,
         executionLog (store w2) = (executionLog (store w) ++ [e1; e2])%list
         /\ Log.type e1 = LogType.info /\ Log.type e2 = LogType.info
         /\ (Log.message e1, Log.message e2)
            = if isPaused (store w)
              then ("Agent resumed", "Agent paused")
              else ("Agent paused", "Agent resumed").
Proof.
  intros E w. cbn.
  rewrite negb_involutive. repeat split.
  eexists; eexists. rewrite <- app_assoc. split; [reflexivity|].
  destruct (isPaused (store w)); repeat split; reflexivity.
Qed.

(** X20. [startAgent] of the callback hook does not look at the tasks already
    there: with an objective that is not blank it appends the prioritized
    initial tasks to whatever the sequence holds, so a second start adds a
    second batch; it then sets [isRunning] and clears [isPaused]. A blank
    objective changes neither tasks nor flags. Either way one entry is
    logged. *)
Theorem callback_startAgent_appends_initial_tasks :
  forall (E : Env) (w : World),
    let w' := UseAgentCommands.callbackStartAgent E w in
    let blank := isBlank (objective (store w)) in
    tasks (store w')
      = (if blank then tasks (store w)
         else (tasks (store w)
               ++ prioritizeTasks E
                    (generateInitialTasks E (objective (store w))))%list)
    /\ isRunning (store w') = (if blank then isRunning (store w) else true)
    /\ isPaused (store w') = (if blank then isPaused (store w) else false)
    /\ currentIteration (store w') = currentIteration (store w)
    /\ exists e,
         executionLog (store w') = (executionLog (store w) ++ [e])%list
         /\ Log.type e = if blank then LogType.error else LogType.info.
Proof.
  intros E w. cbv zeta. unfold UseAgentCommands.callbackStartAgent. cbv zeta.
  destruct (isBlank (objective (store w))).
  - cbn. repeat split. eexists. split; reflexivity.
  - cbn. rewrite addTasks_store. cbn. repeat split.
    eexists. split; reflexivity.
Qed.

(** * The install banner *)

(** X21. Whatever happens to the install banner, while it is shown a captured
    prompt is held: the Install button never finds [deferredPrompt] empty. *)
Theorem shown_banner_holds_a_prompt :
  forall evs : list PWAInstall.Event,
    let s := PWAInstall.run PWAInstall.initial evs in
    PWAInstall.showInstall s = true ->
    PWAInstall.deferredPrompt s <> None.
Proof.
  intros evs.
  assert (H : forall s0,
            (PWAInstall.showInstall s0 = true ->
             PWAInstall.deferredPrompt s0 <> None) ->
            PWAInstall.showInstall (PWAInstall.run s0 evs) = true ->
            PWAInstall.deferredPrompt (PWAInstall.run s0 evs) <> None).
  { induction evs as [|ev evs IH]; intros s0 Hinv; [exact Hinv|].
    cbn [PWAInstall.run fold_left]. apply IH.
    destruct ev as [e| |o| |]; cbn.
    - intros _. discriminate.
    - destruct (PWAInstall.showInstall s0) eqn:Hs; [|rewrite Hs; exact Hinv].
      unfold PWAInstall.handleInstall.
      destruct (PWAInstall.deferredPrompt s0) eqn:Hd; cbn;
        [intros _; discriminate | rewrite Hs, Hd; exact Hinv].
    - unfold PWAInstall.handleInstallEnd.
      destruct (PWAInstall.choosing s0); [exact Hinv|].
      destruct o; cbn; [discriminate | exact Hinv].
    - destruct (PWAInstall.showInstall s0) eqn:Hs; cbn;
        [discriminate | rewrite Hs; exact Hinv].
    - destruct (PWAInstall.showInstall s0) eqn:Hs; cbn;
        [discriminate | rewrite Hs; exact Hinv]. }
  apply H. cbn. discriminate.
Qed.

Lemma shown_banner_holds_a_prompt_witness :
  PWAInstall.deferredPrompt
    (PWAInstall.run PWAInstall.initial
       [PWAInstall.BeforeInstallPrompt 1; PWAInstall.ClickInstall;
        PWAInstall.UserChoice PWAInstall.dismissed])
  <> None.
Proof.
  apply (shown_banner_holds_a_prompt
           [PWAInstall.BeforeInstallPrompt 1; PWAInstall.ClickInstall;
            PWAInstall.UserChoice PWAInstall.dismissed]).
  reflexivity.
Defined.

(** * Instances of the properties of the first hook's selection *)

Lemma selected_task_dependencies_completed_witness :
  exists w' k,
    UseAgent.iterationStart sampleEnv (session [T_done; T3_dangling; T_self])
      = UseAgent.Awaiting w' k
    /\ status (UseAgent.nextTask k) = pending
    /\ forall deps d u,
         dependencies (UseAgent.nextTask k) = Some deps -> In d deps ->
         find (fun t' => (id t' =? d)%string)
              (tasks (store (session [T_done; T3_dangling; T_self]))) = Some u ->
         status u = completed.
Proof.
  eexists; eexists.
  assert (H : UseAgent.iterationStart sampleEnv
                (session [T_done; T3_dangling; T_self])
              = UseAgent.Awaiting _ _) by (vm_compute; reflexivity).
  split; [exact H|].
  exact (selected_task_dependencies_completed sampleEnv _ _ _ H).
Defined.

Lemma first_hook_completes_iff_witness :
  exists w',
    UseAgent.iterationStart sampleEnv (session [T_done; T2_failed])
    = UseAgent.Completed w'.
Proof.
  destruct (first_hook_completes_iff sampleEnv sortByPriority_In
              (session [T_done; T2_failed]))
    as [[_ Hif] _]; [reflexivity | reflexivity | cbn; lia |].
  apply Hif. split.
  - constructor; [left; reflexivity|].
    constructor; [right; reflexivity | constructor].
  - exists T_done. split; [left; reflexivity | reflexivity].
Defined.

Lemma first_hook_idles_when_blocked_witness :
  UseAgent.iterationStart sampleEnv (session [T1_after_T2; T2_failed])
  = UseAgent.NothingToRun (session [T1_after_T2; T2_failed]).
Proof.
  apply (first_hook_idles_when_blocked sampleEnv sortByPriority_In
           (session [T1_after_T2; T2_failed]) T1_after_T2).
  - reflexivity.
  - reflexivity.
  - cbn; lia.
  - left; reflexivity.
  - reflexivity.
  - intros u [<- | [<- | []]] Hs; [reflexivity | discriminate].
Defined.

Lemma one_running_when_serialized_witness :
  exists w' k,
    UseAgent.iterationStart sampleEnv (session [T1; T2]) = UseAgent.Awaiting w' k
    /\ countStatus running w' = 1%nat
    /\ countStatus running
         (UseAgent.iterationEnd sampleEnv k (Fulfilled "Outline ready") w')
       = 0%nat.
Proof.
  eexists; eexists.
  assert (H : UseAgent.iterationStart sampleEnv (session [T1; T2])
              = UseAgent.Awaiting _ _) by (vm_compute; reflexivity).
  split; [exact H|].
  destruct (one_running_when_serialized sampleEnv (session [T1; T2]) _ _
              sortByPriority_In
              (distinct_NoDup (map id [T1; T2]) eq_refl) eq_refl H)
    as [H1 H2].
  split; [exact H1|].
  apply H2. constructor.
Defined.

(** * Running tasks and executor calls in flight *)

Section InFlight.

Variable E : Env.

Hypothesis prioritize_sub :
  forall ts t, In t (prioritizeTasks E ts) -> In t ts.

Hypothesis no_followUp :
  forall t res o, generateFollowUpTasks E t res o = [].

Lemma same_id_same_task (ts : list Task) (a b : Task) :
  NoDup (map id ts) -> In a ts -> In b ts -> id a = id b -> a = b.
Proof.
  intros Hnd Ha Hb Hid.
  destruct (split_by_id ts a Hnd Ha) as (l1 & l2 & Hts & H1 & H2).
  rewrite Hts in Hb. apply in_app_or in Hb.
  destruct Hb as [Hb | [Hb | Hb]]; [| auto |].
  - specialize (H1 b Hb). rewrite Hid, String.eqb_refl in H1. discriminate.
  - specialize (H2 b Hb). rewrite Hid, String.eqb_refl in H2. discriminate.
Qed.

Lemma NoDup_snoc {A} (l : list A) (x : A) :
  NoDup l -> ~ In x l -> NoDup (l ++ [x]).
Proof.
  induction l as [|y l IH]; cbn; intros Hnd Hx.
  - constructor; [intros [] | constructor].
  - inversion Hnd as [|? ? Hy Hl]; subst. constructor.
    + intros Hin. apply in_app_or in Hin. destruct Hin as [Hin | [-> | []]];
        [exact (Hy Hin) | apply Hx; left; reflexivity].
    + apply IH; [exact Hl | intros Hin; apply Hx; right; exact Hin].
Qed.

Lemma removeAt_split {A} (l : list A) (n : nat) (k : A) :
  nth_error l n = Some k ->
  exists l1 l2, l = (l1 ++ k :: l2)%list
                /\ UseAgent.removeAt n l = (l1 ++ l2)%list.
Proof.
  revert n. induction l as [|x l IH]; intros n H.
  - destruct n; discriminate.
  - destruct n as [|n]; cbn in H.
    + injection H as ->. exists [], l. split; reflexivity.
    + destruct (IH n H) as (l1 & l2 & -> & Hr).
      exists (x :: l1), l2. cbn. rewrite Hr. split; reflexivity.
Qed.

Lemma other_running_stays (ts l1 l2 : list Task) (x y : Task) (i : string) :
  ts = (l1 ++ x :: l2)%list ->
  (exists t, In t ts /\ id t = i /\ status t = running) ->
  i <> id x \/ status x <> running ->
  id y = id x ->
  exists t, In t (l1 ++ y :: l2) /\ id t = i /\ status t = running.
Proof.
  intros Hts (t & Hin & Hid & Hst) Hne Hy.
  rewrite Hts in Hin. apply in_app_or in Hin.
  exists t. split; [|split; assumption].
  destruct Hin as [Hin | [Heq | Hin]].
  - apply in_or_app. left. exact Hin.
  - exfalso. subst t. destruct Hne as [Hne | Hne]; [apply Hne; auto | auto].
  - apply in_or_app. right. right. exact Hin.
Qed.

Lemma inFlight_start (w w1 : World) (k : UseAgent.Suspended)
                     (aw : list UseAgent.Suspended) :
  inFlight (tasks (store w)) aw ->
  UseAgent.iterationStart E w = UseAgent.Awaiting w1 k ->
  inFlight (tasks (store w1)) (aw ++ [k]).
Proof.
  intros (I1 & I2 & I3 & I4 & I5) Hs.
  destruct (iterationStart_awaiting E w w1 k Hs)
    as (_ & Hin & Hel & Htasks & _).
  apply prioritize_sub in Hin.
  assert (Hpend : status (UseAgent.nextTask k) = pending).
  { unfold UseAgent.eligible, statusIs in Hel.
    apply andb_true_iff in Hel. destruct Hel as [Hp _].
    destruct (status (UseAgent.nextTask k)); try discriminate; reflexivity. }
  destruct (split_by_id _ _ I1 Hin) as (l1 & l2 & Hts & H1 & H2).
  rewrite Hts in Htasks.
  rewrite (map_on_split _ _ l1 l2 _ H1 H2 (String.eqb_refl _)) in Htasks.
  set (nr := spread (UseAgent.nextTask k) _) in Htasks.
  assert (Hfresh : ~ In (id (UseAgent.nextTask k)) (nextIds aw)).
  { intros Hi. destruct (I4 _ Hi) as (t & Ht & Hid & Hst).
    rewrite (same_id_same_task _ _ _ I1 Ht Hin Hid) in Hst. congruence. }
  unfold inFlight. rewrite Htasks. repeat split.
  - rewrite map_app. cbn. rewrite Hts, map_app in I1. exact I1.
  - destruct l1; discriminate.
  - unfold nextIds. rewrite map_app. cbn. apply NoDup_snoc; assumption.
  - intros i Hi. unfold nextIds in Hi. rewrite map_app in Hi.
    apply in_app_or in Hi. destruct Hi as [Hi | [<- | []]].
    + apply (other_running_stays _ l1 l2 (UseAgent.nextTask k) nr i Hts
               (I4 i Hi)); [right; congruence | reflexivity].
    + exists nr. split; [apply in_or_app; right; left; reflexivity|].
      split; reflexivity.
  - rewrite Hts in I5. rewrite !filter_app, !length_app in *.
    cbn [filter] in *. unfold statusIs at 2. unfold statusIs at 2 in I5.
    rewrite Hpend in I5. cbn in *. lia.
Qed.

Lemma inFlight_settle (w : World) (k : UseAgent.Suspended)
                      (r : Settled string) (n : nat)
                      (aw : list UseAgent.Suspended) :
  inFlight (tasks (store w)) aw ->
  nth_error aw n = Some k ->
  inFlight (tasks (store (UseAgent.iterationEnd E k r w)))
           (UseAgent.removeAt n aw).
Proof.
  intros (I1 & I2 & I3 & I4 & I5) Hn.
  destruct (removeAt_split aw n k Hn) as (a1 & a2 & Haw & Hrem).
  rewrite Hrem. subst aw.
  unfold nextIds in I3, I4. rewrite map_app in I3, I4. cbn in I3, I4.
  destruct (I4 (id (UseAgent.nextTask k)))
    as (t & Ht & Hid & Hst);
    [apply in_or_app; right; left; reflexivity|].
  destruct (split_by_id _ _ I1 Ht) as (l1 & l2 & Hts & H1 & H2).
  rewrite Hid in H1, H2.
  assert (Htk : (id t =? id (UseAgent.nextTask k))%string = true)
    by (rewrite Hid; apply String.eqb_refl).
  assert (Hend : exists x,
            tasks (store (UseAgent.iterationEnd E k r w)) = (l1 ++ x :: l2)%list
            /\ id x = id t /\ status x <> running).
  { destruct r as [res|e].
    - destruct (completeAll_on_split_committed E (id (UseAgent.nextTask k)) res
                  l1 l2 t (reads w) H1 H2 Htk) as (x' & Hfst & Hc).
      unfold committed in Hc. rewrite Htk in Hc.
      destruct Hc as (Hix & _ & Hsx & _).
      exists x'. rewrite iterationEnd_tasks, no_followUp, app_nil_r, Hts, Hfst.
      split; [reflexivity|]. split; [exact Hix|]. rewrite Hsx. discriminate.
    - eexists. unfold UseAgent.iterationEnd. cbn. rewrite Hts.
      rewrite (map_on_split _ _ l1 l2 _ H1 H2 Htk).
      split; [reflexivity|]. split; [reflexivity|]. cbn. discriminate. }
  destruct Hend as (x & Htasks & Hix & Hsx).
  pose proof (NoDup_remove_1 _ _ _ I3) as I3'.
  pose proof (NoDup_remove_2 _ _ _ I3) as I3''.
  unfold inFlight. rewrite Htasks. repeat split.
  - rewrite map_app. cbn. rewrite Hix. rewrite Hts, map_app in I1. exact I1.
  - destruct l1; discriminate.
  - unfold nextIds. rewrite map_app. exact I3'.
  - intros i Hi. unfold nextIds in Hi. rewrite map_app in Hi.
    assert (Hne : i <> id t).
    { intros ->. apply I3''. rewrite <- Hid. rewrite <- map_app. 
      rewrite map_app. exact Hi. }
    apply (other_running_stays _ l1 l2 t x i Hts);
      [apply I4; apply in_app_or in Hi; apply in_or_app;
       destruct Hi as [Hi | Hi]; [left | right; right]; exact Hi
      | left; exact Hne | exact Hix].
  - rewrite Hts in I5. rewrite !filter_app, !length_app in *.
    cbn [filter List.length] in *.
    unfold statusIs at 2. unfold statusIs at 2 in I5.
    rewrite Hst in I5. cbn in I5.
    destruct (status x); try contradiction; cbn; lia.
Qed.

Lemma inFlight_executeAgentIteration (h : UseAgent.Hook) :
  inFlight (tasks (store (UseAgent.world h))) (UseAgent.awaiting h) ->
  inFlight (tasks (store (UseAgent.world (UseAgent.executeAgentIteration E h))))
           (UseAgent.awaiting (UseAgent.executeAgentIteration E h)).
Proof.
  intros Hinv. unfold UseAgent.executeAgentIteration.
  assert (Hne : tasks (store (UseAgent.world h)) <> []) by apply Hinv.
  pose proof (iterationStart_keeps_tasks E (UseAgent.world h) Hne) as Hkeep.
  destruct (UseAgent.iterationStart E (UseAgent.world h))
    as [w1|w1|w1|w1|w1|w1 k] eqn:Hs;
    rewrite ?stopAgentLoop_world, ?stopAgentLoop_awaiting;
    cbn [UseAgent.world UseAgent.awaiting UseAgent.worldOf] in *;
    try (rewrite Hkeep; exact Hinv).
  exact (inFlight_start _ _ _ _ Hinv Hs).
Qed.

Lemma inFlight_step (h : UseAgent.Hook) (ev : UseAgent.Event) :
  isReset ev = false ->
  inFlight (tasks (store (UseAgent.world h))) (UseAgent.awaiting h) ->
  inFlight (tasks (store (UseAgent.world (UseAgent.step E h ev))))
           (UseAgent.awaiting (UseAgent.step E h ev)).
Proof.
  intros Hev Hinv.
  assert (Heff : forall before g,
            inFlight (tasks (store (UseAgent.world g))) (UseAgent.awaiting g) ->
            inFlight (tasks (store (UseAgent.world (UseAgent.useEffect E before g))))
                     (UseAgent.awaiting (UseAgent.useEffect E before g))).
  { intros before g Hg. unfold UseAgent.useEffect. cbv zeta.
    destruct (Bool.eqb _ _ && Bool.eqb _ _); [exact Hg|].
    destruct (isRunning _ && negb _).
    - unfold UseAgent.startAgentLoop.
      destruct (UseAgent.agentLoopRef (UseAgent.stopAgentLoop g));
        [rewrite stopAgentLoop_world, stopAgentLoop_awaiting; exact Hg|].
      apply inFlight_executeAgentIteration. cbn.
      rewrite stopAgentLoop_world, stopAgentLoop_awaiting. exact Hg.
    - rewrite !stopAgentLoop_world, !stopAgentLoop_awaiting. exact Hg. }
  destruct ev as [|n r| | |text]; cbn [UseAgent.step]; try discriminate.
  - destruct (UseAgent.agentLoopRef h);
      [apply inFlight_executeAgentIteration |]; exact Hinv.
  - destruct (nth_error (UseAgent.awaiting h) n) as [k|] eqn:Hn; [|exact Hinv].
    destruct (UseAgent.replyMatches k r); [|exact Hinv].
    cbn. exact (inFlight_settle _ k _ n _ Hinv Hn).
  - apply Heff. cbn. exact Hinv.
  - cbn. exact Hinv.
Qed.

End InFlight.

(** X27. In a run of the first hook without a reset, timer firings and settling
    calls interleaved in any order, there are at every moment exactly as
    many running tasks as executor calls in flight, given distinct ids, a
    sequence that is not empty and no follow-up task. *)
Theorem running_tasks_are_calls_in_flight :
  forall (E : Env) (evs : list UseAgent.Event) (h : UseAgent.Hook),
    (forall ts t, In t (prioritizeTasks E ts) -> In t ts) ->
    (forall t res o, generateFollowUpTasks E t res o = []) ->
    noReset evs = true ->
    NoDup (map id (tasks (store (UseAgent.world h)))) ->
    tasks (store (UseAgent.world h)) <> [] ->
    UseAgent.awaiting h = [] ->
    countStatus running (UseAgent.world h) = 0%nat ->
    countStatus running (UseAgent.world (UseAgent.run E h evs))
    = List.length (UseAgent.awaiting (UseAgent.run E h evs)).
Proof.
  intros E evs h Hsub Hnf Hn Hnd Hne Haw Hrun.
  assert (H : forall evs0 g,
            noReset evs0 = true ->
            inFlight (tasks (store (UseAgent.world g))) (UseAgent.awaiting g) ->
            inFlight (tasks (store (UseAgent.world (UseAgent.run E g evs0))))
                     (UseAgent.awaiting (UseAgent.run E g evs0))).
  { intros evs0.
    induction evs0 as [|ev evs0 IH]; intros g Hn0 Hg; [exact Hg|].
    cbn in Hn0. apply andb_true_iff in Hn0. destruct Hn0 as [Hev Hn0].
    apply negb_true_iff in Hev.
    cbn [UseAgent.run fold_left]. apply (IH _ Hn0).
    apply inFlight_step; assumption. }
  assert (Hinv : inFlight (tasks (store (UseAgent.world h))) (UseAgent.awaiting h)).
  { unfold inFlight. rewrite Haw.
    split; [exact Hnd|]. split; [exact Hne|].
    split; [constructor|]. split; [intros i []|]. exact Hrun. }
  destruct (H evs h Hn Hinv) as (_ & _ & _ & _ & Hcount). exact Hcount.
Qed.

Lemma running_tasks_are_calls_in_flight_witness :
  let evs := [UseAgent.TimerFires; UseAgent.TimerFires;
              UseAgent.Settles 1 (SimReply (Fulfilled "Draft ready"));
              UseAgent.TimerFires] in
  countStatus running
    (UseAgent.world (UseAgent.run sampleEnv (mounted (session [T1; T2; T3])) evs))
  = List.length
      (UseAgent.awaiting (UseAgent.run sampleEnv (mounted (session [T1; T2; T3])) evs)).
Proof.
  intros evs.
  apply (running_tasks_are_calls_in_flight sampleEnv evs
           (mounted (session [T1; T2; T3]))).
  - exact sortByPriority_In.
  - reflexivity.
  - reflexivity.
  - apply distinct_NoDup. reflexivity.
  - discriminate.
  - reflexivity.
  - reflexivity.
Defined.

Lemma pause_is_idempotent_and_start_resumes_witness :
  AgentStore.startAgent (AgentStore.pauseAgent (session [T1; T2]))
  = session [T1; T2].
Proof.
  destruct (pause_is_idempotent_and_start_resumes (session [T1; T2]))
    as (_ & _ & H).
  apply H; reflexivity.
Defined.
